(** * perco-kt023-manager: the turnstile manager, embedded and verified

    A shallow embedding of [src/data_handler.py], [src/turnstile.py] and
    [main.py].  Text is a [string] of code points below 256, integers
    are [Z], a DataFrame is the list of its rows in index order, and the
    outside world (device, clock, spreadsheets, disk) is an explicit
    state that every method threads.  What the program leaves to the
    installed pandas and numpy (the order a sort gives to equal keys,
    the text of a missing cell) is a parameter, [Pandas.Installation]. *)

From Stdlib Require Import List String Ascii ZArith Lia Bool Permutation.
From Stdlib Require Import Sorted DecimalString DecimalPos.
Import ListNotations.

Local Open Scope string_scope.
Local Open Scope Z_scope.

(** ** Python's [str] methods used by the program *)

Module PyStr.

Definition tab : ascii := Ascii.ascii_of_nat 9.
Definition newline : ascii := Ascii.ascii_of_nat 10.

(** [str.isspace] on one code point below 256. *)
Definition is_space (c : ascii) : bool :=
  let n := Z.of_nat (nat_of_ascii c) in
  ((9 <=? n) && (n <=? 13)) || ((28 <=? n) && (n <=? 32))
  || (n =? 133) || (n =? 160).

Definition is_digit (c : ascii) : bool :=
  let n := Z.of_nat (nat_of_ascii c) in (48 <=? n) && (n <=? 57).

Definition digit_val (c : ascii) : Z := Z.of_nat (nat_of_ascii c) - 48.

Fixpoint lstrip (s : string) : string :=
  match s with
  | String c s' => if is_space c then lstrip s' else s
  | EmptyString => EmptyString
  end.

Fixpoint rstrip (s : string) : string :=
  match s with
  | String c s' =>
      match rstrip s' with
      | EmptyString => if is_space c then EmptyString else String c EmptyString
      | r => String c r
      end
  | EmptyString => EmptyString
  end.

(** [s.strip()] *)
Definition strip (s : string) : string := rstrip (lstrip s).

(** [s.split(sep)] for a one-character separator: never the empty list. *)
Fixpoint split (sep : ascii) (s : string) : list string :=
  match s with
  | EmptyString => [EmptyString]
  | String c s' =>
      if Ascii.eqb c sep then EmptyString :: split sep s'
      else match split sep s' with
           | f :: fs => String c f :: fs
           | [] => [String c EmptyString]
           end
  end.

(** [pat in s]; also [Series.str.contains(pat)] for a pattern without
    regular-expression metacharacters. *)
Fixpoint contains (pat s : string) : bool :=
  if String.prefix pat s then true
  else match s with
       | String _ s' => contains pat s'
       | EmptyString => false
       end.

Fixpoint take_digits (s : string) : string :=
  match s with
  | String c s' => if is_digit c then String c (take_digits s') else EmptyString
  | EmptyString => EmptyString
  end.

(** [Series.str.extract(r"(\d+)")] on one cell: the first maximal run of
    digits, or NaN ([None]) when the cell has no digit. *)
Fixpoint extract_digits (s : string) : option string :=
  match s with
  | String c s' =>
      if is_digit c then Some (String c (take_digits s')) else extract_digits s'
  | EmptyString => None
  end.

Fixpoint digits_value (acc : Z) (s : string) : Z :=
  match s with
  | String c s' => digits_value (10 * acc + digit_val c) s'
  | EmptyString => acc
  end.

(** [pd.to_numeric] on a cell made of digits (an integer of any size;
    the column's 64-bit range is not modelled). *)
Definition to_numeric (s : string) : Z := digits_value 0 s.

(** [str(n)] for an integer. *)
Definition str_int (z : Z) : string := NilZero.string_of_int (Z.to_int z).

(** [n:02d]-style zero padding, as [strftime] does for its fields. *)
Definition pad2 (z : Z) : string :=
  if z <? 10 then String "0" (str_int z) else str_int z.

(** [float(z)] for an integer: the double nearest to it, ties to the
    even mantissa.  Its value is a whole number again. *)
Definition float_of_int (z : Z) : Z :=
  let a := Z.abs z in
  if a <? 2 ^ 53 then z
  else
    let shift := Z.log2 a - 52 in
    let q := Z.shiftr a shift in
    let r := a - Z.shiftl q shift in
    let half := Z.shiftl 1 (shift - 1) in
    let q' := if (half <? r) || ((r =? half) && Z.odd q) then q + 1 else q in
    Z.sgn z * Z.shiftl q' shift.

(** The decimal [c] reads back as the double [x] (both whole, [x] at
    least 2^53): it lies within half a gap of [x], the bounds included
    when the mantissa of [x] is even.  Everything is scaled by 4; below
    a power of two the gap is half as wide. *)
Definition reads_back (x c : Z) : bool :=
  let e := Z.log2 x in
  let ulp := 2 ^ (e - 52) in
  let below := if x =? 2 ^ e then ulp else 2 * ulp in
  let lo := 4 * x - below in
  let hi := 4 * x + 2 * ulp in
  if Z.even (x / ulp) then (lo <=? 4 * c) && (4 * c <=? hi)
  else (lo <? 4 * c) && (4 * c <? hi).

(** The shortest decimal that reads back as [x], the nearest one when
    two are as short; [p] is the power of ten of the last digit kept. *)
Fixpoint shortest (fuel : nat) (x p : Z) : Z :=
  match fuel with
  | O => x
  | S fuel' =>
      let lo := (x / p) * p in
      let hi := lo + p in
      match reads_back x lo, reads_back x hi with
      | true, true =>
          if x - lo <? hi - x then lo
          else if hi - x <? x - lo then hi
          else if Z.even (lo / p) then lo else hi
      | true, false => lo
      | false, true => hi
      | false, false => shortest fuel' x (p / 10)
      end
  end.

Fixpoint strip_zeros (s : string) : string :=
  match s with
  | EmptyString => EmptyString
  | String c s' =>
      match strip_zeros s' with
      | EmptyString => if Ascii.eqb c "0" then EmptyString else String c EmptyString
      | r => String c r
      end
  end.

(** The exponent notation of a positive whole number: [d.ddde+XX]. *)
Definition repr_exp (c : Z) : string :=
  let s := str_int c in
  match strip_zeros s with
  | String d rest =>
      String d (match rest with EmptyString => EmptyString | _ => String "." rest end)
      ++ "e+" ++ pad2 (Z.of_nat (String.length s) - 1)
  | EmptyString => s
  end.

(** [str(x)] for the float [x = float(z)] of a whole number: the digits
    and [.0] below 10^16, the shortest exponent notation from there on. *)
Definition str_float (z : Z) : string :=
  let x := float_of_int z in
  let a := Z.abs x in
  if a <? 10 ^ 16 then str_int x ++ ".0"
  else
    let n := String.length (str_int a) in
    (if x <? 0 then "-" else "")
    ++ repr_exp (shortest n a (10 ^ (Z.of_nat n - 1))).

Definition lower_char (c : ascii) : ascii :=
  let n := nat_of_ascii c in
  if ((65 <=? Z.of_nat n) && (Z.of_nat n <=? 90))
     || ((192 <=? Z.of_nat n) && (Z.of_nat n <=? 222) && negb (Z.of_nat n =? 215))
  then ascii_of_nat (n + 32) else c.

(** [s.lower()] *)
Fixpoint lower (s : string) : string :=
  match s with
  | String c s' => String (lower_char c) (lower s')
  | EmptyString => EmptyString
  end.

End PyStr.

(** ** Calendar arithmetic and [pd.to_datetime(..., format="%d/%m/%y %H:%M:%S")] *)

Module PyTime.

Import PyStr.

(** Days between 1970-01-01 and the civil date [y]-[m]-[d]. *)
Definition days_from_civil (y m d : Z) : Z :=
  let y' := if m <=? 2 then y - 1 else y in
  let era := y' / 400 in
  let yoe := y' - era * 400 in
  let mp := if m <=? 2 then m + 9 else m - 3 in
  let doy := (153 * mp + 2) / 5 + d - 1 in
  let doe := yoe * 365 + yoe / 4 - yoe / 100 + doy in
  era * 146097 + doe - 719468.

Definition is_leap (y : Z) : bool :=
  ((y mod 4 =? 0) && negb (y mod 100 =? 0)) || (y mod 400 =? 0).

Definition days_in_month (y m : Z) : Z :=
  if m =? 2 then (if is_leap y then 29 else 28)
  else if (m =? 4) || (m =? 6) || (m =? 9) || (m =? 11) then 30 else 31.

(** One piece of the regular expression a [strptime] format compiles to. *)
Inductive item :=
  | Lit (c : ascii)                                  (* a literal character *)
  | Spaces                                           (* [\s+] *)
  | Field (alts : list (string -> option (Z * string))).  (* [(a|b|...)] *)

Definition in_range (lo hi : Z) (c : ascii) : bool :=
  let n := Z.of_nat (nat_of_ascii c) - 48 in (lo <=? n) && (n <=? hi).

(** Alternative [[a-b][c-d]] of a directive: two digits. *)
Definition two (lo1 hi1 lo2 hi2 : Z) (s : string) : option (Z * string) :=
  match s with
  | String c1 (String c2 s') =>
      if in_range lo1 hi1 c1 && in_range lo2 hi2 c2
      then Some (10 * digit_val c1 + digit_val c2, s') else None
  | _ => None
  end.

(** Alternative [[a-b]]: one digit. *)
Definition one (lo hi : Z) (s : string) : option (Z * string) :=
  match s with
  | String c s' => if in_range lo hi c then Some (digit_val c, s') else None
  | _ => None
  end.

(** Alternative [ [1-9]] of [%d]: a space, then a digit. *)
Definition space_one (s : string) : option (Z * string) :=
  match s with
  | String c s' => if Ascii.eqb c " " then one 1 9 s' else None
  | _ => None
  end.

Definition re_d := Field [two 3 3 0 1; two 1 2 0 9; two 0 0 1 9; one 1 9; space_one].
Definition re_m := Field [two 1 1 0 2; two 0 0 1 9; one 1 9].
Definition re_y := Field [two 0 9 0 9].
Definition re_H := Field [two 2 2 0 3; two 0 1 0 9; one 0 9].
Definition re_M := Field [two 0 5 0 9; one 0 9].
Definition re_S := Field [two 6 6 0 1; two 0 5 0 9; one 0 9].

(** The format ["%d/%m/%y %H:%M:%S"] of line 137. *)
Definition report_format : list item :=
  [re_d; Lit "/"; re_m; Lit "/"; re_y; Spaces; re_H; Lit ":"; re_M; Lit ":"; re_S].

(** What is left of [s] after one, two, ... leading white-space
    characters, the longest run first (a greedy [\s+]). *)
Fixpoint space_tails (s : string) : list string :=
  match s with
  | String c s' => if is_space c then space_tails s' ++ [s'] else []
  | EmptyString => []
  end.

Fixpoint first_some {A B : Type} (f : A -> option B) (l : list A) : option B :=
  match l with
  | [] => None
  | a :: l' => match f a with Some b => Some b | None => first_some f l' end
  end.

(** [re.match]: the first match in the order a backtracking matcher tries
    them; returns the fields and the text left over. *)
Fixpoint re_match (items : list item) (s : string) : option (list Z * string) :=
  match items with
  | [] => Some ([], s)
  | Lit c :: rest =>
      match s with
      | String c' s' => if Ascii.eqb c c' then re_match rest s' else None
      | EmptyString => None
      end
  | Spaces :: rest => first_some (re_match rest) (space_tails s)
  | Field alts :: rest =>
      first_some
        (fun alt =>
           match alt s with
           | Some (v, s') =>
               match re_match rest s' with
               | Some (vs, s'') => Some (v :: vs, s'')
               | None => None
               end
           | None => None
           end) alts
  end.

(** [strptime] with exact matching: seconds since the epoch, or [None]
    where pandas raises [ValueError] (no match, text left over, or a day
    the month does not have).  A two-digit year up to 68 is in the 2000s. *)
Definition strptime (s : string) : option Z :=
  match re_match report_format s with
  | Some ([d; m; y; hh; mm; ss], EmptyString) =>
      let year := if y <=? 68 then y + 2000 else y + 1900 in
      if d <=? days_in_month year m
      then Some (days_from_civil year m d * 86400 + hh * 3600 + mm * 60 + ss)
      else None
  | _ => None
  end.

(** pandas' [nat_strings]: text that stands for a missing time. *)
Definition nat_strings : list string := ["NaT"; "nat"; "NAT"; "nan"; "NaN"; "NAN"].

Definition is_nat_string (s : string) : bool :=
  String.eqb s "" || existsb (String.eqb s) nat_strings.

(** One cell of [pd.to_datetime(col, format=...)] with the default
    [errors="raise"]: [None] is the [ValueError]; [Some None] is [NaT],
    which an empty cell or a cell of [nat_strings] gives without any
    parsing; [Some (Some t)] is a timestamp. *)
Definition to_datetime (s : string) : option (option Z) :=
  if is_nat_string s then Some None
  else match strptime s with
       | Some t => Some (Some t)
       | None => None
       end.

(** [Series.dt.date]: the calendar day of a timestamp, as a day number. *)
Definition dt_date (t : option Z) : option Z := option_map (fun t => t / 86400) t.

(** A wall-clock reading, [datetime.now()]. *)
Record datetime := {
  year : Z; month : Z; day : Z; hour : Z; minute : Z; second : Z
}.

(** [now.date()] as a day number. *)
Definition date (n : datetime) : Z := days_from_civil (year n) (month n) (day n).

(** [now.strftime("%Y%m%d_%H%M%S")] *)
Definition strftime (n : datetime) : string :=
  str_int (year n) ++ pad2 (month n) ++ pad2 (day n) ++ "_"
  ++ pad2 (hour n) ++ pad2 (minute n) ++ pad2 (second n).

End PyTime.

(** ** The pandas operations of the program, on lists of rows *)

Module Pandas.

Section Generic.
Context {A : Type}.

(** [drop_duplicates()]: the first of equal rows stays. *)
Fixpoint drop_duplicates (eqb : A -> A -> bool) (l : list A) : list A :=
  match l with
  | [] => []
  | a :: l' => a :: filter (fun b => negb (eqb a b)) (drop_duplicates eqb l')
  end.

(** [left.merge(right, on=key, how="left")]: left order is kept; a left
    row is paired with each right row of its key, in right order, or
    with nothing when there is none. *)
Definition merge_left {B : Type} (lkey : A -> Z) (rkey : B -> option Z)
    (left : list A) (right : list B) : list (A * option B) :=
  flat_map
    (fun a =>
       match filter (fun b => match rkey b with
                              | Some k => k =? lkey a
                              | None => false
                              end) right with
       | [] => [(a, None)]
       | ms => map (fun b => (a, Some b)) ms
       end) left.

(** [frame.take(indexer)]: the rows at the positions the indexer lists,
    in its order. *)
Definition take (l : list A) (indexer : list nat) : list A :=
  flat_map (fun i => match nth_error l i with Some a => [a] | None => [] end) indexer.

(** Insertion of [x] in a list in descending [key] order, before the
    rows that have its key. *)
Fixpoint insert_desc (key : A -> Z) (x : A) (l : list A) : list A :=
  match l with
  | [] => [x]
  | y :: l' => if key x <? key y then y :: insert_desc key x l' else x :: l
  end.

(** A descending sort that leaves rows of equal key in their order. *)
Fixpoint stable_sort_desc (key : A -> Z) (l : list A) : list A :=
  match l with
  | [] => []
  | x :: l' => insert_desc key x (stable_sort_desc key l')
  end.
End Generic.

(** What the program leaves to the installed pandas and numpy.

    [sort_values(by=..., ascending=False)] is called with the default
    sort kind, which promises the descending order and nothing on the
    order of equal keys (it changes with the numpy build and the length
    of the column).  [order_desc keys] is the indexer the sort computes
    from the column of keys: the positions of the rows, each once, in an
    order that makes the keys descend.

    [astype(str)] writes a missing cell as the text "nan" up to pandas
    2 and leaves it missing from pandas 3 on: [nan_as_text]. *)
Class Installation := {
  order_desc : list Z -> list nat;
  order_desc_permutes :
    forall keys, Permutation (order_desc keys) (seq 0 (List.length keys));
  order_desc_descends :
    forall keys, StronglySorted (fun a b => b <= a) (take keys (order_desc keys));
  nan_as_text : bool
}.

(** [df.sort_values(by=key, ascending=False)]: the indexer is computed
    from the key column, then the rows are taken in its order. *)
Definition sort_values_desc `{Installation} {A : Type} (key : A -> Z) (l : list A)
    : list A :=
  take l (order_desc (map key l)).

(** The indexer of the stable sort. *)
Definition stable_order (keys : list Z) : list nat :=
  map fst (stable_sort_desc snd (combine (seq 0 (List.length keys)) keys)).

(** One installation, for the examples: a sort that leaves equal keys in
    their order, and pandas 2. *)
#[global] Instance pandas2 : Installation.
Proof.
  refine {| order_desc := stable_order; nan_as_text := true;
            order_desc_permutes := _; order_desc_descends := _ |}.
  - intros keys. unfold stable_order.
    assert (I : forall (y : nat * Z) m, Permutation (insert_desc snd y m) (y :: m)).
    { intros y m. induction m as [|z m IHm]; simpl; [reflexivity|].
      destruct (snd y <? snd z); [|reflexivity].
      eapply perm_trans; [apply perm_skip; exact IHm|apply perm_swap]. }
    assert (P : forall l : list (nat * Z), Permutation (stable_sort_desc snd l) l).
    { induction l as [|x l IH]; simpl; [constructor|].
      eapply perm_trans; [apply I|]. apply perm_skip. exact IH. }
    assert (F : forall (l : list Z) s,
               map fst (combine (seq s (List.length l)) l) = seq s (List.length l)).
    { induction l as [|a l IH]; intros s; simpl; [reflexivity|]. rewrite IH. reflexivity. }
    rewrite <- (F keys 0%nat) at 2. apply Permutation_map. apply P.
  - intros keys. unfold stable_order.
    assert (In_ins : forall (y z : nat * Z) m,
               In z (insert_desc snd y m) -> z = y \/ In z m).
    { intros y z m. induction m as [|u m IHm]; simpl; [intuition auto|].
      destruct (snd y <? snd u); simpl; intuition auto. }
    assert (In_sort : forall (z : nat * Z) l, In z (stable_sort_desc snd l) -> In z l).
    { intros z l. induction l as [|x l IH]; simpl; [auto|].
      intros H. apply In_ins in H. destruct H as [->|H]; auto. }
    assert (S_ins : forall (y : nat * Z) m,
               StronglySorted (fun p q => snd q <= snd p) m ->
               StronglySorted (fun p q => snd q <= snd p) (insert_desc snd y m)).
    { intros y m Hm. induction Hm as [|u m Hm IHm Hu]; simpl.
      - constructor; constructor.
      - destruct (snd y <? snd u) eqn:E.
        + apply Z.ltb_lt in E. constructor; [exact IHm|].
          apply Forall_forall. intros z Hz. apply In_ins in Hz.
          destruct Hz as [->|Hz]; [lia|]. rewrite Forall_forall in Hu. apply Hu. exact Hz.
        + apply Z.ltb_ge in E. constructor; [constructor; assumption|].
          constructor; [exact E|].
          eapply Forall_impl; [|exact Hu]. intros z Hz. simpl in Hz. lia. }
    assert (S_sort : forall l : list (nat * Z),
               StronglySorted (fun p q => snd q <= snd p) (stable_sort_desc snd l)).
    { induction l as [|x l IH]; simpl; [constructor|]. apply S_ins. exact IH. }
    assert (N : forall (l : list Z) s,
               Forall (fun p : nat * Z => (s <= fst p)%nat
                                          /\ nth_error l (fst p - s) = Some (snd p))
                      (combine (seq s (List.length l)) l)).
    { induction l as [|a l IH]; intros s; simpl; [constructor|]. constructor.
      - simpl. rewrite Nat.sub_diag. split; [lia|reflexivity].
      - eapply Forall_impl; [|exact (IH (S s))]. intros [i k] [Hle Hn]. simpl in *.
        split; [lia|]. replace (i - s)%nat with (S (i - S s)) by lia. exact Hn. }
    assert (T : forall qs : list (nat * Z),
               Forall (fun p => nth_error keys (fst p) = Some (snd p)) qs ->
               take keys (map fst qs) = map snd qs).
    { induction 1 as [|q qs Hq _ IH]; [reflexivity|].
      unfold take in *. simpl. rewrite Hq, IH. reflexivity. }
    rewrite T.
    + generalize (S_sort (combine (seq 0 (List.length keys)) keys)).
      induction 1 as [|q qs _ IH Hq]; simpl; constructor; [exact IH|].
      apply Forall_map. exact Hq.
    + apply Forall_forall. intros p Hp. apply In_sort in Hp.
      pose proof (N keys 0%nat) as HN. rewrite Forall_forall in HN.
      destruct (HN p Hp) as [_ Hn]. rewrite Nat.sub_0_r in Hn. exact Hn.
Defined.

Fixpoint insert_asc (x : Z) (l : list Z) : list Z :=
  match l with
  | [] => [x]
  | y :: l' => if x <=? y then x :: l else y :: insert_asc x l'
  end.

Fixpoint sort_asc (l : list Z) : list Z :=
  match l with
  | [] => []
  | x :: l' => insert_asc x (sort_asc l')
  end.

(** The group keys of [groupby(key)]: each once, ascending. *)
Definition group_keys (keys : list Z) : list Z :=
  sort_asc (nodup Z.eq_dec keys).

(** [Series.nunique()]: distinct values, missing ones not counted. *)
Definition nunique (l : list (option Z)) : Z :=
  Z.of_nat (List.length (nodup Z.eq_dec (flat_map (fun o => match o with
                                                       | Some d => [d]
                                                       | None => []
                                                       end) l))).

End Pandas.

(** ** The world the program runs in, and the monad that threads it *)

(** The exceptions the program meets.  [SystemExit] is what [sys.exit]
    raises; it is the only one that is not an [Exception]. *)
Inductive exn :=
  | FileNotFoundError
  | OSError                 (* any other [OSError] ([IOError] is its alias) *)
  | ExcelError              (* what else pandas' Excel reader raises, and what
                               its writer raises: some [Exception] *)
  | RequestException        (* [requests.exceptions.RequestException] *)
  | ValueError
  | AttributeError
  | TypeError
  | SystemExit (code : Z).

Inductive result (A : Type) :=
  | Ok (a : A)
  | Raise (e : exn).
Arguments Ok {A} a.
Arguments Raise {A} e.

(** A value of the [Active] column: missing, a boolean, a whole number
    held as an integer or as a float, or text. *)
Inductive cell :=
  | NaN
  | CBool (b : bool)
  | CInt (z : Z)
  | CFloat (z : Z)
  | CStr (s : string).

(** One row of the roster, columns [Card RFID], [Card Number],
    [Username], [Active], [Expiration date].  A missing cell is [None].

    [Card RFID] is a whole number (one that fits 64 bits, and that a
    float holds exactly where the column is of floats); [rfid_float]
    says whether the value is held as a float, which is the case in a
    column of type float64.  The expiration date is the cell as
    [pd.to_datetime(..., errors="coerce")] reads it: seconds since the
    epoch, or [None] for [NaT] (an empty cell or one that does not
    convert). *)
Record Card := {
  card_rfid : option Z;
  rfid_float : bool;
  card_number : option string;
  username : option string;
  active : cell;
  expiration : option Z
}.

Definition DataFrame := list Card.

(** A GET request: the URL, the basic-auth user and password, and the
    [req] query parameter, if any. *)
Record Request := {
  url : string;
  credentials : string * string;
  req : option string
}.

(** What [requests.get] comes back with. *)
Inductive http_reply :=
  | Status (code : Z) (body : string)
  | NetworkFailure.          (* time-out, refused connection, DNS ... *)

(** What [pd.read_excel] finds at a path.  [Sheet rows] are the rows of
    the sheet: in the columns [Card RFID] and [Active] the cells as the
    sheet holds them (whole numbers, booleans, text, or nothing), which
    [read_excel] types column by column, see [DataHandler.read_excel];
    the other columns as pandas delivers them. *)
Inductive excel :=
  | Sheet (df : DataFrame)
  | Missing                  (* [FileNotFoundError] *)
  | Unreadable.              (* any other exception *)

(** What [ping3.ping] comes back with. *)
Inductive ping_reply :=
  | Delay (ms : Z)
  | PingNone                 (* time-out *)
  | PingFalse                (* host unknown *)
  | PingError.               (* [ping3.errors.PingError] raised *)

(** How the local disk answers when asked to make a directory or to
    take a file. *)
Inductive disk_reply :=
  | DiskOk
  | NoSuchPath               (* [FileNotFoundError] *)
  | DiskError.               (* any other error: no permission, a file in the
                                way, the disk full, ... *)

(** A report row: [Card RFID], [UniqueEntryDays], then the roster's
    other columns (absent when the right side of the merge had no row). *)
Record ReportRow := {
  rr_rfid : Z;
  rr_days : Z;
  rr_card : option Card
}.

Inductive file :=
  | Binary (content : string)
  | Workbook (rows : list ReportRow).

(** The environment.  The device answers a request knowing the requests
    it has already received; [sent] lists them, oldest first.  [mkdir]
    and [store] say how the disk answers [os.makedirs(path,
    exist_ok=True)] and the writing of a file; [dirs] lists the
    directories [os.makedirs] has made or found in place, [files] the
    files written, oldest first.  A creation that fails raises and is
    not listed (what it may leave behind, a truncated file or some
    parent directories, is not recorded).  The clock stands still during
    a run. *)
Record World := {
  ping : string -> ping_reply;
  device : list Request -> Request -> http_reply;
  sent : list Request;
  clock : PyTime.datetime;
  sheets : string -> excel;
  mkdir : string -> disk_reply;
  store : string -> file -> disk_reply;
  dirs : list string;
  files : list (string * file)
}.

Definition with_sent (w : World) (s : list Request) : World :=
  {| ping := ping w; device := device w; sent := s; clock := clock w;
     sheets := sheets w; mkdir := mkdir w; store := store w;
     dirs := dirs w; files := files w |}.

Definition with_dirs (w : World) (ds : list string) : World :=
  {| ping := ping w; device := device w; sent := sent w; clock := clock w;
     sheets := sheets w; mkdir := mkdir w; store := store w;
     dirs := ds; files := files w |}.

Definition with_files (w : World) (fs : list (string * file)) : World :=
  {| ping := ping w; device := device w; sent := sent w; clock := clock w;
     sheets := sheets w; mkdir := mkdir w; store := store w;
     dirs := dirs w; files := fs |}.

Definition M (A : Type) : Type := World -> World * result A.

Definition ret {A} (a : A) : M A := fun w => (w, Ok a).
Definition raise {A} (e : exn) : M A := fun w => (w, Raise e).
Definition bind {A B} (m : M A) (k : A -> M B) : M B :=
  fun w => match m w with
           | (w', Ok a) => k a w'
           | (w', Raise e) => (w', Raise e)
           end.

Declare Scope py_scope.
Delimit Scope py_scope with py.
Notation "x <- m ;; k" := (bind m (fun x => k))
  (at level 100, m at next level, right associativity) : py_scope.
Notation "m ;; k" := (bind m (fun _ => k))
  (at level 100, right associativity) : py_scope.
Local Open Scope py_scope.

(** [for a in l: body(a)] *)
Fixpoint for_each {A} (body : A -> M unit) (l : list A) : M unit :=
  match l with
  | [] => ret tt
  | a :: l' => body a ;; for_each body l'
  end.

(** [os.path.join(folder, name)] for a relative [name]. *)
Definition path_join (folder name : string) : string :=
  if String.eqb folder "" then name
  else if String.eqb (substring (String.length folder - 1) 1 folder) "/"
       then folder ++ name
       else folder ++ "/" ++ name.

(** [os.makedirs(path, exist_ok=True)].  The empty path names nothing:
    [FileNotFoundError], whatever the disk. *)
Definition makedirs (path : string) : M unit :=
  fun w => if String.eqb path "" then (w, Raise FileNotFoundError)
           else match mkdir w path with
                | DiskOk => (with_dirs w (dirs w ++ [path]), Ok tt)
                | NoSuchPath => (w, Raise FileNotFoundError)
                | DiskError => (w, Raise OSError)
                end.

(** [with open(path, "wb") as f: f.write(content)] *)
Definition write_file (path : string) (content : string) : M unit :=
  fun w => match store w path (Binary content) with
           | DiskOk => (with_files w (files w ++ [(path, Binary content)]), Ok tt)
           | NoSuchPath => (w, Raise FileNotFoundError)
           | DiskError => (w, Raise OSError)
           end.

(** [df.to_excel(path, index=False)]: the workbook is written, or the
    writer raises. *)
Definition to_excel (path : string) (rows : list ReportRow) : M unit :=
  fun w => match store w path (Workbook rows) with
           | DiskOk => (with_files w (files w ++ [(path, Workbook rows)]), Ok tt)
           | NoSuchPath | DiskError => (w, Raise ExcelError)
           end.

Definition now : M PyTime.datetime := fun w => (w, Ok (clock w)).

(** ** [src/data_handler.py] *)

Module DataHandler.

(** *** How [pd.read_excel] types the two columns

    pandas gives every column one type.  A column of cells that are
    numbers, booleans or empty is a numeric column: of floats as soon as
    one cell is empty (or is a float), so that [True] is then [1.0];
    else of integers as soon as one cell is an integer; else of
    booleans.  In a column that holds text the cells stay Python
    objects, except that the words pandas reads as booleans become
    booleans when every cell is a boolean, such a word, or empty.  (A
    text cell is taken to be a word: numbers and missing-value marks
    written as text are not modelled.) *)

Definition is_text (c : cell) : bool :=
  match c with CStr _ => true | _ => false end.

Definition is_int (c : cell) : bool :=
  match c with CInt _ => true | _ => false end.

Definition missing_or_float (c : cell) : bool :=
  match c with NaN | CFloat _ => true | _ => false end.

Definition true_values : list string := ["True"; "TRUE"; "true"].
Definition false_values : list string := ["False"; "FALSE"; "false"].

Definition bool_like (c : cell) : bool :=
  match c with
  | NaN | CBool _ => true
  | CStr s => existsb (String.eqb s) true_values || existsb (String.eqb s) false_values
  | _ => false
  end.

(** What is done to the cells of a column. *)
Inductive conversion := ToFloat | ToInt | ToBool | Keep.

Definition infer (col : list cell) : conversion :=
  if existsb is_text col then (if forallb bool_like col then ToBool else Keep)
  else if existsb missing_or_float col then ToFloat
  else if existsb is_int col then ToInt
  else Keep.

Definition convert (how : conversion) (c : cell) : cell :=
  match how, c with
  | ToFloat, CBool b => CFloat (if b then 1 else 0)
  | ToFloat, CInt z => CFloat z
  | ToInt, CBool b => CInt (if b then 1 else 0)
  | ToBool, CStr s => CBool (existsb (String.eqb s) true_values)
  | _, _ => c
  end.

(** [Card RFID] is a column of floats when one of its cells is empty. *)
Definition rfid_column_is_float (rows : DataFrame) : bool :=
  existsb (fun r => match card_rfid r with
                    | None => true
                    | Some _ => rfid_float r
                    end) rows.

Definition typed_row (as_float : bool) (how : conversion) (r : Card) : Card :=
  {| card_rfid := card_rfid r; rfid_float := as_float;
     card_number := card_number r; username := username r;
     active := convert how (active r);
     expiration := expiration r |}.

(** The frame [read_excel] makes of the rows of a sheet. *)
Definition typed (rows : DataFrame) : DataFrame :=
  map (typed_row (rfid_column_is_float rows) (infer (map active rows))) rows.

Definition read_excel (file_path : string) : M DataFrame :=
  fun w => match sheets w file_path with
           | Sheet rows => (w, Ok (typed rows))
           | Missing => (w, Raise FileNotFoundError)
           | Unreadable => (w, Raise ExcelError)
           end.

(** *** Line 25 *)

(** [astype(str)] on one value of the [Active] column: [str(x)], and a
    missing value as the installation has it. *)
Definition astype_str `{Pandas.Installation} (c : cell) : cell :=
  match c with
  | NaN => if Pandas.nan_as_text then CStr "nan" else NaN
  | CBool true => CStr "True"
  | CBool false => CStr "False"
  | CInt z => CStr (PyStr.str_int z)
  | CFloat z => CStr (PyStr.str_float z)
  | CStr s => CStr s
  end.

Definition stringify_row `{Pandas.Installation} (r : Card) : Card :=
  {| card_rfid := card_rfid r; rfid_float := rfid_float r;
     card_number := card_number r; username := username r;
     active := astype_str (active r);
     expiration := expiration r |}.

(** [df["Active"].astype(str)], put back in the column. *)
Definition stringify_active `{Pandas.Installation} (df : DataFrame) : DataFrame :=
  map stringify_row df.

(** *** Lines 27-33 *)

(** [Series.str.lower()] on one cell: NaN for a cell that is no text. *)
Definition str_lower (c : cell) : option string :=
  match c with CStr s => Some (PyStr.lower s) | _ => None end.

(** Line 27: midnight of the current day, in seconds. *)
Definition today_of (n : PyTime.datetime) : Z := PyTime.date n * 86400.

(** The mask of lines 30-32, for one row; [today] in seconds.  A
    comparison with [NaT] is false. *)
Definition is_active (today : Z) (r : Card) : bool :=
  (match str_lower (active r) with Some s => String.eqb s "true" | None => false end)
  && (match card_rfid r with Some _ => true | None => false end)
  && (match expiration r with Some t => today <=? t | None => false end).

(** Lines 29-33: the rows the mask keeps. *)
Definition select_active (today : Z) (df : DataFrame) : DataFrame :=
  filter (is_active today) df.

(** *** The frames as objects

    [df] names one DataFrame object from line 17 to the [return]: line
    25 assigns to a column of that object, and [.copy()] on line 33
    makes a second one.  [Heap] holds the objects of a call by address. *)
Definition Heap := list DataFrame.

Definition new (df : DataFrame) (h : Heap) : nat * Heap :=
  (List.length h, (h ++ [df])%list).

Definition get (h : Heap) (a : nat) : DataFrame := nth a h [].

Fixpoint set (h : Heap) (a : nat) (df : DataFrame) : Heap :=
  match h, a with
  | [], _ => []
  | _ :: h', O => df :: h'
  | x :: h', S a' => x :: set h' a' df
  end.

(** The body of [load_and_filter_cards]: the addresses of the two frames
    it returns, and the objects as the call leaves them. *)
Definition load_objects `{Pandas.Installation} (file_path : string)
    : M (nat * nat * Heap) :=
  df0 <- read_excel file_path ;;
  let (df, h) := new df0 [] in
  let h := set h df (stringify_active (get h df)) in
  n <- now ;;
  let today := today_of n in
  let (active_cards_df, h) := new (select_active today (get h df)) h in
  ret (df, active_cards_df, h).

(** [load_and_filter_cards], with the two frames by value. *)
Definition load_and_filter_cards `{Pandas.Installation} (file_path : string)
    : M (DataFrame * DataFrame) :=
  r <- load_objects file_path ;;
  let '(df, active_cards_df, h) := r in
  ret (get h df, get h active_cards_df).

End DataHandler.

(** ** [src/turnstile.py] *)

Module Turnstile.

Record TurnstileManager := {
  base_url : string;
  auth : string * string;
  host : string
}.

(** [__init__] *)
Definition init (host username password : string) : TurnstileManager :=
  {| base_url := "http://" ++ host; auth := (username, password); host := host |}.

Record Response := {
  status_code : Z;
  text : string        (* also [content], the same bytes *)
}.

(** [_make_request]: one GET; [raise_for_status] turns a 4xx or 5xx
    status into an error; every request error is logged and re-raised. *)
Definition _make_request (self : TurnstileManager) (endpoint : string)
    (params : option string) : M Response :=
  fun w =>
    let r := {| url := base_url self ++ endpoint; credentials := auth self;
                req := params |} in
    let w' := with_sent w (sent w ++ [r]) in
    match device w (sent w) r with
    | Status code body =>
        if (400 <=? code) && (code <? 600) then (w', Raise RequestException)
        else (w', Ok {| status_code := code; text := body |})
    | NetworkFailure => (w', Raise RequestException)
    end.

Definition check_ping (self : TurnstileManager) : M bool :=
  fun w => match ping w (host self) with
           | Delay _ => (w, Ok true)
           | PingNone | PingFalse => (w, Ok false)
           | PingError => (w, Ok false)
           end.

(** The [except IOError] of lines 73-75 logs and re-raises: the error of
    the write is the error of the call. *)
Definition download_backup (self : TurnstileManager) (folder_path : string)
    : M string :=
  response <- _make_request self "/cgi/card_get_list" None ;;
  makedirs folder_path ;;
  n <- now ;;
  let file_name := "turnstile_backup_" ++ PyTime.strftime n ++ ".bin" in
  let file_path := path_join folder_path file_name in
  write_file file_path (text response) ;;
  ret file_path.

(** [f"{rfid}"] for the [Card RFID] value of a row: [str] of an integer
    or of a float, as the column has it. *)
Definition str_rfid (row : Card) : string :=
  match card_rfid row with
  | Some z => if rfid_float row then PyStr.str_float z else PyStr.str_int z
  | None => "nan"
  end.

(** The [req] parameter of line 99. *)
Definition card_edit_req (row : Card) : string := "1+1+" ++ str_rfid row.

Definition update_turnstile_cards (self : TurnstileManager)
    (active_cards_df : DataFrame) : M unit :=
  for_each
    (fun row =>
       let endpoint := "/cgi/card_edit" in
       let params := Some (card_edit_req row) in
       response <- _make_request self endpoint params ;;
       ret tt)
    active_cards_df.

(** *** The report pipeline, stage by stage *)

(** A row of the frame of line 125; its fourth column, the event
    description, is the one the source names [Card RFID]. *)
Record EventLine := {
  request_number : string;
  hash : string;
  datetime : string;
  descr : string
}.

(** Lines 118-119. *)
Definition tokenize (raw_data : string) : list (list string) :=
  let rows := PyStr.split PyStr.newline (PyStr.strip raw_data) in
  map (PyStr.split PyStr.tab)
      (filter (fun row => Nat.eqb (List.length (PyStr.split PyStr.tab row)) 4) rows).

(** Line 125. *)
Definition frame_of (data : list (list string)) : list EventLine :=
  flat_map (fun fields =>
              match fields with
              | [a; b; c; d] => [{| request_number := a; hash := b;
                                    datetime := c; descr := d |}]
              | _ => []
              end) data.

(** Lines 131-132. *)
Definition classify (df : list EventLine) : list EventLine :=
  filter (fun r => PyStr.contains "by card" (descr r))
         (filter (fun r => negb (PyStr.contains "Card is not registered" (descr r))) df).

(** Lines 133-135: the rfid is the first run of digits, as a number;
    rows without one go. *)
Definition extract (df : list EventLine) : list (string * Z) :=
  flat_map (fun r => match PyStr.extract_digits (descr r) with
                     | Some d => [(datetime r, PyStr.to_numeric d)]
                     | None => []
                     end) df.

(** An access event: the rfid and the calendar day (a day number;
    [None] is [NaT]). *)
Record AccessEvent := {
  ev_rfid : Z;
  ev_date : option Z
}.

Definition event_eqb (a b : AccessEvent) : bool :=
  (ev_rfid a =? ev_rfid b)
  && match ev_date a, ev_date b with
     | Some x, Some y => x =? y
     | None, None => true
     | _, _ => false
     end.

(** Lines 137-139: the whole column is parsed by one call, which raises
    at a cell that does not parse. *)
Fixpoint normalize (df : list (string * Z)) : result (list AccessEvent) :=
  match df with
  | [] => Ok []
  | (dt, rfid) :: df' =>
      match PyTime.to_datetime dt with
      | None => Raise ValueError
      | Some t =>
          match normalize df' with
          | Ok evs => Ok ({| ev_rfid := rfid; ev_date := PyTime.dt_date t |} :: evs)
          | Raise e => Raise e
          end
      end
  end.

(** Lines 129-139. *)
Definition access_events (df : list EventLine) : result (list AccessEvent) :=
  normalize (extract (classify df)).

Definition has_username (c : option Card) : bool :=
  match c with
  | Some r => match username r with Some _ => true | None => false end
  | None => false
  end.

(** Lines 142-143. *)
Definition join_roster (cards_df : DataFrame) (evs : list AccessEvent)
    : list (AccessEvent * option Card) :=
  filter (fun p => has_username (snd p))
         (Pandas.merge_left ev_rfid card_rfid evs cards_df).

(** Lines 145-146. *)
Definition count_days (df : list (AccessEvent * option Card)) : list (Z * Z) :=
  map (fun k => (k, Pandas.nunique
                      (map (fun p => ev_date (fst p))
                           (filter (fun p => ev_rfid (fst p) =? k) df))))
      (Pandas.group_keys (map (fun p => ev_rfid (fst p)) df)).

(** Line 147. *)
Definition enrich (cards_df : DataFrame) (df_count : list (Z * Z)) : list ReportRow :=
  map (fun p => {| rr_rfid := fst (fst p); rr_days := snd (fst p); rr_card := snd p |})
      (Pandas.merge_left fst card_rfid df_count cards_df).

(** Lines 140-148, from the access events to the sorted result. *)
Definition report_rows `{Pandas.Installation} (cards_df : DataFrame)
    (evs : list AccessEvent) : list ReportRow :=
  let df := Pandas.drop_duplicates event_eqb evs in
  let df := join_roster cards_df df in
  let df_count := count_days df in
  let df_result := enrich cards_df df_count in
  Pandas.sort_values_desc rr_days df_result.

(** Line 112. *)
Definition event_get_req (records_to_fetch : Z) : string :=
  "-1,0,-" ++ PyStr.str_int records_to_fetch ++ ",0,0,1,1,0,23,59,31,12,99,1,/en".

(** The value is Python's [None] on both ways out: the bare [return] of
    line 123 and the end of the body. *)
Definition generate_access_report `{Pandas.Installation} (self : TurnstileManager)
    (records_to_fetch : Z) (cards_df : DataFrame) (output_dir : string)
    : M (option string) :=
  response <- _make_request self "/cgi/event_get" (Some (event_get_req records_to_fetch)) ;;
  let raw_data := text response in
  let data := tokenize raw_data in
  match data with
  | [] => ret None
  | _ =>
      match access_events (frame_of data) with
      | Raise e => raise e
      | Ok evs =>
          let df_result := report_rows cards_df evs in
          makedirs output_dir ;;
          n <- now ;;
          let timestamp := PyTime.strftime n in
          let output_path := path_join output_dir ("access_report_" ++ timestamp ++ ".xlsx") in
          to_excel output_path df_result ;;
          ret None
      end
  end.

(** What [getattr(manager, name)] finds: the methods the class body
    defines, bound to [self]. *)
Inductive Method :=
  | Method_make_request (f : string -> option string -> M Response)
  | Method_check_ping (f : M bool)
  | Method_download_backup (f : string -> M string)
  | Method_update_turnstile_cards (f : DataFrame -> M unit)
  | Method_generate_access_report (f : Z -> DataFrame -> string -> M (option string)).

Definition getattr `{Pandas.Installation} (self : TurnstileManager) (name : string)
    : option Method :=
  if String.eqb name "_make_request" then Some (Method_make_request (_make_request self))
  else if String.eqb name "check_ping" then Some (Method_check_ping (check_ping self))
  else if String.eqb name "download_backup"
       then Some (Method_download_backup (download_backup self))
  else if String.eqb name "update_turnstile_cards"
       then Some (Method_update_turnstile_cards (update_turnstile_cards self))
  else if String.eqb name "generate_access_report"
       then Some (Method_generate_access_report (generate_access_report self))
  else None.

(** [getattr(manager, name)()]: a call without arguments, its value
    dropped.  A name the class lacks is an [AttributeError]; a method
    that wants arguments is a [TypeError]. *)
Definition call0 `{Pandas.Installation} (self : TurnstileManager) (name : string)
    : M unit :=
  match getattr self name with
  | None => raise AttributeError
  | Some (Method_check_ping f) => f ;; ret tt
  | Some _ => raise TypeError
  end.

End Turnstile.

(** ** [main.py] *)

Module Main.

(** [src/config.py]: what the environment sets. *)
Record Config := {
  USERNAME : string;
  PASSWORD : string;
  BACKUP_DIR : string;
  REPORT_DIR : string
}.

(** The command line as [parse_args] (line 65) returns it. *)
Record Args := {
  host : string;
  file : string;
  records_to_fetch : Z;
  skip_update : bool;
  skip_report : bool;
  skip_clear_all_cards : bool;
  verbose : bool
}.

(** The [try] block of lines 70-100. *)
Definition operations `{Pandas.Installation} (cfg : Config) (args : Args) : M unit :=
  let manager := Turnstile.init (host args) (USERNAME cfg) (PASSWORD cfg) in
  reachable <- Turnstile.check_ping manager ;;
  (if negb reachable then raise (SystemExit 1) else ret tt) ;;
  dfs <- DataHandler.load_and_filter_cards (file args) ;;
  let full_cards_df := fst dfs in
  let active_cards_df := snd dfs in
  (if negb (skip_update args) then
     Turnstile.download_backup manager (BACKUP_DIR cfg) ;;
     (if skip_clear_all_cards args then ret tt
      else Turnstile.call0 manager "clear_all_cards") ;;
     Turnstile.update_turnstile_cards manager active_cards_df
   else ret tt) ;;
  (if negb (skip_report args) then
     Turnstile.generate_access_report manager (records_to_fetch args)
       full_cards_df (REPORT_DIR cfg) ;;
     ret tt
   else ret tt).

(** [main] from line 67 on, for the command line [parse_args] returned:
    the exit status of the process.  Both [except] clauses end in
    [sys.exit(1)]; a [SystemExit] raised inside the [try] passes them. *)
Definition main `{Pandas.Installation} (cfg : Config) (args : Args) (w : World)
    : World * Z :=
  match operations cfg args w with
  | (w', Ok _) => (w', 0)
  | (w', Raise (SystemExit code)) => (w', code)
  | (w', Raise _) => (w', 1)
  end.



End Main.

(** * Vocabulary of the properties *)

(** The request [update_turnstile_cards] builds for a roster row. *)
Definition card_edit_request (self : Turnstile.TurnstileManager) (row : Card) : Request :=
  {| url := Turnstile.base_url self ++ "/cgi/card_edit";
     credentials := Turnstile.auth self;
     req := Some ("1+1+" ++ Turnstile.str_rfid row) |}.

(** The device, having received [hist], answers [r] with a status below
    400 (or above 599). *)
Definition accepts (dev : list Request -> Request -> http_reply)
    (hist : list Request) (r : Request) : bool :=
  match dev hist r with
  | Status code _ => negb ((400 <=? code) && (code <? 600))
  | NetworkFailure => false
  end.

(** Sent one after the other after [hist], the requests [rs] are all accepted. *)
Fixpoint all_accepted (dev : list Request -> Request -> http_reply)
    (hist : list Request) (rs : list Request) : bool :=
  match rs with
  | [] => true
  | r :: rs' => accepts dev hist r && all_accepted dev (hist ++ [r]) rs'
  end.


Definition clock0 : PyTime.datetime :=
  {| PyTime.year := 2024; PyTime.month := 2; PyTime.day := 10;
     PyTime.hour := 9; PyTime.minute := 30; PyTime.second := 5 |}.

(** A world whose host answers the ping and whose disk takes
    everything; nothing sent, made or written yet. *)
Definition world_of (dev : list Request -> Request -> http_reply)
    (sheet : excel) : World :=
  {| ping := fun _ => Delay 3; device := dev; sent := []; clock := clock0;
     sheets := fun _ => sheet;
     mkdir := fun _ => DiskOk; store := fun _ _ => DiskOk;
     dirs := []; files := [] |}.

(** The same world with a disk on which no directory can be made. *)
Definition world_read_only (dev : list Request -> Request -> http_reply)
    (sheet : excel) : World :=
  {| ping := fun _ => Delay 3; device := dev; sent := []; clock := clock0;
     sheets := fun _ => sheet;
     mkdir := fun _ => DiskError; store := fun _ _ => DiskError;
     dirs := []; files := [] |}.

Definition card_of (rfid : Z) (name : string) : Card :=
  {| card_rfid := Some rfid; rfid_float := false;
     card_number := Some ("N" ++ PyStr.str_int rfid);
     username := Some name; active := CBool true;
     expiration := Some (PyTime.days_from_civil 2030 1 1 * 86400) |}.

Definition manager0 : Turnstile.TurnstileManager :=
  Turnstile.init "10.0.0.7" "admin" "secret".

(** The request of [download_backup]. *)
Definition backup_request (self : Turnstile.TurnstileManager) : Request :=
  {| url := Turnstile.base_url self ++ "/cgi/card_get_list";
     credentials := Turnstile.auth self; req := None |}.

(** The exit status [main] gives an exception that leaves the [try]. *)
Definition exit_status (e : exn) : Z :=
  match e with SystemExit code => code | _ => 1 end.

Definition cfg0 : Main.Config :=
  {| Main.USERNAME := "admin"; Main.PASSWORD := "secret";
     Main.BACKUP_DIR := "backups/"; Main.REPORT_DIR := "reports/" |}.

(** The default command line: nothing skipped. *)
Definition args0 : Main.Args :=
  {| Main.host := "10.0.0.7"; Main.file := "cards.xlsx";
     Main.records_to_fetch := 10000; Main.skip_update := false;
     Main.skip_report := false; Main.skip_clear_all_cards := false;
     Main.verbose := false |}.

Definition device_ok : list Request -> Request -> http_reply :=
  fun _ _ => Status 200 "OK".

(** The text of line 25 reads true: it is "true" in some letter case. *)
Definition reads_true (c : cell) : Prop :=
  exists s, c = CStr s /\ PyStr.lower s = "true".








(** The row of the full view that the row [r0] of the sheet becomes. *)
Definition as_read `{Pandas.Installation} (rows : DataFrame) (r0 : Card) : Card :=
  DataHandler.stringify_row
    (DataHandler.typed_row (DataHandler.rfid_column_is_float rows)
       (DataHandler.infer (map active rows)) r0).

(** A sheet of four rows: expiring today, expired yesterday, switched
    off, and without an rfid.  The clock reads 2024-02-10 09:30:05. *)
Definition roster4 : DataFrame :=
  let day := PyTime.days_from_civil 2024 2 10 in
  [ {| card_rfid := Some 11; rfid_float := false;
       card_number := Some "A-11"; username := Some "ann";
       active := CBool true; expiration := Some (day * 86400) |};
    {| card_rfid := Some 12; rfid_float := false;
       card_number := Some "A-12"; username := Some "bob";
       active := CStr "TRUE"; expiration := Some ((day - 1) * 86400) |};
    {| card_rfid := Some 13; rfid_float := false;
       card_number := Some "A-13"; username := Some "cy";
       active := CBool false; expiration := Some ((day + 30) * 86400) |};
    {| card_rfid := None; rfid_float := false;
       card_number := Some "A-14"; username := Some "di";
       active := CBool true; expiration := Some ((day + 30) * 86400) |} ].


(** Test data: fields joined by tabs, lines joined by line feeds. *)
Definition tsv (fields : list string) : string :=
  String.concat (String PyStr.tab EmptyString) fields.

Definition text_of (rows : list string) : string :=
  String.concat (String PyStr.newline EmptyString) rows.

(** The request of [generate_access_report]. *)
Definition event_request (self : Turnstile.TurnstileManager) (n : Z) : Request :=
  {| url := Turnstile.base_url self ++ "/cgi/event_get";
     credentials := Turnstile.auth self;
     req := Some (Turnstile.event_get_req n) |}.

(** The path of line 152. *)
Definition report_path (output_dir : string) (w : World) : string :=
  path_join output_dir ("access_report_" ++ PyTime.strftime (clock w) ++ ".xlsx").

(** The device answers the event request with [body] and a status that
    [raise_for_status] lets through. *)
Definition event_reply (self : Turnstile.TurnstileManager) (n : Z) (w : World)
    (body : string) : Prop :=
  exists code, device w (sent w) (event_request self n) = Status code body
               /\ (400 <=? code) && (code <? 600) = false.

(** A device that answers every request with the same text. *)
Definition device_saying (body : string) : list Request -> Request -> http_reply :=
  fun _ _ => Status 200 body.

Definition roster123 : DataFrame := [card_of 123 "ann"].

(** The line passes the filters of lines 131-134. *)
Definition survives_classification (line : Turnstile.EventLine) : Prop :=
  PyStr.contains "Card is not registered" (Turnstile.descr line) = false
  /\ PyStr.contains "by card" (Turnstile.descr line) = true
  /\ PyStr.extract_digits (Turnstile.descr line) <> None.

(** The roster has a row of rfid [k] whose [Username] is present. *)
Definition usable_card (cards : DataFrame) (k : Z) : bool :=
  existsb (fun c => match card_rfid c, username c with
                    | Some k', Some _ => k' =? k
                    | _, _ => false
                    end) cards.

(** One of the filters removes the line: the description is marked
    not-registered, or lacks "by card", or has no digit, or, the
    datetime cell being acceptable, no roster row with a user name has
    its rfid. *)
Definition dropped (cards : DataFrame) (line : Turnstile.EventLine) : Prop :=
  PyStr.contains "Card is not registered" (Turnstile.descr line) = true
  \/ PyStr.contains "by card" (Turnstile.descr line) = false
  \/ PyStr.extract_digits (Turnstile.descr line) = None
  \/ exists d, PyStr.extract_digits (Turnstile.descr line) = Some d
               /\ PyTime.to_datetime (Turnstile.datetime line) <> None
               /\ usable_card cards (PyStr.to_numeric d) = false.

(** Descending in [key]. *)
Definition desc {A : Type} (key : A -> Z) (a b : A) : Prop := key b <= key a.

(** Position of the first roster row of rfid [k]. *)
Fixpoint roster_index (cards : DataFrame) (k : Z) : nat :=
  match cards with
  | [] => 0
  | c :: cards' =>
      match card_rfid c with
      | Some k' => if k' =? k then 0%nat else S (roster_index cards' k)
      | None => S (roster_index cards' k)
      end
  end.

(** The stated tie-break: of two report rows with the same count, the
    one whose card comes first in the roster comes first. *)
Definition ties_in_roster_order (cards : DataFrame) (report : list ReportRow) : Prop :=
  forall l1 a l2 b l3,
    report = (l1 ++ a :: l2 ++ b :: l3)%list ->
    rr_days a = rr_days b ->
    (roster_index cards (rr_rfid a) <= roster_index cards (rr_rfid b))%nat.

Definition roster53 : DataFrame := [card_of 5 "eve"; card_of 3 "cy"].

Definition roster35 : DataFrame := [card_of 3 "cy"; card_of 5 "eve"].

(** The calendar days on which rfid [k] has an event. *)
Definition dates_of (k : Z) (evs : list Turnstile.AccessEvent) : list Z :=
  flat_map (fun e => if Turnstile.ev_rfid e =? k
                     then match Turnstile.ev_date e with Some d => [d] | None => [] end
                     else []) evs.

(** The number of distinct calendar days among the events of rfid [k]. *)
Definition distinct_days (k : Z) (evs : list Turnstile.AccessEvent) : Z :=
  Z.of_nat (List.length (nodup Z.eq_dec (dates_of k evs))).

(** [w] after the requests [s] and the files [f], nothing else changed. *)
Definition grow (w : World) (s : list Request) (f : list (string * file)) : World :=
  with_files (with_sent w (sent w ++ s)) (files w ++ f).

(** [w] after the directories [d] were made (or found in place), nothing
    else changed. *)
Definition made (w : World) (d : list string) : World :=
  with_dirs w (dirs w ++ d).

(** The path of lines 65-66. *)
Definition backup_path (folder_path : string) (w : World) : string :=
  path_join folder_path ("turnstile_backup_" ++ PyTime.strftime (clock w) ++ ".bin").

(** The run of [m] from [w] only adds requests, directories and files:
    [Q] says which, and with what result. *)
Definition runs {A : Type} (m : M A) (w : World)
    (Q : list Request -> list string -> list (string * file) -> result A -> Prop)
    : Prop :=
  exists s d f r, m w = (made (grow w s f) d, r) /\ Q s d f r.

(** The exception of a disk reply other than [DiskOk], for a directory
    or a binary file. *)
Definition disk_exn (r : disk_reply) : exn :=
  match r with NoSuchPath => FileNotFoundError | _ => OSError end.

(** How [download_backup] can end: refused by the device; stopped by the
    disk, before or after the directory was made; or done. *)
Definition backup_post (self : Turnstile.TurnstileManager) (folder : string) (w : World)
    (s : list Request) (d : list string) (f : list (string * file))
    (r : result string) : Prop :=
  s = [backup_request self]
  /\ ((accepts (device w) (sent w) (backup_request self) = false
       /\ d = [] /\ f = [] /\ r = Raise RequestException)
      \/ exists code body,
           device w (sent w) (backup_request self) = Status code body
           /\ accepts (device w) (sent w) (backup_request self) = true
           /\ ((folder = "" /\ d = [] /\ f = [] /\ r = Raise FileNotFoundError)
               \/ (folder <> "" /\ mkdir w folder <> DiskOk
                   /\ d = [] /\ f = [] /\ r = Raise (disk_exn (mkdir w folder)))
               \/ (folder <> "" /\ mkdir w folder = DiskOk /\ d = [folder]
                   /\ ((store w (backup_path folder w) (Binary body) <> DiskOk
                        /\ f = []
                        /\ r = Raise (disk_exn (store w (backup_path folder w)
                                                  (Binary body))))
                       \/ (store w (backup_path folder w) (Binary body) = DiskOk
                           /\ f = [(backup_path folder w, Binary body)]
                           /\ r = Ok (backup_path folder w)))))).

(** How the writing of the report (lines 150-154) can end: stopped by
    the disk, before or after the directory was made; or done. *)
Definition report_disk (dir : string) (w : World) (rows : list ReportRow)
    (d : list string) (f : list (string * file)) (r : result (option string)) : Prop :=
  (dir = "" /\ d = [] /\ f = [] /\ r = Raise FileNotFoundError)
  \/ (dir <> "" /\ mkdir w dir <> DiskOk
      /\ d = [] /\ f = [] /\ r = Raise (disk_exn (mkdir w dir)))
  \/ (dir <> "" /\ mkdir w dir = DiskOk /\ d = [dir]
      /\ ((store w (report_path dir w) (Workbook rows) <> DiskOk
           /\ f = []
           /\ r = Raise ExcelError)
          \/ (store w (report_path dir w) (Workbook rows) = DiskOk
              /\ f = [(report_path dir w, Workbook rows)]
              /\ r = Ok None))).

(** What the update phase of [main] (lines 81-89) can have sent, made
    and written, and how it ends: the backup not taken; the backup
    stored and the clearing failed; or, the clearing skipped, the cards
    of the first [n] active rows sent. *)
Definition update_phase (self : Turnstile.TurnstileManager) (act : DataFrame)
    (skip_clear : bool) (folder : string) (bpath : string)
    (s : list Request) (d : list string) (f : list (string * file))
    (r : result unit) : Prop :=
  (s = [backup_request self] /\ f = [] /\ (d = [] \/ d = [folder])
   /\ (r = Raise RequestException \/ r = Raise FileNotFoundError \/ r = Raise OSError))
  \/ exists body,
       f = [(bpath, Binary body)] /\ d = [folder]
       /\ ((skip_clear = false /\ s = [backup_request self] /\ r = Raise AttributeError)
           \/ (skip_clear = true
               /\ exists n,
                    s = backup_request self :: map (card_edit_request self) (firstn n act)
                    /\ ((n = List.length act /\ r = Ok tt)
                        \/ ((0 < n <= List.length act)%nat /\ r = Raise RequestException)))).

(** What the report phase of [main] (lines 93-96) can have sent, made and
    written. *)
Definition report_phase (self : Turnstile.TurnstileManager) (n : Z) (dir : string)
    (rpath : string)
    (s : list Request) (d : list string) (f : list (string * file))
    (r : result unit) : Prop :=
  s = [event_request self n]
  /\ ((f = [] /\ d = []
       /\ (r = Raise RequestException \/ r = Raise ValueError \/ r = Ok tt
           \/ r = Raise FileNotFoundError \/ r = Raise OSError))
      \/ (f = [] /\ d = [dir] /\ r = Raise ExcelError)
      \/ exists rows, f = [(rpath, Workbook rows)] /\ d = [dir] /\ r = Ok tt).

(** What the [try] block of [main] can have sent, made and written from
    [w]: nothing, when the ping or the roster fails; else what the two
    phases did, one after the other. *)
Definition operations_post `{Pandas.Installation} (cfg : Main.Config) (args : Main.Args)
    (w : World)
    (s : list Request) (d : list string) (f : list (string * file))
    (r : result unit) : Prop :=
  let self := Turnstile.init (Main.host args) (Main.USERNAME cfg) (Main.PASSWORD cfg) in
  (s = [] /\ d = [] /\ f = []
   /\ (r = Raise (SystemExit 1) \/ r = Raise FileNotFoundError \/ r = Raise ExcelError))
  \/ exists full act,
       DataHandler.load_and_filter_cards (Main.file args) w = (w, Ok (full, act))
       /\ (exists ms, ping w (Main.host args) = Delay ms)
       /\ exists sU dU fU rU,
            ((Main.skip_update args = true /\ sU = [] /\ dU = [] /\ fU = [] /\ rU = Ok tt)
             \/ (Main.skip_update args = false
                 /\ update_phase self act (Main.skip_clear_all_cards args)
                      (Main.BACKUP_DIR cfg)
                      (backup_path (Main.BACKUP_DIR cfg) w) sU dU fU rU))
            /\ ((exists e, rU = Raise e /\ s = sU /\ d = dU /\ f = fU /\ r = Raise e)
                \/ (rU = Ok tt
                    /\ ((Main.skip_report args = true
                         /\ s = sU /\ d = dU /\ f = fU /\ r = Ok tt)
                        \/ (Main.skip_report args = false
                            /\ exists sR dR fR,
                                 report_phase self (Main.records_to_fetch args)
                                   (Main.REPORT_DIR cfg)
                                   (report_path (Main.REPORT_DIR cfg) w) sR dR fR r
                                 /\ s = (sU ++ sR)%list /\ d = (dU ++ dR)%list
                                 /\ f = (fU ++ fR)%list)))).

(** A command line that only skips the clearing. *)
Definition args_skip_clear : Main.Args :=
  {| Main.host := "10.0.0.7"; Main.file := "cards.xlsx";
     Main.records_to_fetch := 10000; Main.skip_update := false;
     Main.skip_report := false; Main.skip_clear_all_cards := true;
     Main.verbose := false |}.

(** A world whose host does not answer the ping. *)
Definition world_unreachable : World :=
  {| ping := fun _ => PingNone; device := device_ok; sent := []; clock := clock0;
     sheets := fun _ => Sheet roster4;
     mkdir := fun _ => DiskOk; store := fun _ _ => DiskOk;
     dirs := []; files := [] |}.

(** The line passes the filters of lines 131-134, as a test. *)
Definition survives (line : Turnstile.EventLine) : bool :=
  negb (PyStr.contains "Card is not registered" (Turnstile.descr line))
  && PyStr.contains "by card" (Turnstile.descr line)
  && match PyStr.extract_digits (Turnstile.descr line) with
     | Some _ => true
     | None => false
     end.

(** The event [e] is what lines 133-139 make of the line: the rfid is
    the number of its first run of digits, the date the calendar day of
    its datetime cell (or missing, for a missing-value word). *)
Definition event_of_line (line : Turnstile.EventLine) (e : Turnstile.AccessEvent) : Prop :=
  exists d t,
    PyStr.extract_digits (Turnstile.descr line) = Some d
    /\ Turnstile.ev_rfid e = PyStr.to_numeric d
    /\ PyTime.to_datetime (Turnstile.datetime line) = Some t
    /\ Turnstile.ev_date e = PyTime.dt_date t.

(** The rfids the roster lists, in roster order. *)
Definition roster_rfids (cards : DataFrame) : list Z :=
  flat_map (fun c => match card_rfid c with Some k => [k] | None => [] end) cards.

(** [c in s] for a character. *)
Fixpoint has_char (c : ascii) (s : string) : bool :=
  match s with
  | String a s' => Ascii.eqb a c || has_char c s'
  | EmptyString => false
  end.

(** A field that holds neither a tab nor a line feed. *)
Definition clean_field (f : string) : Prop :=
  has_char PyStr.tab f = false /\ has_char PyStr.newline f = false.

(** The four cells of a row of the frame of line 125. *)
Definition fields_of (line : Turnstile.EventLine) : list string :=
  [Turnstile.request_number line; Turnstile.hash line;
   Turnstile.datetime line; Turnstile.descr line].

(** No character of [s] is a digit. *)
Fixpoint digitless (s : string) : bool :=
  match s with
  | String c s' => negb (PyStr.is_digit c) && digitless s'
  | EmptyString => true
  end.

(** Every character of [s] is a digit. *)
Fixpoint all_digits (s : string) : bool :=
  match s with
  | String c s' => PyStr.is_digit c && all_digits s'
  | EmptyString => true
  end.

(** [s] begins with a digit. *)
Definition digit_start (s : string) : bool :=
  match s with
  | String c _ => PyStr.is_digit c
  | EmptyString => false
  end.

(** [n] zeros. *)
Fixpoint zeros (n : nat) : string :=
  match n with
  | O => EmptyString
  | S n' => String "0" (zeros n')
  end.

(** Every character of [s] is white space. *)
Fixpoint all_space (s : string) : bool :=
  match s with
  | String c s' => PyStr.is_space c && all_space s'
  | EmptyString => true
  end.

(** The alternatives [alts] of a directive read the two-digit text of
    every number from [lo] to [hi] as that number, whatever follows,
    when the rest of the pattern (the continuation [k]) accepts it. *)
Definition field_selects (alts : list (string -> option (Z * string))) (lo hi : Z) : Prop :=
  forall v, lo <= v <= hi ->
  forall (X : Type) (k : Z -> string -> option X) (s : string) (y : X),
    k v s = Some y ->
    PyTime.first_some
      (fun alt => match alt (PyStr.pad2 v ++ s) with
                  | Some (v', s') => k v' s'
                  | None => None
                  end) alts = Some y.

(** A timestamp as the device writes it: two digits per field. *)
Definition timestamp_text (d m y hh mm ss : Z) : string :=
  PyStr.pad2 d ++ "/" ++ PyStr.pad2 m ++ "/" ++ PyStr.pad2 y ++ " "
  ++ PyStr.pad2 hh ++ ":" ++ PyStr.pad2 mm ++ ":" ++ PyStr.pad2 ss.

(** The year a two-digit year stands for. *)
Definition full_year (y : Z) : Z := if y <=? 68 then y + 2000 else y + 1900.

(** The fields are those of a date and time of day that exist. *)
Definition valid_timestamp (d m y hh mm ss : Z) : Prop :=
  1 <= m <= 12 /\ 1 <= d <= PyTime.days_in_month (full_year y) m /\ 0 <= y <= 99
  /\ 0 <= hh <= 23 /\ 0 <= mm <= 59 /\ 0 <= ss <= 59.

(** The months from January 1969 on, numbered from 0: the first day of
    month [i] as a day number, and the number of its days. *)
Definition month_start (i : Z) : Z :=
  PyTime.days_from_civil (1969 + i / 12) (i mod 12 + 1) 1.

Definition month_days (i : Z) : Z :=
  PyTime.days_in_month (1969 + i / 12) (i mod 12 + 1).

Definition month_index (year m : Z) : Z := (year - 1969) * 12 + (m - 1).

(** * Properties *)

(** ** The text and time primitives, on examples *)

Example split_ex :
  PyStr.split PyStr.tab ("a" ++ String PyStr.tab "b") = ["a"; "b"]
  /\ PyStr.split PyStr.newline "" = [""]
  /\ PyStr.extract_digits "Entered by card 00123 x9" = Some "00123"
  /\ PyStr.to_numeric "00123" = 123
  /\ PyStr.str_int 123 = "123" /\ PyStr.pad2 7 = "07"
  /\ PyStr.lower "TRUE" = "true"
  /\ PyStr.strip (" a b " ++ String PyStr.newline "") = "a b".
Proof. repeat split; reflexivity. Qed.

Example strptime_ex :
  PyTime.strptime "01/02/24 10:00:00" = Some (PyTime.days_from_civil 2024 2 1 * 86400 + 36000)
  /\ PyTime.days_from_civil 2024 2 1 = 19754
  /\ PyTime.days_from_civil 1970 1 1 = 0
  /\ PyTime.strptime "1/2/24  9:5:7" = Some (19754 * 86400 + 9 * 3600 + 5 * 60 + 7)
  /\ PyTime.strptime "31/02/24 10:00:00" = None
  /\ PyTime.strptime "2024-02-01 10:00:00" = None
  /\ PyTime.strptime "01/02/24 10:00:00 " = None
  /\ PyTime.strptime "00/02/24 10:00:00" = None
  /\ PyTime.to_datetime "NaT" = Some None
  /\ PyTime.to_datetime "yesterday" = None
  /\ PyTime.strftime {| PyTime.year := 2024; PyTime.month := 2; PyTime.day := 1;
                        PyTime.hour := 9; PyTime.minute := 30; PyTime.second := 5 |}
     = "20240201_093005".
Proof. repeat split; vm_compute; reflexivity. Qed.

Example str_float_ex :
  PyStr.str_float 11 = "11.0" /\ PyStr.str_float 0 = "0.0"
  /\ PyStr.str_float (-5) = "-5.0"
  /\ PyStr.str_float 9007199254740993 = "9007199254740992.0"
  /\ PyStr.str_float 9999999999999998 = "9999999999999998.0"
  /\ PyStr.str_float 10000000000000000 = "1e+16"
  /\ PyStr.str_float 12000000000000000 = "1.2e+16"
  /\ PyStr.str_float 123456789012345678 = "1.2345678901234568e+17"
  /\ PyStr.str_float 9223372036854775807 = "9.223372036854776e+18".
Proof. repeat split; vm_compute; reflexivity. Qed.


(** ** The monad and the world *)

Lemma with_sent_sent w s : sent (with_sent w s) = s.
Proof. reflexivity. Qed.

Lemma with_sent_twice w s s' : with_sent (with_sent w s) s' = with_sent w s'.
Proof. reflexivity. Qed.

Lemma with_sent_same w : with_sent w (sent w) = w.
Proof. destruct w; reflexivity. Qed.

Lemma with_dirs_same w : with_dirs w (dirs w) = w.
Proof. destruct w; reflexivity. Qed.

Lemma bind_ok {A B} (m : M A) (k : A -> M B) w w' a :
  m w = (w', Ok a) -> bind m k w = k a w'.
Proof. unfold bind. intros ->. reflexivity. Qed.

Lemma bind_raise {A B} (m : M A) (k : A -> M B) w w' e :
  m w = (w', Raise e) -> bind m k w = (w', Raise e).
Proof. unfold bind. intros ->. reflexivity. Qed.

(** ** Provisioning (C8) *)

Section Provisioning.

Variable self : Turnstile.TurnstileManager.

Lemma make_request_accepted w endpoint params :
  accepts (device w) (sent w) {| url := Turnstile.base_url self ++ endpoint;
                        credentials := Turnstile.auth self; req := params |} = true ->
  exists resp,
    Turnstile._make_request self endpoint params w
    = (with_sent w (sent w ++ [{| url := Turnstile.base_url self ++ endpoint;
                                  credentials := Turnstile.auth self; req := params |}]),
       Ok resp).
Proof.
  unfold accepts, Turnstile._make_request. intros H.
  destruct (device w (sent w) _) as [code body|]; [|discriminate].
  destruct ((400 <=? code) && (code <? 600)); [discriminate|].
  eexists; reflexivity.
Qed.

Lemma make_request_refused w endpoint params :
  accepts (device w) (sent w) {| url := Turnstile.base_url self ++ endpoint;
                        credentials := Turnstile.auth self; req := params |} = false ->
  Turnstile._make_request self endpoint params w
  = (with_sent w (sent w ++ [{| url := Turnstile.base_url self ++ endpoint;
                                credentials := Turnstile.auth self; req := params |}]),
     Raise RequestException).
Proof.
  unfold accepts, Turnstile._make_request. intros H.
  destruct (device w (sent w) _) as [code body|]; [|reflexivity].
  destruct ((400 <=? code) && (code <? 600)); [reflexivity|discriminate].
Qed.

Lemma update_all_accepted l : forall w,
  all_accepted (device w) (sent w) (map (card_edit_request self) l) = true ->
  Turnstile.update_turnstile_cards self l w
  = (with_sent w (sent w ++ map (card_edit_request self) l), Ok tt).
Proof.
  induction l as [|row l IH]; intros w H.
  - simpl. rewrite app_nil_r, with_sent_same. reflexivity.
  - simpl in H. apply andb_true_iff in H. destruct H as [Ha Hl].
    destruct (make_request_accepted w "/cgi/card_edit"
                (Some (Turnstile.card_edit_req row)) Ha) as [resp Hr].
    unfold Turnstile.update_turnstile_cards in *. simpl.
    unfold bind at 1. unfold bind at 1. rewrite Hr. unfold ret at 1.
    rewrite IH by exact Hl.
    rewrite with_sent_twice, with_sent_sent, <- app_assoc. reflexivity.
Qed.

Lemma update_stops_at_refusal l1 : forall w row l2,
  all_accepted (device w) (sent w) (map (card_edit_request self) l1) = true ->
  accepts (device w) (sent w ++ map (card_edit_request self) l1) (card_edit_request self row) = false ->
  Turnstile.update_turnstile_cards self (l1 ++ row :: l2)%list w
  = (with_sent w (sent w ++ map (card_edit_request self) l1 ++ [card_edit_request self row]),
     Raise RequestException).
Proof.
  induction l1 as [|r l1 IH]; intros w row l2 H Hrow.
  - simpl in *. rewrite app_nil_r in Hrow.
    unfold Turnstile.update_turnstile_cards. simpl.
    unfold bind at 1. unfold bind at 1.
    rewrite (make_request_refused w "/cgi/card_edit"
               (Some (Turnstile.card_edit_req row)) Hrow).
    reflexivity.
  - simpl in H. apply andb_true_iff in H. destruct H as [Ha Hl].
    destruct (make_request_accepted w "/cgi/card_edit"
                (Some (Turnstile.card_edit_req r)) Ha) as [resp Hr].
    unfold Turnstile.update_turnstile_cards in *. simpl.
    unfold bind at 1. unfold bind at 1. rewrite Hr. unfold ret at 1.
    rewrite (IH _ row l2) by
      (try exact Hl; rewrite with_sent_sent, <- app_assoc; exact Hrow).
    rewrite with_sent_twice, with_sent_sent, <- app_assoc. reflexivity.
Qed.

End Provisioning.




(** ** Clearing the cards (C1) *)

Lemma getattr_clear_all_cards {K : Pandas.Installation} self :
  Turnstile.getattr self "clear_all_cards" = None.
Proof. reflexivity. Qed.

Lemma call0_clear_all_cards {K : Pandas.Installation} self w :
  Turnstile.call0 self "clear_all_cards" w = (w, Raise AttributeError).
Proof. reflexivity. Qed.

Lemma load_and_filter_cards_spec {K : Pandas.Installation} path w :
  DataHandler.load_and_filter_cards path w
  = match sheets w path with
    | Sheet rows =>
        let df := DataHandler.stringify_active (DataHandler.typed rows) in
        (w, Ok (df, DataHandler.select_active (DataHandler.today_of (clock w)) df))
    | Missing => (w, Raise FileNotFoundError)
    | Unreadable => (w, Raise ExcelError)
    end.
Proof.
  unfold DataHandler.load_and_filter_cards, DataHandler.load_objects,
    DataHandler.read_excel, bind, now, ret.
  destruct (sheets w path); reflexivity.
Qed.

Lemma download_backup_cases self folder w :
  exists w1,
    sent w1 = (sent w ++ [backup_request self])%list
    /\ ((exists e, Turnstile.download_backup self folder w = (w1, Raise e)
                   /\ exit_status e = 1)
        \/ exists p, Turnstile.download_backup self folder w = (w1, Ok p)).
Proof.
  unfold Turnstile.download_backup, Turnstile._make_request, bind, now, ret,
    makedirs, write_file.
  fold (backup_request self).
  destruct (device w (sent w) (backup_request self)) as [code body|].
  - destruct ((400 <=? code) && (code <? 600)).
    + eexists; split; cycle 1; [left; eexists; split|]; reflexivity.
    + cbn [sent with_sent mkdir dirs store files clock Turnstile.text].
      destruct (String.eqb folder "").
      { eexists; split; cycle 1; [left; eexists; split|]; reflexivity. }
      destruct (mkdir w folder).
      2,3: eexists; split; cycle 1; [left; eexists; split|]; reflexivity.
      cbn [sent with_sent with_dirs mkdir dirs store files clock].
      destruct (store w _ _).
      * eexists; split; cycle 1; [right; eexists|]; reflexivity.
      * eexists; split; cycle 1; [left; eexists; split|]; reflexivity.
      * eexists; split; cycle 1; [left; eexists; split|]; reflexivity.
  - eexists; split; cycle 1; [left; eexists; split|]; reflexivity.
Qed.

Lemma main_exit_status {K : Pandas.Installation} cfg args w w' e :
  Main.operations cfg args w = (w', Raise e) ->
  Main.main cfg args w = (w', exit_status e).
Proof. unfold Main.main. intros ->. destruct e; reflexivity. Qed.

Lemma operations_stop_at_clear_all_cards {K : Pandas.Installation} cfg args w :
  Main.skip_update args = false ->
  Main.skip_clear_all_cards args = false ->
  exists w' e,
    Main.operations cfg args w = (w', Raise e)
    /\ exit_status e = 1
    /\ (sent w' = sent w
        \/ sent w' = (sent w ++ [backup_request
                                   (Turnstile.init (Main.host args) (Main.USERNAME cfg)
                                                   (Main.PASSWORD cfg))])%list).
Proof.
  intros Hu Hc. unfold Main.operations. rewrite Hu, Hc. cbn [negb].
  set (manager := Turnstile.init _ _ _).
  assert (Hping : Turnstile.check_ping manager w = (w, Ok true)
                  \/ Turnstile.check_ping manager w = (w, Ok false)).
  { unfold Turnstile.check_ping. destruct (ping w _); auto. }
  destruct Hping as [Hp|Hp]; rewrite (bind_ok _ _ _ _ _ Hp); cbn [negb].
  2:{ exists w, (SystemExit 1). repeat split. left. reflexivity. }
  rewrite (bind_ok _ _ w w tt) by reflexivity.
  pose proof (load_and_filter_cards_spec (Main.file args) w) as Hl.
  destruct (sheets w (Main.file args)) as [df0| |].
  2,3: rewrite (bind_raise _ _ _ _ _ Hl); eexists w, _;
       repeat split; left; reflexivity.
  rewrite (bind_ok _ _ _ _ _ Hl). cbv zeta. cbn [fst snd].
  destruct (download_backup_cases manager (Main.BACKUP_DIR cfg) w)
    as (w1 & Hs & [(e & E & He) | [p E]]).
  - exists w1, e. split; [|split; [exact He|right; exact Hs]].
    apply bind_raise. apply bind_raise. exact E.
  - exists w1, AttributeError. split; [|split; [reflexivity|right; exact Hs]].
    apply bind_raise. rewrite (bind_ok _ _ _ _ _ E).
    apply bind_raise. apply call0_clear_all_cards.
Qed.

(** C1 (what the code does). [class TurnstileManager] defines no
    [clear_all_cards]: asking for it is an [AttributeError].  So a run
    that neither skips the update nor the clearing always ends with
    exit status 1, and the only request it can have sent is the backup
    download; no command that wipes the cards, and no [card_edit], ever
    reaches the device. *)
Theorem clear_all_cards_missing_aborts_every_run {K : Pandas.Installation}
    (cfg : Main.Config) (args : Main.Args) (w : World) :
  Main.skip_update args = false ->
  Main.skip_clear_all_cards args = false ->
  let manager := Turnstile.init (Main.host args) (Main.USERNAME cfg) (Main.PASSWORD cfg) in
  Turnstile.getattr manager "clear_all_cards" = None
  /\ snd (Main.main cfg args w) = 1
  /\ forall r, In r (sent (fst (Main.main cfg args w))) ->
               In r (sent w) \/ r = backup_request manager.
Proof.
  intros Hu Hc manager. split; [reflexivity|].
  destruct (operations_stop_at_clear_all_cards cfg args w Hu Hc) as (w' & e & E & He & Hs).
  rewrite (main_exit_status _ _ _ _ _ E). cbn [fst snd]. split; [exact He|].
  intros r Hr. destruct Hs as [Hs|Hs]; rewrite Hs in Hr; [left; exact Hr|].
  apply in_app_or in Hr. destruct Hr as [Hr|[Hr|[]]]; auto.
Qed.

Lemma clear_all_cards_missing_aborts_every_run_witness :
  let w := world_of device_ok (Sheet [card_of 1 "ann"; card_of 2 "bob"]) in
  let manager := Turnstile.init "10.0.0.7" "admin" "secret" in
  Main.skip_update args0 = false
  /\ Main.skip_clear_all_cards args0 = false
  /\ Turnstile.getattr manager "clear_all_cards" = None
  /\ snd (Main.main cfg0 args0 w) = 1
  /\ forall r, In r (sent (fst (Main.main cfg0 args0 w))) ->
               In r (sent w) \/ r = backup_request manager.
Proof.
  intros w manager. split; [reflexivity|]. split; [reflexivity|].
  exact (clear_all_cards_missing_aborts_every_run cfg0 args0 w eq_refl eq_refl).
Defined.

(** The default run against a healthy device and a good roster: the
    backup is taken, then the run dies; no card is cleared or sent. *)
Example default_run_stops_after_backup :
  let w := world_of device_ok (Sheet [card_of 1 "ann"; card_of 2 "bob"]) in
  snd (Main.main cfg0 args0 w) = 1
  /\ sent (fst (Main.main cfg0 args0 w)) = [backup_request manager0]
  /\ files (fst (Main.main cfg0 args0 w))
     = [("backups/turnstile_backup_20240210_093005.bin", Binary "OK")].
Proof. vm_compute. repeat split. Qed.

(** With [--skip-clear-all-cards] the same run provisions both cards and
    writes no report, the event text having no four-field line. *)
Example run_skipping_clear :
  let w := world_of device_ok (Sheet [card_of 1 "ann"; card_of 2 "bob"]) in
  let args := {| Main.host := "10.0.0.7"; Main.file := "cards.xlsx";
                 Main.records_to_fetch := 10000; Main.skip_update := false;
                 Main.skip_report := false; Main.skip_clear_all_cards := true;
                 Main.verbose := false |} in
  snd (Main.main cfg0 args w) = 0
  /\ map req (sent (fst (Main.main cfg0 args w)))
     = [None; Some "1+1+1"; Some "1+1+2";
        Some "-1,0,-10000,0,0,1,1,0,23,59,31,12,99,1,/en"]
  /\ map fst (files (fst (Main.main cfg0 args w)))
     = ["backups/turnstile_backup_20240210_093005.bin"].
Proof. vm_compute. repeat split. Qed.

(** ** The roster views (C4, C9) *)

(** A timestamp is at or after midnight of day [d] exactly when its
    calendar day is [d] or later. *)
Lemma midnight_le_iff (d t : Z) : d * 86400 <= t <-> d <= t / 86400.
Proof.
  split; intros H.
  - apply Z.div_le_lower_bound; lia.
  - pose proof (Z.mul_div_le t 86400 ltac:(lia)). nia.
Qed.

Lemma is_active_iff (n : PyTime.datetime) (r : Card) :
  DataHandler.is_active (DataHandler.today_of n) r = true
  <-> reads_true (active r)
      /\ card_rfid r <> None
      /\ exists t, expiration r = Some t /\ PyTime.date n <= t / 86400.
Proof.
  unfold DataHandler.is_active, DataHandler.today_of, DataHandler.str_lower, reads_true.
  rewrite !andb_true_iff. split.
  - intros [[Ha Hr] He]. repeat split.
    + destruct (active r) as [| | | |s]; try discriminate.
      exists s. split; [reflexivity|]. apply String.eqb_eq. exact Ha.
    + destruct (card_rfid r); [discriminate|discriminate].
    + destruct (expiration r) as [t|]; [|discriminate].
      exists t. split; [reflexivity|]. apply midnight_le_iff. apply Z.leb_le. exact He.
  - intros ((s & Hs & Hl) & Hr & (t & Ht & Hle)). repeat split.
    + rewrite Hs. apply String.eqb_eq. exact Hl.
    + destruct (card_rfid r); [reflexivity|contradiction].
    + rewrite Ht. apply Z.leb_le. apply midnight_le_iff. exact Hle.
Qed.

Lemma load_and_filter_cards_ok {K : Pandas.Installation} path w w' full act :
  DataHandler.load_and_filter_cards path w = (w', Ok (full, act)) ->
  exists rows,
    sheets w path = Sheet rows /\ w' = w
    /\ full = DataHandler.stringify_active (DataHandler.typed rows)
    /\ act = DataHandler.select_active (DataHandler.today_of (clock w)) full.
Proof.
  rewrite load_and_filter_cards_spec.
  destruct (sheets w path) as [rows| |]; try discriminate.
  cbv zeta. intros E. injection E as <- <- <-. exists rows. auto.
Qed.

(** *** What the flag of a sheet's cell becomes *)

Lemma existsb_false_In {A} (f : A -> bool) (l : list A) x :
  existsb f l = false -> In x l -> f x = false.
Proof.
  intros H Hin. destruct (f x) eqn:E; [|reflexivity].
  assert (existsb f l = true) by (apply existsb_exists; exists x; auto). congruence.
Qed.
















(** *** The frames as objects (C9) *)

Lemma load_objects_spec {K : Pandas.Installation} path w :
  DataHandler.load_objects path w
  = match sheets w path with
    | Sheet rows =>
        let df := DataHandler.stringify_active (DataHandler.typed rows) in
        let act := DataHandler.select_active (DataHandler.today_of (clock w)) df in
        (w, Ok (0%nat, 1%nat, [df; act]))
    | Missing => (w, Raise FileNotFoundError)
    | Unreadable => (w, Raise ExcelError)
    end.
Proof.
  unfold DataHandler.load_objects, DataHandler.read_excel, bind, now, ret.
  destruct (sheets w path); reflexivity.
Qed.

Lemma map_fixed {A} (f : A -> A) (l : list A) :
  map f l = l <-> Forall (fun x => f x = x) l.
Proof.
  induction l as [|a l IH]; simpl.
  - split; [constructor|reflexivity].
  - split.
    + intros E. injection E as Ea El. constructor; [exact Ea|]. apply IH. exact El.
    + intros Hf. inversion Hf as [|? ? Ha Hl]; subst.
      rewrite Ha. f_equal. apply IH. exact Hl.
Qed.

Lemma stringify_row_fixed {K : Pandas.Installation} r :
  DataHandler.stringify_row r = r <-> DataHandler.astype_str (active r) = active r.
Proof.
  destruct r as [k fl cn un a e]. unfold DataHandler.stringify_row. cbn. split.
  - intros E. injection E as E. exact E.
  - intros ->. reflexivity.
Qed.

(** C9 as stated fails on its last part: the frame read from the sheet
    holds the boolean [True]; after the call the object that held it
    holds the text "True", and no object is left that holds what was
    read. *)
Lemma loaded_frame_is_overwritten :
  let w := world_of device_ok (Sheet [card_of 1 "ann"]) in
  let read := DataHandler.typed [card_of 1 "ann"] in
  fst (DataHandler.read_excel "cards.xlsx" w) = w
  /\ snd (DataHandler.read_excel "cards.xlsx" w) = Ok read
  /\ map active read = [CBool true]
  /\ match DataHandler.load_objects "cards.xlsx" w with
     | (_, Ok (df, _, h)) =>
         map active (DataHandler.get h df) = [CStr "True"] /\ ~ In read h
     | (_, Raise _) => False
     end.
Proof.
  vm_compute. repeat split. intros [C|[C|[]]]; discriminate.
Qed.

(** C9, amended. The call makes two frame objects and no more: the
    frame read from the sheet, which line 25 changes in place and which
    is returned as the full view, and a copy of its active rows.  Every
    record of the active view is a record of the full view, the active
    view being a sub-list of it.  The frame read is left as it was read
    only when every [Active] value was already the text that
    [astype(str)] gives.  The world is left as it was (the spreadsheet
    is read, never written), and the outcome depends on the clock
    through the calendar day only. *)
Theorem views_subset_deterministic_loaded_frame_changed {K : Pandas.Installation}
    (path : string) (w : World) (read : DataFrame) :
  DataHandler.read_excel path w = (w, Ok read) ->
  exists df a h,
    DataHandler.load_objects path w = (w, Ok (df, a, h))
    /\ DataHandler.load_and_filter_cards path w
       = (w, Ok (DataHandler.get h df, DataHandler.get h a))
    /\ df <> a /\ h = [DataHandler.get h df; DataHandler.get h a]
    /\ (forall r, In r (DataHandler.get h a) -> In r (DataHandler.get h df))
    /\ (exists keep, DataHandler.get h a = filter keep (DataHandler.get h df))
    /\ DataHandler.get h df = DataHandler.stringify_active read
    /\ (DataHandler.get h df = read
        <-> Forall (fun r => DataHandler.astype_str (active r) = active r) read)
    /\ (forall w2, sheets w2 path = sheets w path ->
                   PyTime.date (clock w2) = PyTime.date (clock w) ->
                   snd (DataHandler.load_objects path w2)
                   = snd (DataHandler.load_objects path w)).
Proof.
  intros Hread.
  assert (Hs : sheets w path = sheets w path /\ exists rows,
                 sheets w path = Sheet rows /\ read = DataHandler.typed rows).
  { split; [reflexivity|]. unfold DataHandler.read_excel in Hread.
    destruct (sheets w path) as [rows| |]; try discriminate.
    injection Hread as <-. exists rows. auto. }
  destruct Hs as (_ & rows & Hs & ->).
  exists 0%nat, 1%nat,
    [DataHandler.stringify_active (DataHandler.typed rows);
     DataHandler.select_active (DataHandler.today_of (clock w))
       (DataHandler.stringify_active (DataHandler.typed rows))].
  cbn [DataHandler.get nth].
  split; [rewrite load_objects_spec, Hs; reflexivity|].
  split; [rewrite load_and_filter_cards_spec, Hs; reflexivity|].
  split; [discriminate|]. split; [reflexivity|]. split; [|split; [|split; [|split]]].
  - intros r Hr. unfold DataHandler.select_active in Hr. apply filter_In in Hr. apply Hr.
  - eexists. reflexivity.
  - reflexivity.
  - pose proof (map_fixed DataHandler.stringify_row (DataHandler.typed rows)) as Hm.
    unfold DataHandler.stringify_active. split.
    + intros E. apply Hm in E. eapply Forall_impl; [|exact E].
      intros r Hr. apply stringify_row_fixed. exact Hr.
    + intros Hf. apply Hm. eapply Forall_impl; [|exact Hf].
      intros r Hr. apply stringify_row_fixed. exact Hr.
  - intros w2 Hs2 Hd. rewrite !load_objects_spec, Hs2, Hs.
    unfold DataHandler.today_of. rewrite Hd. reflexivity.
Qed.

Lemma views_subset_deterministic_loaded_frame_changed_witness :
  let w := world_of device_ok (Sheet roster4) in
  let full := map (as_read roster4) roster4 in
  let act := [as_read roster4 (nth 0 roster4 (card_of 0 ""))] in
  DataHandler.read_excel "cards.xlsx" w = (w, Ok (DataHandler.typed roster4))
  /\ DataHandler.load_objects "cards.xlsx" w = (w, Ok (0%nat, 1%nat, [full; act]))
  /\ exists df a h,
       DataHandler.load_objects "cards.xlsx" w = (w, Ok (df, a, h))
       /\ df <> a
       /\ (forall r, In r (DataHandler.get h a) -> In r (DataHandler.get h df))
       /\ DataHandler.get h df <> DataHandler.typed roster4.
Proof.
  intros w full act.
  assert (Hs : DataHandler.read_excel "cards.xlsx" w = (w, Ok (DataHandler.typed roster4)))
    by reflexivity.
  split; [exact Hs|]. split; [vm_compute; reflexivity|].
  destruct (views_subset_deterministic_loaded_frame_changed "cards.xlsx" w
              (DataHandler.typed roster4) Hs)
    as (df & a & h & Hl & _ & Hne & _ & Hsub & _ & Hdf & _ & _).
  exists df, a, h. split; [exact Hl|]. split; [exact Hne|]. split; [exact Hsub|].
  rewrite Hdf. vm_compute. discriminate.
Defined.

(** ** The sort, whatever the installation *)

Lemma take_from {A} (l : list A) : forall pre,
  Pandas.take (pre ++ l) (seq (List.length pre) (List.length l)) = l.
Proof.
  induction l as [|a l IH]; intros pre; [reflexivity|].
  unfold Pandas.take in *. cbn [List.length seq flat_map].
  rewrite nth_error_app2 by lia. rewrite Nat.sub_diag. cbn [nth_error app].
  f_equal. specialize (IH (pre ++ [a])%list).
  rewrite <- app_assoc, length_app in IH. cbn [List.length app] in IH.
  rewrite Nat.add_1_r in IH. exact IH.
Qed.

Lemma take_all {A} (l : list A) : Pandas.take l (seq 0 (List.length l)) = l.
Proof. exact (take_from l []). Qed.

Lemma take_map {A B} (f : A -> B) (l : list A) (indexer : list nat) :
  map f (Pandas.take l indexer) = Pandas.take (map f l) indexer.
Proof.
  unfold Pandas.take. induction indexer as [|i indexer IH]; [reflexivity|].
  cbn [flat_map]. rewrite map_app, IH, nth_error_map.
  destruct (nth_error l i); reflexivity.
Qed.

(** The sort only reorders the rows. *)
Lemma sort_values_desc_Permutation {K : Pandas.Installation} {A} (key : A -> Z) l :
  Permutation (Pandas.sort_values_desc key l) l.
Proof.
  unfold Pandas.sort_values_desc.
  pose proof (Pandas.order_desc_permutes (map key l)) as Hp.
  rewrite length_map in Hp.
  apply (perm_trans (l' := Pandas.take l (seq 0 (List.length l)))).
  - unfold Pandas.take. apply Permutation_flat_map. exact Hp.
  - rewrite take_all. reflexivity.
Qed.

Lemma sort_values_desc_In {K : Pandas.Installation} {A} (key : A -> Z) l z :
  In z (Pandas.sort_values_desc key l) <-> In z l.
Proof.
  split; apply Permutation_in;
    [|apply Permutation_sym]; apply sort_values_desc_Permutation.
Qed.

Lemma sort_values_desc_nil {K : Pandas.Installation} {A} (key : A -> Z) :
  Pandas.sort_values_desc key [] = [].
Proof.
  apply Permutation_nil. apply Permutation_sym. apply sort_values_desc_Permutation.
Qed.

Lemma StronglySorted_of_map {A B} (f : A -> B) (R : B -> B -> Prop) l :
  StronglySorted R (map f l) -> StronglySorted (fun a b => R (f a) (f b)) l.
Proof.
  induction l as [|a l IH]; intros H; [constructor|].
  cbn [map] in H. apply StronglySorted_inv in H. destruct H as [Hl Ha].
  constructor; [apply IH; exact Hl|].
  rewrite Forall_map in Ha. exact Ha.
Qed.

(** The sorted rows are in descending order of the key. *)
Lemma sort_values_desc_sorted {K : Pandas.Installation} {A} (key : A -> Z) l :
  StronglySorted (desc key) (Pandas.sort_values_desc key l).
Proof.
  unfold Pandas.sort_values_desc, desc.
  apply (StronglySorted_of_map key (fun a b => b <= a)).
  rewrite take_map. apply Pandas.order_desc_descends.
Qed.

(** ** Event classification (C5) *)

Lemma classify_app l1 l2 :
  Turnstile.classify (l1 ++ l2) = (Turnstile.classify l1 ++ Turnstile.classify l2)%list.
Proof. unfold Turnstile.classify. rewrite !filter_app. reflexivity. Qed.

Lemma classify_not_registered x l :
  PyStr.contains "Card is not registered" (Turnstile.descr x) = true ->
  Turnstile.classify (x :: l) = Turnstile.classify l.
Proof. unfold Turnstile.classify. intros H. simpl. rewrite H. reflexivity. Qed.

(** C5. Of the two lines of the example only the first becomes an
    access event, rfid 123 on 2024-02-01; and a line whose description
    says "Card is not registered" yields no event whatever else it
    holds: the events are those of the frame without that line. *)
Theorem event_classification :
  let raw := text_of [tsv ["1"; "h1"; "01/02/24 10:00:00"; "Entered by card 00123"];
                      tsv ["bad"; "line"]] in
  Turnstile.tokenize raw = [["1"; "h1"; "01/02/24 10:00:00"; "Entered by card 00123"]]
  /\ Turnstile.access_events (Turnstile.frame_of (Turnstile.tokenize raw))
     = Ok [{| Turnstile.ev_rfid := 123;
              Turnstile.ev_date := Some (PyTime.days_from_civil 2024 2 1) |}]
  /\ forall l1 x l2,
       PyStr.contains "Card is not registered" (Turnstile.descr x) = true ->
       Turnstile.classify (l1 ++ x :: l2) = Turnstile.classify (l1 ++ l2)
       /\ ~ In x (Turnstile.classify (l1 ++ x :: l2))
       /\ Turnstile.access_events (l1 ++ x :: l2) = Turnstile.access_events (l1 ++ l2).
Proof.
  intros raw. split; [vm_compute; reflexivity|]. split; [vm_compute; reflexivity|].
  intros l1 x l2 H.
  assert (E : Turnstile.classify (l1 ++ x :: l2) = Turnstile.classify (l1 ++ l2)).
  { rewrite !classify_app, (classify_not_registered x l2 H). reflexivity. }
  split; [exact E|]. split.
  - unfold Turnstile.classify. rewrite !filter_In, negb_true_iff.
    intros ((_ & Hn) & _). congruence.
  - unfold Turnstile.access_events. rewrite E. reflexivity.
Qed.

(** A not-registered description that has digits, between two good
    lines: only the good lines give events. *)
Lemma event_classification_witness :
  let good := fun d => {| Turnstile.request_number := "1"; Turnstile.hash := "h";
                          Turnstile.datetime := d;
                          Turnstile.descr := "Entered by card 00123" |} in
  let x := {| Turnstile.request_number := "2"; Turnstile.hash := "h";
              Turnstile.datetime := "01/02/24 10:00:00";
              Turnstile.descr := "Card is not registered 00456" |} in
  PyStr.contains "Card is not registered" (Turnstile.descr x) = true
  /\ PyStr.extract_digits (Turnstile.descr x) = Some "00456"
  /\ Turnstile.access_events [good "01/02/24 10:00:00"; x; good "02/02/24 10:00:00"]
     = Turnstile.access_events [good "01/02/24 10:00:00"; good "02/02/24 10:00:00"].
Proof.
  intros good x. split; [reflexivity|]. split; [reflexivity|].
  exact (proj2 (proj2 (proj2 (proj2 event_classification)
                         [good "01/02/24 10:00:00"] x [good "02/02/24 10:00:00"]
                         eq_refl))).
Defined.

(** ** The report build: what is returned and what is written (C2, C7, C10) *)

Lemma generate_access_report_spec {K : Pandas.Installation} self n cards dir w body :
  event_reply self n w body ->
  Turnstile.generate_access_report self n cards dir w
  = let w1 := with_sent w (sent w ++ [event_request self n]) in
    match Turnstile.tokenize body with
    | [] => (w1, Ok None)
    | data =>
        match Turnstile.access_events (Turnstile.frame_of data) with
        | Raise e => (w1, Raise e)
        | Ok evs =>
            let rows := Turnstile.report_rows cards evs in
            if String.eqb dir "" then (w1, Raise FileNotFoundError)
            else match mkdir w dir with
                 | DiskOk =>
                     let w2 := with_dirs w1 (dirs w ++ [dir]) in
                     match store w (report_path dir w) (Workbook rows) with
                     | DiskOk =>
                         (with_files w2 (files w ++ [(report_path dir w, Workbook rows)]),
                          Ok None)
                     | NoSuchPath | DiskError => (w2, Raise ExcelError)
                     end
                 | NoSuchPath => (w1, Raise FileNotFoundError)
                 | DiskError => (w1, Raise OSError)
                 end
        end
    end.
Proof.
  intros (code & Hd & Hc).
  unfold Turnstile.generate_access_report.
  assert (E : Turnstile._make_request self "/cgi/event_get"
                (Some (Turnstile.event_get_req n)) w
              = (with_sent w (sent w ++ [event_request self n]),
                 Ok {| Turnstile.status_code := code; Turnstile.text := body |})).
  { unfold Turnstile._make_request. fold (event_request self n). rewrite Hd, Hc. reflexivity. }
  rewrite (bind_ok _ _ _ _ _ E). cbn [Turnstile.text]. cbv zeta.
  destruct (Turnstile.tokenize body) as [|row data]; [reflexivity|].
  destruct (Turnstile.access_events _) as [evs|e]; [|reflexivity].
  unfold bind, makedirs, now, to_excel, ret, report_path.
  cbn [mkdir with_sent dirs store files clock with_dirs].
  destruct (String.eqb dir ""); [reflexivity|].
  destruct (mkdir w dir); try reflexivity.
  cbn [mkdir with_sent dirs store files clock with_dirs].
  destruct (store w _ _); reflexivity.
Qed.

Lemma generate_access_report_returns_none {K : Pandas.Installation} self n cards dir w w' v :
  Turnstile.generate_access_report self n cards dir w = (w', Ok v) -> v = None.
Proof.
  unfold Turnstile.generate_access_report, Turnstile._make_request, bind.
  destruct (device w (sent w) _) as [code body|]; [|discriminate].
  destruct ((400 <=? code) && (code <? 600)); [discriminate|].
  cbn [Turnstile.text].
  destruct (Turnstile.tokenize body) as [|row data].
  - unfold ret. intros E. injection E as _ <-. reflexivity.
  - destruct (Turnstile.access_events _) as [evs|e]; [|discriminate].
    unfold makedirs, now, to_excel, ret.
    destruct (String.eqb dir ""); [discriminate|].
    destruct (mkdir _ dir); try discriminate.
    destruct (store _ _ _); try discriminate.
    intros E. injection E as _ <-. reflexivity.
Qed.

(** C2 as stated fails: one good line is fetched, the report is written,
    and the call returns [None], not the path it wrote to. *)
Lemma report_written_but_path_not_returned :
  let body := tsv ["1"; "h1"; "01/02/24 10:00:00"; "Entered by card 00123"] in
  let w := world_of (device_saying body) (Sheet roster123) in
  let r := Turnstile.generate_access_report manager0 100 roster123 "reports/" w in
  Turnstile.tokenize body <> []
  /\ files (fst r)
     = [("reports/access_report_20240210_093005.xlsx",
         Workbook [{| rr_rfid := 123; rr_days := 1; rr_card := Some (card_of 123 "ann") |}])]
  /\ snd r = Ok None
  /\ snd r <> Ok (Some "reports/access_report_20240210_093005.xlsx").
Proof.
  vm_compute. repeat split; discriminate.
Qed.

(** The same call with no directory name, and on a disk that takes
    nothing: line 150 raises, and there is no report. *)
Example report_without_a_place_to_go :
  let body := tsv ["1"; "h1"; "01/02/24 10:00:00"; "Entered by card 00123"] in
  let w := world_of (device_saying body) (Sheet roster123) in
  let w' := world_read_only (device_saying body) (Sheet roster123) in
  Turnstile.generate_access_report manager0 100 roster123 "" w
  = (with_sent w [event_request manager0 100], Raise FileNotFoundError)
  /\ Turnstile.generate_access_report manager0 100 roster123 "reports/" w'
     = (with_sent w' [event_request manager0 100], Raise OSError).
Proof. vm_compute. split; reflexivity. Qed.

(** C2, amended. [generate_access_report] returns [None] whenever it
    returns.  When the fetched text has no four-field line nothing is
    made or written.  Otherwise, the pipeline having produced its
    events: when the directory can be made and the disk takes the file,
    the report goes to [output_dir/access_report_<timestamp>.xlsx] and
    the value is still [None]; when the directory has no name or cannot
    be made, or the file cannot be written, the call raises and there is
    no report. *)
Theorem report_contract {K : Pandas.Installation} (self : Turnstile.TurnstileManager)
    (n : Z) (cards : DataFrame) (dir : string) (w : World) (body : string) :
  event_reply self n w body ->
  let r := Turnstile.generate_access_report self n cards dir w in
  (forall w' v, r = (w', Ok v) -> v = None)
  /\ (Turnstile.tokenize body = [] ->
      snd r = Ok None /\ files (fst r) = files w /\ dirs (fst r) = dirs w)
  /\ (forall evs,
        Turnstile.tokenize body <> [] ->
        Turnstile.access_events (Turnstile.frame_of (Turnstile.tokenize body)) = Ok evs ->
        let report := (report_path dir w, Workbook (Turnstile.report_rows cards evs)) in
        (dir <> "" -> mkdir w dir = DiskOk -> store w (fst report) (snd report) = DiskOk ->
         snd r = Ok None
         /\ files (fst r) = (files w ++ [report])%list
         /\ dirs (fst r) = (dirs w ++ [dir])%list)
        /\ (dir = "" \/ mkdir w dir <> DiskOk \/ store w (fst report) (snd report) <> DiskOk ->
            files (fst r) = files w
            /\ (snd r = Raise FileNotFoundError \/ snd r = Raise OSError
                \/ snd r = Raise ExcelError))).
Proof.
  intros Hev r. split; [|split].
  - intros w' v. apply generate_access_report_returns_none.
  - intros Ht. subst r. rewrite (generate_access_report_spec _ _ _ _ _ _ Hev), Ht.
    repeat split.
  - intros evs Ht Hevs report. subst r.
    rewrite (generate_access_report_spec _ _ _ _ _ _ Hev).
    destruct (Turnstile.tokenize body) as [|row data]; [contradiction|].
    rewrite Hevs. cbv zeta. subst report. cbn [fst snd].
    destruct (String.eqb dir "") eqn:Ed.
    { apply String.eqb_eq in Ed. split; [intros C; contradiction|].
      intros _. cbn [fst snd]. split; [reflexivity|]. auto. }
    apply String.eqb_neq in Ed.
    destruct (mkdir w dir) eqn:Em.
    + destruct (store w _ _) eqn:Est.
      * split; [intros _ _ _; repeat split|].
        intros [C|[C|C]]; contradiction.
      * split; [intros _ _ C; discriminate|]. intros _. cbn [fst snd]. auto.
      * split; [intros _ _ C; discriminate|]. intros _. cbn [fst snd]. auto.
    + split; [intros _ C; discriminate|]. intros _. cbn [fst snd]. auto.
    + split; [intros _ C; discriminate|]. intros _. cbn [fst snd]. auto.
Qed.

Lemma report_contract_witness :
  let body := tsv ["1"; "h1"; "01/02/24 10:00:00"; "Entered by card 00123"] in
  let w := world_of (device_saying body) (Sheet roster123) in
  let r := Turnstile.generate_access_report manager0 100 roster123 "reports/" w in
  let evs := [{| Turnstile.ev_rfid := 123;
                 Turnstile.ev_date := Some (PyTime.days_from_civil 2024 2 1) |}] in
  event_reply manager0 100 w body
  /\ Turnstile.tokenize body <> []
  /\ Turnstile.access_events (Turnstile.frame_of (Turnstile.tokenize body)) = Ok evs
  /\ snd r = Ok None
  /\ files (fst r)
     = (files w ++ [(report_path "reports/" w,
                     Workbook (Turnstile.report_rows roster123 evs))])%list
  /\ dirs (fst r) = (dirs w ++ ["reports/"])%list.
Proof.
  intros body w r evs.
  assert (Hev : event_reply manager0 100 w body) by (exists 200; split; reflexivity).
  assert (Ht : Turnstile.tokenize body <> []) by (vm_compute; discriminate).
  assert (He : Turnstile.access_events (Turnstile.frame_of (Turnstile.tokenize body)) = Ok evs)
    by (vm_compute; reflexivity).
  split; [exact Hev|]. split; [exact Ht|]. split; [exact He|].
  refine (proj1 (proj2 (proj2 (report_contract manager0 100 roster123 "reports/" w body Hev))
                   evs Ht He) _ eq_refl eq_refl).
  discriminate.
Defined.

(** *** Strict parsing of the datetime column (C7) *)

Lemma normalize_raises df dt rfid :
  In (dt, rfid) df -> PyTime.to_datetime dt = None ->
  Turnstile.normalize df = Raise ValueError.
Proof.
  induction df as [|[dt' rfid'] df IH]; intros Hin Hdt; [contradiction|].
  simpl. destruct Hin as [E|Hin].
  - injection E as -> ->. rewrite Hdt. reflexivity.
  - destruct (PyTime.to_datetime dt'); [|reflexivity].
    rewrite (IH Hin Hdt). reflexivity.
Qed.

Lemma normalize_ok df :
  Forall (fun p => PyTime.to_datetime (fst p) <> None) df ->
  exists evs, Turnstile.normalize df = Ok evs
              /\ map Turnstile.ev_rfid evs = map snd df.
Proof.
  induction 1 as [|[dt rfid] df Hdt _ IH]; [exists []; split; reflexivity|].
  destruct IH as (evs & E & Hm). simpl in *.
  destruct (PyTime.to_datetime dt) as [t|]; [|contradiction].
  rewrite E. eexists. split; [reflexivity|]. simpl. rewrite Hm. reflexivity.
Qed.

Lemma survivor_in_extract df line :
  In line df -> survives_classification line ->
  exists rfid, In (Turnstile.datetime line, rfid) (Turnstile.extract (Turnstile.classify df)).
Proof.
  intros Hin (Hn & Hb & Hd).
  destruct (PyStr.extract_digits (Turnstile.descr line)) as [d|] eqn:Ed; [|contradiction].
  exists (PyStr.to_numeric d). unfold Turnstile.extract. apply in_flat_map.
  exists line. split.
  - unfold Turnstile.classify. rewrite !filter_In, Hn, Hb. auto.
  - rewrite Ed. left. reflexivity.
Qed.

(** C7 as stated fails: the datetime cell "NaT" is no
    day/month/year hour:minute:second, the row passes classification,
    and the build neither raises nor skips the file; the row is kept
    with a missing date and counts zero days. *)
Lemma nat_token_does_not_abort_report :
  let line := {| Turnstile.request_number := "1"; Turnstile.hash := "h1";
                 Turnstile.datetime := "NaT";
                 Turnstile.descr := "Entered by card 00123" |} in
  let body := tsv ["1"; "h1"; "NaT"; "Entered by card 00123"] in
  let w := world_of (device_saying body) (Sheet roster123) in
  let r := Turnstile.generate_access_report manager0 100 roster123 "reports/" w in
  Turnstile.frame_of (Turnstile.tokenize body) = [line]
  /\ survives_classification line
  /\ PyTime.strptime (Turnstile.datetime line) = None
  /\ snd r = Ok None
  /\ files (fst r)
     = [("reports/access_report_20240210_093005.xlsx",
         Workbook [{| rr_rfid := 123; rr_days := 0; rr_card := Some (card_of 123 "ann") |}])].
Proof.
  vm_compute. repeat split; discriminate.
Qed.

(** C7, amended. If a row that passes classification has a datetime
    cell that is neither empty nor one of pandas' missing-value words
    and does not parse as day/month/2-digit-year hour:minute:second,
    the build raises [ValueError] and writes no file. *)
Theorem malformed_datetime_aborts_report {K : Pandas.Installation}
    (self : Turnstile.TurnstileManager) (n : Z)
    (cards : DataFrame) (dir : string) (w : World) (body : string)
    (line : Turnstile.EventLine) :
  event_reply self n w body ->
  In line (Turnstile.frame_of (Turnstile.tokenize body)) ->
  survives_classification line ->
  PyTime.is_nat_string (Turnstile.datetime line) = false ->
  PyTime.strptime (Turnstile.datetime line) = None ->
  Turnstile.generate_access_report self n cards dir w
  = (with_sent w (sent w ++ [event_request self n]), Raise ValueError)
  /\ files (fst (Turnstile.generate_access_report self n cards dir w)) = files w.
Proof.
  intros Hev Hin Hs Hnat Hp.
  assert (E : Turnstile.generate_access_report self n cards dir w
              = (with_sent w (sent w ++ [event_request self n]), Raise ValueError)).
  { rewrite (generate_access_report_spec _ _ _ _ _ _ Hev). cbv zeta.
    destruct (Turnstile.tokenize body) as [|row data] eqn:Et; [contradiction|].
    destruct (survivor_in_extract _ _ Hin Hs) as [rfid Hx].
    unfold Turnstile.access_events.
    rewrite (normalize_raises _ _ _ Hx); [reflexivity|].
    unfold PyTime.to_datetime. rewrite Hnat, Hp. reflexivity. }
  split; [exact E|]. rewrite E. reflexivity.
Qed.

Lemma malformed_datetime_aborts_report_witness :
  let line := {| Turnstile.request_number := "2"; Turnstile.hash := "h2";
                 Turnstile.datetime := "2024-02-01 10:00:00";
                 Turnstile.descr := "Entered by card 00123" |} in
  let body := text_of [tsv ["1"; "h1"; "01/02/24 10:00:00"; "Entered by card 00123"];
                       tsv ["2"; "h2"; "2024-02-01 10:00:00"; "Entered by card 00123"]] in
  let w := world_of (device_saying body) (Sheet roster123) in
  event_reply manager0 100 w body
  /\ In line (Turnstile.frame_of (Turnstile.tokenize body))
  /\ survives_classification line
  /\ PyTime.is_nat_string (Turnstile.datetime line) = false
  /\ PyTime.strptime (Turnstile.datetime line) = None
  /\ Turnstile.generate_access_report manager0 100 roster123 "reports/" w
     = (with_sent w (sent w ++ [event_request manager0 100]), Raise ValueError)
  /\ files (fst (Turnstile.generate_access_report manager0 100 roster123 "reports/" w))
     = files w.
Proof.
  intros line body w.
  assert (Hev : event_reply manager0 100 w body) by (exists 200; split; reflexivity).
  assert (Hin : In line (Turnstile.frame_of (Turnstile.tokenize body)))
    by (vm_compute; right; left; reflexivity).
  assert (Hs : survives_classification line)
    by (repeat split; vm_compute; try reflexivity; discriminate).
  split; [exact Hev|]. split; [exact Hin|]. split; [exact Hs|].
  split; [reflexivity|]. split; [reflexivity|].
  exact (malformed_datetime_aborts_report manager0 100 roster123 "reports/" w body line
           Hev Hin Hs eq_refl eq_refl).
Defined.

(** *** A frame whose rows are all dropped (C10) *)

Lemma drop_duplicates_In {A} (eqb : A -> A -> bool) (l : list A) x :
  In x (Pandas.drop_duplicates eqb l) -> In x l.
Proof.
  induction l as [|a l IH]; simpl; [tauto|].
  intros [E|H]; [left; exact E|right]. apply IH. apply filter_In in H. apply H.
Qed.

Lemma join_one_unusable cards e :
  usable_card cards (Turnstile.ev_rfid e) = false ->
  filter (fun p => Turnstile.has_username (snd p))
         (Pandas.merge_left Turnstile.ev_rfid card_rfid [e] cards) = [].
Proof.
  unfold Pandas.merge_left. simpl. rewrite app_nil_r. intros Hu.
  assert (Hm : forall c, In c (filter (fun b => match card_rfid b with
                                                | Some k => k =? Turnstile.ev_rfid e
                                                | None => false
                                                end) cards) ->
                         Turnstile.has_username (Some c) = false).
  { intros c Hc. apply filter_In in Hc. destruct Hc as [Hin Hk].
    pose proof (existsb_false_In _ _ c Hu Hin) as Hc. simpl in Hc.
    simpl. destruct (card_rfid c); [|discriminate].
    destruct (username c); [congruence|reflexivity]. }
  assert (Hall : forall ms : list Card,
             (forall c, In c ms -> Turnstile.has_username (Some c) = false) ->
             filter (fun p : Turnstile.AccessEvent * option Card =>
                       Turnstile.has_username (snd p))
                    (map (fun b => (e, Some b)) ms) = []).
  { induction ms as [|c ms IH]; intros Hc; [reflexivity|].
    cbn [map filter snd]. rewrite (Hc c (or_introl eq_refl)). apply IH.
    intros c0 H0. apply Hc. right. exact H0. }
  revert Hm. generalize (filter (fun b => match card_rfid b with
                                          | Some k => k =? Turnstile.ev_rfid e
                                          | None => false
                                          end) cards).
  intros [|c ms] Hm; [reflexivity|]. exact (Hall (c :: ms) Hm).
Qed.

Lemma merge_left_cons {A B} (lkey : A -> Z) (rkey : B -> option Z) a l right :
  Pandas.merge_left lkey rkey (a :: l) right
  = (Pandas.merge_left lkey rkey [a] right ++ Pandas.merge_left lkey rkey l right)%list.
Proof. unfold Pandas.merge_left. simpl. rewrite app_nil_r. reflexivity. Qed.

Lemma join_roster_cons cards e evs :
  Turnstile.join_roster cards (e :: evs)
  = (Turnstile.join_roster cards [e] ++ Turnstile.join_roster cards evs)%list.
Proof. unfold Turnstile.join_roster. rewrite merge_left_cons, filter_app. reflexivity. Qed.

Lemma join_roster_unusable cards evs :
  (forall e, In e evs -> usable_card cards (Turnstile.ev_rfid e) = false) ->
  Turnstile.join_roster cards evs = [].
Proof.
  induction evs as [|e evs IH]; intros H; [reflexivity|].
  rewrite join_roster_cons, IH by (intros; apply H; right; assumption).
  rewrite app_nil_r. apply join_one_unusable. apply H. left. reflexivity.
Qed.

Lemma extract_of_dropped cards df :
  (forall line, In line df -> dropped cards line) ->
  Forall (fun p => PyTime.to_datetime (fst p) <> None
                   /\ usable_card cards (snd p) = false)
         (Turnstile.extract (Turnstile.classify df)).
Proof.
  intros H. apply Forall_forall. intros [dt rfid] Hin.
  unfold Turnstile.extract in Hin. apply in_flat_map in Hin.
  destruct Hin as (line & Hc & Hl).
  unfold Turnstile.classify in Hc. rewrite !filter_In, negb_true_iff in Hc.
  destruct Hc as ((Hdf & Hn) & Hb).
  destruct (PyStr.extract_digits (Turnstile.descr line)) as [d|] eqn:Ed; [|contradiction].
  destruct Hl as [E|[]]. injection E as <- <-.
  destruct (H line Hdf) as [C|[C|[C|(d' & Ed' & Hdt & Hu)]]]; try congruence.
  assert (d' = d) by congruence. subst d'. split; assumption.
Qed.

Lemma report_rows_of_dropped {K : Pandas.Installation} cards df :
  (forall line, In line df -> dropped cards line) ->
  exists evs, Turnstile.access_events df = Ok evs
              /\ Turnstile.report_rows cards evs = [].
Proof.
  intros H. pose proof (extract_of_dropped cards df H) as HF.
  destruct (normalize_ok (Turnstile.extract (Turnstile.classify df))) as (evs & E & Hm).
  { eapply Forall_impl; [|exact HF]. intros p Hp. apply Hp. }
  exists evs. split; [exact E|].
  assert (Hu : forall e, In e evs -> usable_card cards (Turnstile.ev_rfid e) = false).
  { intros e He. apply (in_map Turnstile.ev_rfid) in He. rewrite Hm in He.
    apply in_map_iff in He. destruct He as (p & <- & Hp).
    rewrite Forall_forall in HF. apply (HF p Hp). }
  unfold Turnstile.report_rows. rewrite join_roster_unusable.
  - apply sort_values_desc_nil.
  - intros e He. apply Hu. eapply drop_duplicates_In. exact He.
Qed.

(** C10. When the fetched text has a four-field line and every row is
    removed by the classification, the digit extraction or the roster
    join, the call does not stop early: it goes on to make the
    directory and to write the report, with no data row.  The disk
    willing, the file is there and the call returns; and whenever the
    call returns, that file has been written.  (With no four-field line
    it writes nothing.) *)
Theorem all_rows_dropped_still_writes_report {K : Pandas.Installation}
    (self : Turnstile.TurnstileManager)
    (n : Z) (cards : DataFrame) (dir : string) (w : World) (body : string) :
  event_reply self n w body ->
  Turnstile.tokenize body <> [] ->
  (forall line, In line (Turnstile.frame_of (Turnstile.tokenize body)) ->
                dropped cards line) ->
  let r := Turnstile.generate_access_report self n cards dir w in
  (dir <> "" -> mkdir w dir = DiskOk -> store w (report_path dir w) (Workbook []) = DiskOk ->
   r = (made (with_files (with_sent w (sent w ++ [event_request self n]))
                         (files w ++ [(report_path dir w, Workbook [])])) [dir],
        Ok None))
  /\ (forall v, snd r = Ok v ->
        files (fst r) = (files w ++ [(report_path dir w, Workbook [])])%list)
  /\ (dir = "" -> r = (with_sent w (sent w ++ [event_request self n]),
                       Raise FileNotFoundError)).
Proof.
  intros Hev Ht Hd r. subst r.
  rewrite (generate_access_report_spec _ _ _ _ _ _ Hev). cbv zeta.
  destruct (Turnstile.tokenize body) as [|row data] eqn:Et; [contradiction|].
  destruct (report_rows_of_dropped cards _ Hd) as (evs & E & Hr).
  rewrite E, Hr.
  destruct (String.eqb dir "") eqn:Ed.
  { apply String.eqb_eq in Ed. split; [intros C; contradiction|].
    split; [intros v C; discriminate|]. intros _. reflexivity. }
  apply String.eqb_neq in Ed.
  split; [|split; [|intros C; contradiction]].
  - intros _ Hm Hst. rewrite Hm, Hst. reflexivity.
  - intros v. destruct (mkdir w dir); [|discriminate|discriminate].
    destruct (store w _ _); [|discriminate|discriminate]. intros _. reflexivity.
Qed.

(** Four lines, one for each way out: not registered, no "by card",
    no digit, unknown card. *)
Lemma all_rows_dropped_still_writes_report_witness :
  let body := text_of [tsv ["1"; "h"; "01/02/24 10:00:00"; "Card is not registered 00456"];
                       tsv ["2"; "h"; "01/02/24 10:01:00"; "Door opened 7"];
                       tsv ["3"; "h"; "01/02/24 10:02:00"; "Entered by card"];
                       tsv ["4"; "h"; "01/02/24 10:03:00"; "Entered by card 00999"]] in
  let w := world_of (device_saying body) (Sheet roster123) in
  event_reply manager0 100 w body
  /\ List.length (Turnstile.tokenize body) = 4%nat
  /\ (forall line, In line (Turnstile.frame_of (Turnstile.tokenize body)) ->
                   dropped roster123 line)
  /\ Turnstile.generate_access_report manager0 100 roster123 "reports/" w
     = (made (with_files (with_sent w (sent w ++ [event_request manager0 100]))
                (files w ++ [("reports/access_report_20240210_093005.xlsx", Workbook [])]))
             ["reports/"],
        Ok None).
Proof.
  intros body w.
  assert (Hev : event_reply manager0 100 w body) by (exists 200; split; reflexivity).
  assert (Ht : Turnstile.tokenize body <> []) by (vm_compute; discriminate).
  assert (Hd : forall line, In line (Turnstile.frame_of (Turnstile.tokenize body)) ->
                            dropped roster123 line).
  { intros line Hin. vm_compute in Hin.
    destruct Hin as [<-|[<-|[<-|[<-|[]]]]].
    - left. reflexivity.
    - right. left. reflexivity.
    - right. right. left. reflexivity.
    - right. right. right. exists "00999".
      split; [reflexivity|]. split; [vm_compute; discriminate|reflexivity]. }
  split; [exact Hev|]. split; [reflexivity|]. split; [exact Hd|].
  refine (proj1 (all_rows_dropped_still_writes_report manager0 100 roster123 "reports/" w
                   body Hev Ht Hd) _ eq_refl eq_refl).
  discriminate.
Defined.

(** ** Facts on the pandas operations *)

Lemma insert_asc_In x l z : In z (Pandas.insert_asc x l) <-> z = x \/ In z l.
Proof.
  induction l as [|y l IH]; simpl.
  - intuition auto.
  - destruct (x <=? y); simpl; rewrite ?IH; intuition auto.
Qed.

Lemma sort_asc_In l z : In z (Pandas.sort_asc l) <-> In z l.
Proof.
  induction l as [|x l IH]; simpl; [reflexivity|].
  rewrite insert_asc_In, IH. intuition auto.
Qed.

Lemma insert_asc_sorted x l :
  StronglySorted Z.le l -> StronglySorted Z.le (Pandas.insert_asc x l).
Proof.
  induction 1 as [|y l Hl IH Hy]; simpl.
  - constructor; constructor.
  - destruct (x <=? y) eqn:E.
    + apply Z.leb_le in E. constructor; [constructor; assumption|].
      constructor; [exact E|]. eapply Forall_impl; [|exact Hy]. intros z Hz. lia.
    + apply Z.leb_gt in E. constructor; [exact IH|].
      apply Forall_forall. intros z Hz. apply insert_asc_In in Hz.
      destruct Hz as [->|Hz]; [lia|]. rewrite Forall_forall in Hy. apply Hy. exact Hz.
Qed.

Lemma sort_asc_sorted l : StronglySorted Z.le (Pandas.sort_asc l).
Proof.
  induction l as [|x l IH]; simpl; [constructor|].
  apply insert_asc_sorted. exact IH.
Qed.

Lemma group_keys_In keys k : In k (Pandas.group_keys keys) <-> In k keys.
Proof. unfold Pandas.group_keys. rewrite sort_asc_In, nodup_In. reflexivity. Qed.

Section MergeLeft.

Context {A B : Type} (lkey : A -> Z) (rkey : B -> option Z).

Lemma merge_left_In_left a o left right :
  In (a, o) (Pandas.merge_left lkey rkey left right) -> In a left.
Proof.
  unfold Pandas.merge_left. rewrite in_flat_map. intros (a' & Ha & H).
  destruct (filter _ right) as [|b ms].
  - destruct H as [E|[]]. injection E as -> _. exact Ha.
  - apply in_map_iff in H. destruct H as (b' & E & _). injection E as -> _. exact Ha.
Qed.

Lemma merge_left_In_some a b left right :
  In (a, Some b) (Pandas.merge_left lkey rkey left right)
  <-> In a left /\ In b right /\ rkey b = Some (lkey a).
Proof.
  unfold Pandas.merge_left. rewrite in_flat_map. split.
  - intros (a' & Ha & H).
    destruct (filter _ right) as [|b0 ms] eqn:Ef.
    + destruct H as [E|[]]. discriminate.
    + rewrite <- Ef in H. apply in_map_iff in H. destruct H as (b' & E & Hb).
      injection E as -> ->. apply filter_In in Hb. destruct Hb as [Hb Hk].
      repeat split; auto. destruct (rkey b) as [k|]; [|discriminate].
      apply Z.eqb_eq in Hk. congruence.
  - intros (Ha & Hb & Hk). exists a. split; [exact Ha|].
    assert (Hin : In b (filter (fun b0 => match rkey b0 with
                                          | Some k => k =? lkey a
                                          | None => false
                                          end) right)).
    { apply filter_In. split; [exact Hb|]. rewrite Hk. apply Z.eqb_refl. }
    destruct (filter _ right) as [|b0 ms]; [contradiction|].
    exact (in_map (fun b1 => (a, Some b1)) _ _ Hin).
Qed.

End MergeLeft.

(** ** The order of the report (C3) *)

Lemma roster_rfids_In cards k :
  In k (roster_rfids cards) <-> exists c, In c cards /\ card_rfid c = Some k.
Proof.
  unfold roster_rfids. rewrite in_flat_map. split.
  - intros (c & Hc & Hk). exists c. split; [exact Hc|].
    destruct (card_rfid c) as [k'|]; [|contradiction]. destruct Hk as [->|[]]. reflexivity.
  - intros (c & Hc & Hk). exists c. split; [exact Hc|]. rewrite Hk. left. reflexivity.
Qed.

Lemma unique_rfid_one_match cards k :
  NoDup (roster_rfids cards) ->
  (List.length (filter (fun b => match card_rfid b with
                                 | Some k' => (k' =? k)%Z
                                 | None => false
                                 end) cards) <= 1)%nat.
Proof.
  induction cards as [|c cards IH]; intros Hn; [simpl; lia|].
  unfold roster_rfids in Hn. cbn [flat_map] in Hn. fold (roster_rfids cards) in Hn.
  cbn [filter]. destruct (card_rfid c) as [k'|] eqn:Ek.
  - cbn [app] in Hn. inversion Hn as [|? ? Hnot Hn']; subst.
    destruct (k' =? k) eqn:E.
    + apply Z.eqb_eq in E. subst k'.
      assert (Hnone : filter (fun b => match card_rfid b with
                                       | Some k' => (k' =? k)%Z
                                       | None => false
                                       end) cards = []).
      { destruct (filter _ cards) as [|b bs] eqn:Ef; [reflexivity|]. exfalso.
        assert (Hb : In b (filter (fun b => match card_rfid b with
                                            | Some k' => (k' =? k)%Z
                                            | None => false
                                            end) cards)) by (rewrite Ef; left; reflexivity).
        apply filter_In in Hb. destruct Hb as [Hb Hk].
        destruct (card_rfid b) as [kb|] eqn:Eb; [|discriminate].
        apply Z.eqb_eq in Hk. subst kb.
        apply Hnot. apply roster_rfids_In. exists b. auto. }
      rewrite Hnone. simpl. lia.
    + apply IH. exact Hn'.
  - apply IH. exact Hn.
Qed.

Lemma merge_left_one_match {A B} (lkey : A -> Z) (rkey : B -> option Z) left right :
  (forall a, (List.length (filter (fun b => match rkey b with
                                            | Some k => (k =? lkey a)%Z
                                            | None => false
                                            end) right) <= 1)%nat) ->
  map fst (Pandas.merge_left lkey rkey left right) = left.
Proof.
  intros H. induction left as [|a left IH]; [reflexivity|].
  rewrite merge_left_cons, map_app, IH. unfold Pandas.merge_left. cbn [flat_map].
  rewrite app_nil_r. specialize (H a).
  destruct (filter _ right) as [|b [|b' ms]]; [reflexivity|reflexivity|].
  simpl in H. lia.
Qed.


Lemma filter_Permutation {A} (f : A -> bool) (l l' : list A) :
  Permutation l l' -> Permutation (filter f l) (filter f l').
Proof.
  induction 1 as [|x l l' _ IH|x y l|l l' l'' _ IH1 _ IH2]; simpl.
  - constructor.
  - destruct (f x); [apply perm_skip|]; exact IH.
  - destruct (f x), (f y); try reflexivity. apply perm_swap.
  - eapply perm_trans; eassumption.
Qed.

Lemma short_Permutation_eq {A} (l l' : list A) :
  (List.length l <= 1)%nat -> Permutation l l' -> l = l'.
Proof.
  intros Hl Hp. destruct l as [|a [|b l]]; [| |simpl in Hl; lia].
  - symmetry. apply Permutation_nil. exact Hp.
  - symmetry. apply Permutation_length_1_inv. exact Hp.
Qed.

(** With every rfid once in the roster, the rows matching a key are the
    same in whatever order the roster is. *)
Lemma matches_whatever_the_order cards cards' k :
  Permutation cards cards' -> NoDup (roster_rfids cards) ->
  filter (fun b => match card_rfid b with
                   | Some k' => (k' =? k)%Z
                   | None => false
                   end) cards
  = filter (fun b => match card_rfid b with
                     | Some k' => (k' =? k)%Z
                     | None => false
                     end) cards'.
Proof.
  intros Hp Hn. apply short_Permutation_eq.
  - apply unique_rfid_one_match. exact Hn.
  - apply filter_Permutation. exact Hp.
Qed.

Lemma merge_left_whatever_the_order {A} (lkey : A -> Z) left cards cards' :
  Permutation cards cards' -> NoDup (roster_rfids cards) ->
  Pandas.merge_left lkey card_rfid left cards = Pandas.merge_left lkey card_rfid left cards'.
Proof.
  intros Hp Hn. unfold Pandas.merge_left.
  induction left as [|a left IH]; [reflexivity|].
  cbn [flat_map]. rewrite IH, (matches_whatever_the_order cards cards' (lkey a) Hp Hn).
  reflexivity.
Qed.

(** A sort leaves a frame of one row as it is. *)
Lemma sort_values_desc_one {K : Pandas.Installation} {A} (key : A -> Z) (a : A) :
  Pandas.sort_values_desc key [a] = [a].
Proof.
  apply Permutation_length_1_inv. apply Permutation_sym.
  apply sort_values_desc_Permutation.
Qed.

(** C3 as stated fails, whatever sort is installed.  Cards 3 and 5 both
    entered on one day.  The table handed to the sort is the same
    whether the roster lists 5 before 3 or 3 before 5, so the sort
    leaves its two rows in the same order in both cases: in one of them
    the ties are not in roster order. *)
Lemma no_sort_keeps_ties_in_roster_order :
  let d := PyTime.days_from_civil 2024 2 1 in
  let evs := [{| Turnstile.ev_rfid := 5; Turnstile.ev_date := Some d |};
              {| Turnstile.ev_rfid := 3; Turnstile.ev_date := Some d |}] in
  ~ exists K : Pandas.Installation,
      ties_in_roster_order roster53 (@Turnstile.report_rows K roster53 evs)
      /\ ties_in_roster_order roster35 (@Turnstile.report_rows K roster35 evs).
Proof.
  intros d evs (K & H53 & H35).
  set (row3 := {| rr_rfid := 3; rr_days := 1; rr_card := Some (card_of 3 "cy") |}).
  set (row5 := {| rr_rfid := 5; rr_days := 1; rr_card := Some (card_of 5 "eve") |}).
  assert (E53 : @Turnstile.report_rows K roster53 evs
                = Pandas.take [row3; row5] (Pandas.order_desc [1; 1])) by reflexivity.
  assert (E35 : @Turnstile.report_rows K roster35 evs
                = Pandas.take [row3; row5] (Pandas.order_desc [1; 1])) by reflexivity.
  rewrite E53 in H53. rewrite E35 in H35. clear E53 E35.
  pose proof (Pandas.order_desc_permutes [1; 1]) as Hp. cbn [List.length seq] in Hp.
  apply Permutation_sym, Permutation_length_2_inv in Hp.
  destruct Hp as [Hp|Hp]; rewrite Hp in H53, H35; cbn in H53, H35.
  - specialize (H53 [] row3 [] row5 [] eq_refl eq_refl). vm_compute in H53. lia.
  - specialize (H35 [] row5 [] row3 [] eq_refl eq_refl). vm_compute in H35. lia.
Qed.

(** C3, amended. The report rows are in descending order of
    [UniqueEntryDays].  They are the rows of the table grouped by rfid,
    which the sort only reorders; and for a roster that lists every rfid
    once, the report, the order of its ties included, is the same in
    whatever order the roster lists its records: the ties are in the
    order the installed sort gives them, not in roster order. *)
Theorem report_sorted_descending_whatever_the_roster_order {K : Pandas.Installation}
    (cards : DataFrame) (evs : list Turnstile.AccessEvent) :
  StronglySorted (fun a b => rr_days b <= rr_days a) (Turnstile.report_rows cards evs)
  /\ Permutation (Turnstile.report_rows cards evs)
       (Turnstile.enrich cards
          (Turnstile.count_days
             (Turnstile.join_roster cards
                (Pandas.drop_duplicates Turnstile.event_eqb evs))))
  /\ forall cards',
       Permutation cards cards' -> NoDup (roster_rfids cards) ->
       Turnstile.report_rows cards' evs = Turnstile.report_rows cards evs.
Proof.
  split; [|split].
  - unfold Turnstile.report_rows. apply sort_values_desc_sorted.
  - unfold Turnstile.report_rows. apply sort_values_desc_Permutation.
  - intros cards' Hp Hn. unfold Turnstile.report_rows, Turnstile.enrich, Turnstile.join_roster.
    rewrite <- !(merge_left_whatever_the_order _ _ cards cards' Hp Hn). reflexivity.
Qed.

(** Card 9 entered on two days, cards 5 and 3 on one: card 9 comes
    first, and listing the roster in another order changes nothing. *)
Lemma report_sorted_descending_whatever_the_roster_order_witness :
  let d := PyTime.days_from_civil 2024 2 1 in
  let ev := fun k n => {| Turnstile.ev_rfid := k; Turnstile.ev_date := Some (d + n) |} in
  let evs := [ev 5 0; ev 3 0; ev 9 0; ev 9 1] in
  let cards := [card_of 5 "eve"; card_of 9 "ned"; card_of 3 "cy"] in
  let cards' := [card_of 3 "cy"; card_of 5 "eve"; card_of 9 "ned"] in
  Permutation cards cards'
  /\ NoDup (roster_rfids cards)
  /\ map rr_days (Turnstile.report_rows cards evs) = [2; 1; 1]
  /\ Turnstile.report_rows cards' evs = Turnstile.report_rows cards evs.
Proof.
  intros d ev evs cards cards'.
  assert (Hp : Permutation cards cards').
  { unfold cards, cards'.
    apply (perm_trans (l' := [card_of 5 "eve"; card_of 3 "cy"; card_of 9 "ned"])).
    - apply perm_skip. apply perm_swap.
    - apply perm_swap. }
  assert (Hn : NoDup (roster_rfids cards)).
  { vm_compute. repeat constructor; simpl; intuition discriminate. }
  split; [exact Hp|]. split; [exact Hn|]. split; [vm_compute; reflexivity|].
  exact (proj2 (proj2 (report_sorted_descending_whatever_the_roster_order cards evs))
           cards' Hp Hn).
Defined.

(** ** Counting the days (C6) *)

Lemma event_eqb_eq a b : Turnstile.event_eqb a b = true <-> a = b.
Proof.
  unfold Turnstile.event_eqb. destruct a as [ra da], b as [rb db]; simpl.
  rewrite andb_true_iff, Z.eqb_eq. split.
  - intros [-> H]. destruct da, db; try discriminate; [|reflexivity].
    apply Z.eqb_eq in H. subst. reflexivity.
  - intros E. injection E as -> ->. split; [reflexivity|].
    destruct db; [apply Z.eqb_refl|reflexivity].
Qed.

Section DropDuplicates.

Context {A : Type} (eqb : A -> A -> bool).
Hypothesis eqb_eq : forall a b, eqb a b = true <-> a = b.

Lemma drop_duplicates_In_iff l x : In x (Pandas.drop_duplicates eqb l) <-> In x l.
Proof.
  split; [apply drop_duplicates_In|].
  induction l as [|a l IH]; simpl; [tauto|].
  intros [E|H]; [left; exact E|].
  destruct (eqb a x) eqn:E.
  - left. apply eqb_eq. exact E.
  - right. apply filter_In. split; [apply IH; exact H|]. rewrite E. reflexivity.
Qed.

Lemma filter_twice (f : A -> bool) l : filter f (filter f l) = filter f l.
Proof.
  induction l as [|a l IH]; simpl; [reflexivity|].
  destruct (f a) eqn:E; simpl; rewrite ?E, IH; reflexivity.
Qed.

Lemma filter_swap (f g : A -> bool) l : filter f (filter g l) = filter g (filter f l).
Proof.
  induction l as [|a l IH]; simpl; [reflexivity|].
  destruct (f a) eqn:Ef, (g a) eqn:Eg; simpl; rewrite ?Ef, ?Eg, IH; reflexivity.
Qed.

Lemma drop_duplicates_NoDup l : NoDup (Pandas.drop_duplicates eqb l).
Proof.
  induction l as [|a l IH]; simpl; constructor.
  - rewrite filter_In, (proj2 (eqb_eq a a) eq_refl). intros [_ H]. discriminate.
  - apply NoDup_filter. exact IH.
Qed.

(** Behind the head [a], a further [a] changes nothing. *)
Lemma drop_duplicates_behind_head a l1 l2 :
  filter (fun b => negb (eqb a b)) (Pandas.drop_duplicates eqb (l1 ++ a :: l2))
  = filter (fun b => negb (eqb a b)) (Pandas.drop_duplicates eqb (l1 ++ l2)).
Proof.
  induction l1 as [|b l1 IH]; simpl.
  - rewrite (proj2 (eqb_eq a a) eq_refl). simpl. apply filter_twice.
  - destruct (negb (eqb a b)); [f_equal|];
      rewrite (filter_swap _ (fun b0 => negb (eqb b b0))), IH, filter_swap; reflexivity.
Qed.

(** A row equal to an earlier one is dropped. *)
Lemma drop_duplicates_copy l1 e l2 :
  In e l1 ->
  Pandas.drop_duplicates eqb (l1 ++ e :: l2) = Pandas.drop_duplicates eqb (l1 ++ l2).
Proof.
  induction l1 as [|a l1 IH]; intros Hin; [contradiction|].
  simpl. f_equal. destruct Hin as [->|Hin].
  - apply drop_duplicates_behind_head.
  - rewrite IH by exact Hin. reflexivity.
Qed.

End DropDuplicates.

Lemma same_elements_nodup_length (l1 l2 : list Z) :
  (forall x, In x l1 <-> In x l2) ->
  List.length (nodup Z.eq_dec l1) = List.length (nodup Z.eq_dec l2).
Proof.
  intros H. apply Nat.le_antisymm; apply NoDup_incl_length;
    try apply NoDup_nodup; intros x Hx; apply nodup_In; apply nodup_In in Hx;
    apply H; exact Hx.
Qed.

Lemma dates_of_In k evs d :
  In d (dates_of k evs)
  <-> In {| Turnstile.ev_rfid := k; Turnstile.ev_date := Some d |} evs.
Proof.
  unfold dates_of. rewrite in_flat_map. split.
  - intros ([r o] & He & H). simpl in H.
    destruct (r =? k) eqn:E; [|contradiction]. apply Z.eqb_eq in E. subst r.
    destruct o as [d'|]; [|contradiction]. destruct H as [->|[]]. exact He.
  - intros H. eexists. split; [exact H|]. simpl. rewrite Z.eqb_refl. left. reflexivity.
Qed.

Lemma join_roster_In cards evs e o :
  In (e, o) (Turnstile.join_roster cards evs)
  <-> exists c, o = Some c /\ In e evs /\ In c cards
                /\ card_rfid c = Some (Turnstile.ev_rfid e) /\ username c <> None.
Proof.
  unfold Turnstile.join_roster. rewrite filter_In. split.
  - intros [Hin Hu]. destruct o as [c|]; [|discriminate].
    apply merge_left_In_some in Hin. destruct Hin as (He & Hc & Hk).
    exists c. repeat split; auto. simpl in Hu. destruct (username c); [discriminate|discriminate].
  - intros (c & -> & He & Hc & Hk & Hu). split.
    + apply merge_left_In_some. auto.
    + simpl. destruct (username c); [reflexivity|contradiction].
Qed.

Lemma joined_dates_In cards evs k d :
  In k (map (fun p => Turnstile.ev_rfid (fst p)) (Turnstile.join_roster cards evs)) ->
  In d (flat_map (fun o : option Z => match o with Some d => [d] | None => [] end)
          (map (fun p => Turnstile.ev_date (fst p))
               (filter (fun p => Turnstile.ev_rfid (fst p) =? k)
                       (Turnstile.join_roster cards evs))))
  <-> In {| Turnstile.ev_rfid := k; Turnstile.ev_date := Some d |} evs.
Proof.
  intros Hk. apply in_map_iff in Hk. destruct Hk as ([e0 o0] & Hr & H0). simpl in Hr.
  apply join_roster_In in H0. destruct H0 as (c0 & _ & _ & Hc0 & Hk0 & Hu0).
  rewrite Hr in Hk0. rewrite in_flat_map. split.
  - intros (o & Ho & Hd). destruct o as [d'|]; [|contradiction].
    destruct Hd as [->|[]]. apply in_map_iff in Ho.
    destruct Ho as ([[r od] c] & Hdate & Hp). simpl in Hdate. subst od.
    apply filter_In in Hp. destruct Hp as [Hp Hrk]. simpl in Hrk.
    apply Z.eqb_eq in Hrk. subst r. apply join_roster_In in Hp.
    destruct Hp as (_ & _ & He & _). exact He.
  - intros He. exists (Some d). split; [|left; reflexivity].
    apply in_map_iff.
    exists ({| Turnstile.ev_rfid := k; Turnstile.ev_date := Some d |}, Some c0).
    split; [reflexivity|]. apply filter_In. split; [|apply Z.eqb_refl].
    apply join_roster_In. exists c0. auto.
Qed.

Lemma count_days_In cards evs k n :
  In (k, n) (Turnstile.count_days (Turnstile.join_roster cards evs)) ->
  n = distinct_days k evs.
Proof.
  unfold Turnstile.count_days. rewrite in_map_iff. intros (k' & E & Hk).
  injection E as -> <-. rewrite group_keys_In in Hk.
  unfold Pandas.nunique, distinct_days. f_equal. apply same_elements_nodup_length.
  intros d. rewrite (joined_dates_In cards evs k d Hk), dates_of_In. reflexivity.
Qed.

Lemma distinct_days_drop_duplicates k evs :
  distinct_days k (Pandas.drop_duplicates Turnstile.event_eqb evs) = distinct_days k evs.
Proof.
  unfold distinct_days. f_equal. apply same_elements_nodup_length.
  intros d. rewrite !dates_of_In. apply (drop_duplicates_In_iff _ event_eqb_eq).
Qed.

Lemma report_rows_days {K : Pandas.Installation} cards evs row :
  In row (Turnstile.report_rows cards evs) ->
  rr_days row = distinct_days (rr_rfid row) evs.
Proof.
  unfold Turnstile.report_rows. rewrite sort_values_desc_In.
  unfold Turnstile.enrich. rewrite in_map_iff. intros ([[k n] o] & <- & Hp). simpl.
  apply merge_left_In_left in Hp. apply count_days_In in Hp.
  rewrite Hp. apply distinct_days_drop_duplicates.
Qed.

Lemma usable_card_In cards k :
  usable_card cards k = true ->
  exists c, In c cards /\ card_rfid c = Some k /\ username c <> None.
Proof.
  unfold usable_card. rewrite existsb_exists. intros (c & Hc & H).
  exists c. split; [exact Hc|].
  destruct (card_rfid c) as [k'|]; [|discriminate].
  destruct (username c); [|discriminate].
  apply Z.eqb_eq in H. subst. split; [reflexivity|discriminate].
Qed.

(** An rfid with an event and a usable roster row has a report row. *)
Lemma report_rows_has_row {K : Pandas.Installation} cards evs e :
  In e evs -> usable_card cards (Turnstile.ev_rfid e) = true ->
  exists row, In row (Turnstile.report_rows cards evs)
              /\ rr_rfid row = Turnstile.ev_rfid e.
Proof.
  intros He Hu. destruct (usable_card_In _ _ Hu) as (c & Hc & Hk & Hn).
  set (J := Turnstile.join_roster cards (Pandas.drop_duplicates Turnstile.event_eqb evs)).
  assert (HJ : In (e, Some c) J).
  { apply join_roster_In. exists c. repeat split; auto.
    apply (drop_duplicates_In_iff _ event_eqb_eq). exact He. }
  assert (Hkey : In (Turnstile.ev_rfid e)
                    (Pandas.group_keys (map (fun p => Turnstile.ev_rfid (fst p)) J))).
  { apply group_keys_In. apply in_map_iff. exists (e, Some c). split; [reflexivity|exact HJ]. }
  set (n := Pandas.nunique
              (map (fun p => Turnstile.ev_date (fst p))
                   (filter (fun p => Turnstile.ev_rfid (fst p) =? Turnstile.ev_rfid e) J))).
  exists {| rr_rfid := Turnstile.ev_rfid e; rr_days := n; rr_card := Some c |}.
  split; [|reflexivity].
  unfold Turnstile.report_rows. fold J. apply sort_values_desc_In.
  unfold Turnstile.enrich. apply in_map_iff.
  exists ((Turnstile.ev_rfid e, n), Some c). split; [reflexivity|].
  apply merge_left_In_some. split; [|split; [exact Hc|exact Hk]].
  unfold Turnstile.count_days. apply in_map_iff.
  exists (Turnstile.ev_rfid e). split; [reflexivity|exact Hkey].
Qed.

(** C6. Every report row carries, as [UniqueEntryDays], the number of
    distinct calendar days among the events of its rfid, and every rfid
    with an event and a named roster row has such a row.  Before the
    aggregation equal (rfid, date) rows are collapsed, each kept once,
    so an event equal to an earlier one changes nothing in the report.
    In the example
    rfid 123 enters on three days, twice more on days already seen, and
    its count is 3. *)
Theorem unique_entry_days_counts_distinct_dates {K : Pandas.Installation} :
  (forall cards evs row,
     In row (Turnstile.report_rows cards evs) ->
     rr_days row = distinct_days (rr_rfid row) evs)
  /\ (forall cards evs e,
        In e evs -> usable_card cards (Turnstile.ev_rfid e) = true ->
        exists row, In row (Turnstile.report_rows cards evs)
                    /\ rr_rfid row = Turnstile.ev_rfid e)
  /\ (forall evs,
        NoDup (Pandas.drop_duplicates Turnstile.event_eqb evs)
        /\ forall e, In e (Pandas.drop_duplicates Turnstile.event_eqb evs) <-> In e evs)
  /\ (forall cards l1 e l2,
        In e l1 ->
        Turnstile.report_rows cards (l1 ++ e :: l2) = Turnstile.report_rows cards (l1 ++ l2))
  /\ (let body := text_of [tsv ["1"; "h"; "01/02/24 10:00:00"; "Entered by card 00123"];
                           tsv ["2"; "h"; "01/02/24 18:30:00"; "Entered by card 00123"];
                           tsv ["3"; "h"; "02/02/24 09:00:00"; "Entered by card 00123"];
                           tsv ["4"; "h"; "02/02/24 09:00:00"; "Entered by card 00123"];
                           tsv ["5"; "h"; "03/02/24 09:00:00"; "Entered by card 00123"]] in
      match Turnstile.access_events (Turnstile.frame_of (Turnstile.tokenize body)) with
      | Ok evs =>
          List.length evs = 5%nat
          /\ Turnstile.report_rows roster123 evs
             = [{| rr_rfid := 123; rr_days := 3; rr_card := Some (card_of 123 "ann") |}]
      | Raise _ => False
      end).
Proof.
  split; [exact report_rows_days|]. split; [exact report_rows_has_row|].
  split; [|split].
  - intros evs. split; [apply (drop_duplicates_NoDup _ event_eqb_eq)|].
    intros e. apply (drop_duplicates_In_iff _ event_eqb_eq).
  - intros cards l1 e l2 Hin. unfold Turnstile.report_rows.
    rewrite (drop_duplicates_copy _ event_eqb_eq l1 e l2 Hin). reflexivity.
  - intros body.
    destruct (Turnstile.access_events (Turnstile.frame_of (Turnstile.tokenize body)))
      as [evs|e] eqn:E; vm_compute in E; [|discriminate].
    injection E as <-. split; [reflexivity|].
    unfold Turnstile.report_rows.
    match goal with
    | |- Pandas.sort_values_desc _ ?F = _ =>
        let F' := eval vm_compute in F in change F with F'
    end.
    apply sort_values_desc_one.
Qed.

Lemma unique_entry_days_counts_distinct_dates_witness :
  let d := PyTime.days_from_civil 2024 2 1 in
  let ev := fun n => {| Turnstile.ev_rfid := 123; Turnstile.ev_date := Some (d + n) |} in
  let row := {| rr_rfid := 123; rr_days := 3; rr_card := Some (card_of 123 "ann") |} in
  In row (Turnstile.report_rows roster123 [ev 0; ev 0; ev 1; ev 1; ev 2])
  /\ rr_days row = distinct_days 123 [ev 0; ev 0; ev 1; ev 1; ev 2]
  /\ In (ev 0) [ev 0]
  /\ Turnstile.report_rows roster123 ([ev 0] ++ ev 0 :: [ev 1; ev 1; ev 2])
     = Turnstile.report_rows roster123 ([ev 0] ++ [ev 1; ev 1; ev 2]).
Proof.
  intros d ev row.
  assert (Hin : In row (Turnstile.report_rows roster123 [ev 0; ev 0; ev 1; ev 1; ev 2]))
    by (vm_compute; left; reflexivity).
  assert (H0 : In (ev 0) [ev 0]) by (left; reflexivity).
  split; [exact Hin|]. split.
  - exact (proj1 unique_entry_days_counts_distinct_dates roster123 _ row Hin).
  - split; [exact H0|].
    exact (proj1 (proj2 (proj2 (proj2 unique_entry_days_counts_distinct_dates)))
             roster123 [ev 0] (ev 0) [ev 1; ev 1; ev 2] H0).
Defined.

(** * Further properties of the code *)

(** ** Runs only add requests, directories and files *)

Lemma grow_nil w : grow w [] [] = w.
Proof. unfold grow. rewrite !app_nil_r. destruct w; reflexivity. Qed.

Lemma made_nil w : made w [] = w.
Proof. unfold made. rewrite app_nil_r. apply with_dirs_same. Qed.

Lemma grow_sent w s f : sent (grow w s f) = (sent w ++ s)%list.
Proof. reflexivity. Qed.

Lemma grow_files w s f : files (grow w s f) = (files w ++ f)%list.
Proof. reflexivity. Qed.

Lemma made_dirs w s f d : dirs (made (grow w s f) d) = (dirs w ++ d)%list.
Proof. reflexivity. Qed.

Lemma made_again w s d f s' d' f' :
  made (grow (made (grow w s f) d) s' f') d'
  = made (grow w (s ++ s') (f ++ f')) (d ++ d').
Proof.
  unfold made, grow, with_dirs, with_files, with_sent. simpl.
  rewrite !app_assoc. reflexivity.
Qed.

Lemma made_inj w s d f s' d' f' :
  made (grow w s f) d = made (grow w s' f') d' -> s = s' /\ d = d' /\ f = f'.
Proof.
  intros H. split; [|split].
  - apply (f_equal sent) in H. cbn [made with_dirs sent] in H.
    rewrite !grow_sent in H. eapply app_inv_head. exact H.
  - apply (f_equal dirs) in H. rewrite !made_dirs in H. eapply app_inv_head. exact H.
  - apply (f_equal files) in H. cbn [made with_dirs files] in H.
    rewrite !grow_files in H. eapply app_inv_head. exact H.
Qed.

Ltac same_world :=
  unfold made, grow, with_dirs, with_files, with_sent;
  cbn [ping device sent clock sheets mkdir store dirs files];
  rewrite ?app_nil_r; reflexivity.

Lemma with_sent_made w r : with_sent w (sent w ++ [r]) = made (grow w [r] []) [].
Proof. destruct w. same_world. Qed.

Lemma runs_ret {A} (a : A) w :
  runs (ret a) w (fun s d f r => s = [] /\ d = [] /\ f = [] /\ r = Ok a).
Proof. exists [], [], [], (Ok a). rewrite grow_nil, made_nil. repeat split. Qed.

Lemma runs_weaken {A} (m : M A) w (Q Q' : _ -> _ -> _ -> _ -> Prop) :
  runs m w Q -> (forall s d f r, Q s d f r -> Q' s d f r) -> runs m w Q'.
Proof. intros (s & d & f & r & E & H) HQ. exists s, d, f, r. auto. Qed.

(** Sequencing: what [m] added, then what [k] added. *)
Lemma runs_bind {A B} (m : M A) (k : A -> M B) w
    (Q : list Request -> list string -> list (string * file) -> result A -> Prop)
    (Q' : list Request -> list string -> list (string * file) -> result B -> Prop) :
  runs m w Q ->
  (forall s d f e, Q s d f (Raise e) -> Q' s d f (Raise e)) ->
  (forall s d f a, Q s d f (Ok a) ->
     runs (k a) (made (grow w s f) d)
          (fun s' d' f' r => Q' (s ++ s')%list (d ++ d')%list (f ++ f')%list r)) ->
  runs (bind m k) w Q'.
Proof.
  intros (s & d & f & r & E & H) Hraise Hok. unfold runs, bind. rewrite E.
  destruct r as [a|e].
  - destruct (Hok s d f a H) as (s' & d' & f' & r' & E' & H'). rewrite E', made_again.
    exists (s ++ s')%list, (d ++ d')%list, (f ++ f')%list, r'. auto.
  - exists s, d, f, (Raise e). auto.
Qed.

(** ** What each method of the manager sends, makes and writes *)

Lemma make_request_runs self endpoint params w :
  let r := {| url := Turnstile.base_url self ++ endpoint;
              credentials := Turnstile.auth self; req := params |} in
  runs (Turnstile._make_request self endpoint params) w
       (fun s d f res =>
          s = [r] /\ d = [] /\ f = []
          /\ ((accepts (device w) (sent w) r = false /\ res = Raise RequestException)
              \/ exists code body,
                   device w (sent w) r = Status code body
                   /\ accepts (device w) (sent w) r = true
                   /\ res = Ok {| Turnstile.status_code := code; Turnstile.text := body |})).
Proof.
  intros r. unfold runs, Turnstile._make_request, accepts. fold r.
  rewrite with_sent_made.
  destruct (device w (sent w) r) as [code body|].
  - destruct ((400 <=? code) && (code <? 600)) eqn:E.
    + eexists _, _, _, _. split; [reflexivity|]. repeat split. left. auto.
    + eexists _, _, _, _. split; [reflexivity|]. repeat split. right.
      exists code, body. auto.
  - eexists _, _, _, _. split; [reflexivity|]. repeat split. left. auto.
Qed.

Lemma download_backup_runs self folder w :
  runs (Turnstile.download_backup self folder) w (backup_post self folder w).
Proof.
  unfold runs, backup_post, accepts, Turnstile.download_backup, Turnstile._make_request,
    bind, now, ret, makedirs, write_file, backup_path.
  fold (backup_request self).
  destruct (device w (sent w) (backup_request self)) as [code body|].
  2:{ exists [backup_request self], [], [], (Raise RequestException).
      split; [same_world|]. split; [reflexivity|]. left. auto. }
  destruct ((400 <=? code) && (code <? 600)) eqn:Ec.
  { exists [backup_request self], [], [], (Raise RequestException).
    split; [same_world|]. split; [reflexivity|]. left. auto. }
  cbn [sent with_sent with_dirs mkdir dirs store files clock Turnstile.text negb].
  destruct (String.eqb_spec folder "") as [Hf|Hf].
  { exists [backup_request self], [], [], (Raise FileNotFoundError).
    split; [same_world|]. split; [reflexivity|]. right. exists code, body.
    split; [reflexivity|]. split; [reflexivity|]. left. auto. }
  destruct (mkdir w folder) eqn:Em.
  2,3: eexists [backup_request self], [], [], _;
       (split; [same_world|]); (split; [reflexivity|]); right; exists code, body;
       (split; [reflexivity|]); (split; [reflexivity|]); right; left;
       repeat split; try assumption; discriminate.
  cbn [sent with_sent with_dirs mkdir dirs store files clock].
  destruct (store w _ (Binary body)) eqn:Es.
  - eexists [backup_request self], [folder], [_], _.
    split; [same_world|]. split; [reflexivity|]. right. exists code, body.
    split; [reflexivity|]. split; [reflexivity|]. right. right.
    split; [assumption|]. split; [reflexivity|]. split; [reflexivity|].
    right. rewrite Es. auto.
  - eexists [backup_request self], [folder], [], _.
    split; [same_world|]. split; [reflexivity|]. right. exists code, body.
    split; [reflexivity|]. split; [reflexivity|]. right. right.
    split; [assumption|]. split; [reflexivity|]. split; [reflexivity|].
    left. rewrite Es. repeat split. discriminate.
  - eexists [backup_request self], [folder], [], _.
    split; [same_world|]. split; [reflexivity|]. right. exists code, body.
    split; [reflexivity|]. split; [reflexivity|]. right. right.
    split; [assumption|]. split; [reflexivity|]. split; [reflexivity|].
    left. rewrite Es. repeat split. discriminate.
Qed.

(** The first row the device refuses, if there is one. *)
Lemma first_refusal self dev l : forall hist,
  all_accepted dev hist (map (card_edit_request self) l) = false ->
  exists l1 row l2,
    l = (l1 ++ row :: l2)%list
    /\ all_accepted dev hist (map (card_edit_request self) l1) = true
    /\ accepts dev (hist ++ map (card_edit_request self) l1)
               (card_edit_request self row) = false.
Proof.
  induction l as [|a l IH]; intros hist H; [discriminate|].
  cbn [map all_accepted] in H.
  destruct (accepts dev hist (card_edit_request self a)) eqn:Ea.
  - cbn [andb] in H. destruct (IH _ H) as (l1 & row & l2 & -> & H1 & H2).
    exists (a :: l1), row, l2. split; [reflexivity|]. split.
    + cbn [map all_accepted]. rewrite Ea, H1. reflexivity.
    + cbn [map]. rewrite <- app_assoc in H2. exact H2.
  - exists [], a, l. split; [reflexivity|]. split; [reflexivity|].
    cbn [map]. rewrite app_nil_r. exact Ea.
Qed.

(** [update_turnstile_cards], whatever the device: all rows accepted, or
    stopped at the first one refused. *)
Lemma update_turnstile_cards_outcome self l w :
  (all_accepted (device w) (sent w) (map (card_edit_request self) l) = true
   /\ Turnstile.update_turnstile_cards self l w
      = (grow w (map (card_edit_request self) l) [], Ok tt))
  \/ exists l1 row l2,
       l = (l1 ++ row :: l2)%list
       /\ all_accepted (device w) (sent w) (map (card_edit_request self) l1) = true
       /\ accepts (device w) (sent w ++ map (card_edit_request self) l1)
                  (card_edit_request self row) = false
       /\ Turnstile.update_turnstile_cards self l w
          = (grow w (map (card_edit_request self) (l1 ++ [row])) [],
             Raise RequestException).
Proof.
  destruct (all_accepted (device w) (sent w) (map (card_edit_request self) l)) eqn:E.
  - left. split; [reflexivity|]. rewrite (update_all_accepted self l w E).
    f_equal. destruct w. same_world.
  - right. destruct (first_refusal self _ l _ E) as (l1 & row & l2 & -> & H1 & H2).
    exists l1, row, l2. split; [reflexivity|]. split; [exact H1|]. split; [exact H2|].
    rewrite (update_stops_at_refusal self l1 w row l2 H1 H2).
    f_equal. rewrite map_app. cbn [map]. destruct w. same_world.
Qed.

Lemma firstn_past {A} (l1 : list A) x l2 :
  firstn (S (List.length l1)) (l1 ++ x :: l2) = (l1 ++ [x])%list.
Proof. induction l1 as [|a l1 IH]; [reflexivity|]. cbn. f_equal. exact IH. Qed.

Lemma update_turnstile_cards_runs self l w :
  runs (Turnstile.update_turnstile_cards self l) w
       (fun s d f res =>
          d = [] /\ f = []
          /\ exists n, s = map (card_edit_request self) (firstn n l)
                       /\ ((n = List.length l /\ res = Ok tt)
                           \/ ((0 < n <= List.length l)%nat
                               /\ res = Raise RequestException))).
Proof.
  destruct (update_turnstile_cards_outcome self l w)
    as [[_ E]|(l1 & row & l2 & -> & _ & _ & E)].
  - exists (map (card_edit_request self) l), [], [], (Ok tt). rewrite made_nil.
    split; [exact E|]. repeat split. exists (List.length l). rewrite firstn_all. auto.
  - exists (map (card_edit_request self) (l1 ++ [row])), [], [], (Raise RequestException).
    rewrite made_nil. split; [exact E|]. repeat split.
    exists (S (List.length l1)). rewrite firstn_past. split; [reflexivity|]. right.
    split; [|reflexivity]. rewrite length_app. simpl. lia.
Qed.

Lemma normalize_only_value_error df e :
  Turnstile.normalize df = Raise e -> e = ValueError.
Proof.
  induction df as [|[dt rfid] df IH]; simpl; [discriminate|].
  destruct (PyTime.to_datetime dt); [|intros H; injection H as <-; reflexivity].
  destruct (Turnstile.normalize df); [discriminate|].
  intros H. injection H as <-. apply IH. reflexivity.
Qed.

Lemma accepts_event_reply self n w :
  accepts (device w) (sent w) (event_request self n) = true ->
  exists body, event_reply self n w body.
Proof.
  unfold accepts, event_reply. destruct (device w (sent w) _) as [code body|]; [|discriminate].
  intros H. apply negb_true_iff in H. exists body, code. auto.
Qed.

Lemma generate_access_report_runs {K : Pandas.Installation} self n cards dir w :
  runs (Turnstile.generate_access_report self n cards dir) w
       (fun s d f res =>
          s = [event_request self n]
          /\ ((accepts (device w) (sent w) (event_request self n) = false
               /\ d = [] /\ f = [] /\ res = Raise RequestException)
              \/ exists body,
                   event_reply self n w body
                   /\ ((Turnstile.tokenize body = [] /\ d = [] /\ f = [] /\ res = Ok None)
                       \/ (Turnstile.tokenize body <> []
                           /\ Turnstile.access_events
                                (Turnstile.frame_of (Turnstile.tokenize body))
                              = Raise ValueError
                           /\ d = [] /\ f = [] /\ res = Raise ValueError)
                       \/ (Turnstile.tokenize body <> []
                           /\ exists evs,
                                Turnstile.access_events
                                  (Turnstile.frame_of (Turnstile.tokenize body)) = Ok evs
                                /\ report_disk dir w (Turnstile.report_rows cards evs)
                                     d f res)))).
Proof.
  destruct (accepts (device w) (sent w) (event_request self n)) eqn:Ha.
  2:{ exists [event_request self n], [], [], (Raise RequestException). split.
      - unfold Turnstile.generate_access_report.
        apply bind_raise. rewrite <- with_sent_made.
        apply (make_request_refused self w "/cgi/event_get"
                 (Some (Turnstile.event_get_req n))). exact Ha.
      - split; [reflexivity|]. left. auto. }
  destruct (accepts_event_reply _ _ _ Ha) as [body Hev].
  unfold runs. rewrite (generate_access_report_spec _ _ _ _ _ _ Hev). cbv zeta.
  destruct (Turnstile.tokenize body) as [|row data] eqn:Et.
  { exists [event_request self n], [], [], (Ok None). split; [same_world|].
    split; [reflexivity|]. right. exists body. split; [exact Hev|]. left. auto. }
  destruct (Turnstile.access_events _) as [evs|e] eqn:Ee.
  2:{ assert (e = ValueError) by (eapply normalize_only_value_error; exact Ee). subst e.
      exists [event_request self n], [], [], (Raise ValueError). split; [same_world|].
      split; [reflexivity|]. right. exists body. split; [exact Hev|].
      right. left. rewrite Et. split; [discriminate|]. auto. }
  assert (Hdisk : forall d f res,
            report_disk dir w (Turnstile.report_rows cards evs) d f res ->
            [event_request self n] = [event_request self n]
            /\ ((true = false /\ d = [] /\ f = [] /\ res = Raise RequestException)
                \/ exists body0,
                     event_reply self n w body0
                     /\ ((Turnstile.tokenize body0 = [] /\ d = [] /\ f = [] /\ res = Ok None)
                         \/ (Turnstile.tokenize body0 <> []
                             /\ Turnstile.access_events
                                  (Turnstile.frame_of (Turnstile.tokenize body0))
                                = Raise ValueError
                             /\ d = [] /\ f = [] /\ res = Raise ValueError)
                         \/ (Turnstile.tokenize body0 <> []
                             /\ exists evs0,
                                  Turnstile.access_events
                                    (Turnstile.frame_of (Turnstile.tokenize body0)) = Ok evs0
                                  /\ report_disk dir w (Turnstile.report_rows cards evs0)
                                       d f res)))).
  { intros d f res H. split; [reflexivity|]. right. exists body. split; [exact Hev|].
    right. right. rewrite Et. split; [discriminate|]. exists evs. auto. }
  destruct (String.eqb_spec dir "") as [Hd|Hd].
  { exists [event_request self n], [], [], (Raise FileNotFoundError).
    split; [same_world|]. apply Hdisk. unfold report_disk. left. auto. }
  destruct (mkdir w dir) eqn:Em.
  2:{ exists [event_request self n], [], [], (Raise FileNotFoundError).
      split; [same_world|]. apply Hdisk. unfold report_disk. right. left. rewrite Em.
      repeat split; try assumption; discriminate. }
  2:{ exists [event_request self n], [], [], (Raise OSError).
      split; [same_world|]. apply Hdisk. unfold report_disk. right. left. rewrite Em.
      repeat split; try assumption; discriminate. }
  destruct (store w (report_path dir w) _) eqn:Es.
  - exists [event_request self n], [dir],
      [(report_path dir w, Workbook (Turnstile.report_rows cards evs))], (Ok None).
    split; [same_world|].
    apply Hdisk. unfold report_disk. right. right. rewrite Es.
    split; [assumption|]. split; [assumption|]. split; [reflexivity|]. right. auto.
  - exists [event_request self n], [dir], [], (Raise ExcelError).
    split; [same_world|].
    apply Hdisk. unfold report_disk. right. right. rewrite Es.
    split; [assumption|]. split; [assumption|]. split; [reflexivity|].
    left. repeat split. discriminate.
  - exists [event_request self n], [dir], [], (Raise ExcelError).
    split; [same_world|].
    apply Hdisk. unfold report_disk. right. right. rewrite Es.
    split; [assumption|]. split; [assumption|]. split; [reflexivity|].
    left. repeat split. discriminate.
Qed.

(** ** The run of [main] *)

Lemma disk_exn_cases r : disk_exn r = FileNotFoundError \/ disk_exn r = OSError.
Proof. destruct r; auto. Qed.

Lemma update_phase_runs {K : Pandas.Installation} self act (skip_clear : bool) folder w :
  runs (bind (Turnstile.download_backup self folder)
          (fun _ => bind (if skip_clear then ret tt
                          else Turnstile.call0 self "clear_all_cards")
                      (fun _ => Turnstile.update_turnstile_cards self act))) w
       (update_phase self act skip_clear folder (backup_path folder w)).
Proof.
  refine (runs_bind _ _ w _ _ (download_backup_runs self folder w) _ _).
  - intros s d f e (-> & H). left. split; [reflexivity|].
    destruct H as [(_ & -> & -> & He)|(code & body & _ & _ & H)].
    { injection He as ->. auto. }
    destruct H as [(_ & -> & -> & He)|[(_ & _ & -> & -> & He)|(_ & _ & -> & H)]].
    + injection He as ->. auto.
    + injection He as ->. destruct (disk_exn_cases (mkdir w folder)) as [->| ->]; auto.
    + destruct H as [(_ & -> & He)|(_ & _ & He)]; [|discriminate].
      injection He as ->.
      destruct (disk_exn_cases (store w (backup_path folder w) (Binary body)))
        as [->| ->]; auto.
  - intros s d f p (-> & H).
    destruct H as [(_ & _ & _ & He)|(code & body & _ & _ & H)]; [discriminate|].
    destruct H as [(_ & _ & _ & He)|[(_ & _ & _ & _ & He)|(_ & _ & -> & H)]];
      try discriminate.
    destruct H as [(_ & _ & He)|(_ & -> & _)]; [discriminate|].
    destruct skip_clear.
    + refine (runs_bind _ _ _ _ _ (runs_ret tt _) _ _).
      * intros s d f e (_ & _ & _ & He). discriminate.
      * intros s d f [] (-> & -> & -> & _). rewrite grow_nil, made_nil.
        eapply runs_weaken; [apply update_turnstile_cards_runs|].
        intros s d f r (-> & -> & n & -> & Hn). cbn [app]. right. exists body.
        split; [reflexivity|]. split; [reflexivity|]. right.
        split; [reflexivity|]. exists n. auto.
    + exists [], [], [], (Raise AttributeError). split.
      * rewrite grow_nil, made_nil. apply bind_raise. apply call0_clear_all_cards.
      * right. exists body. split; [reflexivity|]. split; [reflexivity|]. left. auto.
Qed.

Lemma report_phase_runs {K : Pandas.Installation} self n cards dir w :
  runs (bind (Turnstile.generate_access_report self n cards dir) (fun _ => ret tt)) w
       (report_phase self n dir (report_path dir w)).
Proof.
  refine (runs_bind _ _ w _ _ (generate_access_report_runs self n cards dir w) _ _).
  - intros s d f e (-> & H). split; [reflexivity|].
    destruct H as [(_ & -> & -> & He)|(body & _ & H)].
    { injection He as ->. left. auto. }
    destruct H as [(_ & _ & _ & He)|[(_ & _ & -> & -> & He)|(_ & evs & _ & H)]];
      [discriminate| |].
    { injection He as ->. left. auto. }
    destruct H as [(_ & -> & -> & He)|[(_ & _ & -> & -> & He)|(_ & _ & -> & H)]].
    + injection He as ->. left. auto 7.
    + injection He as ->. left.
      destruct (disk_exn_cases (mkdir w dir)) as [->| ->]; auto 7.
    + destruct H as [(_ & -> & He)|(_ & _ & He)]; [|discriminate].
      injection He as ->. right. left. auto.
  - intros s d f v (-> & H). eapply runs_weaken; [apply runs_ret|].
    intros s' d' f' r' (-> & -> & -> & ->). rewrite !app_nil_r. split; [reflexivity|].
    destruct H as [(_ & _ & _ & He)|(body & _ & H)]; [discriminate|].
    destruct H as [(_ & -> & -> & _)|[(_ & _ & _ & _ & He)|(_ & evs & _ & H)]];
      [left; auto 7|discriminate|].
    destruct H as [(_ & _ & _ & He)|[(_ & _ & _ & _ & He)|(_ & _ & -> & H)]];
      try discriminate.
    destruct H as [(_ & _ & He)|(_ & -> & _)]; [discriminate|].
    right. right. eexists. auto.
Qed.

Lemma operations_runs {K : Pandas.Installation} cfg args w :
  runs (Main.operations cfg args) w (operations_post cfg args w).
Proof.
  unfold Main.operations, operations_post.
  set (self := Turnstile.init _ _ _).
  assert (Hping : (exists ms, ping w (Main.host args) = Delay ms
                              /\ Turnstile.check_ping self w = (w, Ok true))
                  \/ Turnstile.check_ping self w = (w, Ok false)).
  { unfold Turnstile.check_ping. cbn [Turnstile.host self Turnstile.init].
    destruct (ping w (Main.host args)) as [ms| | |]; eauto. }
  destruct Hping as [(ms & Hms & Hp)|Hp].
  2:{ exists [], [], [], (Raise (SystemExit 1)). rewrite grow_nil, made_nil. split.
      - rewrite (bind_ok _ _ _ _ _ Hp). reflexivity.
      - left. auto. }
  pose proof (load_and_filter_cards_spec (Main.file args) w) as Hl.
  destruct (sheets w (Main.file args)) as [rows| |] eqn:Hs.
  2,3: eexists [], [], [], _; rewrite grow_nil, made_nil; split;
       [rewrite (bind_ok _ _ _ _ _ Hp); cbn [negb];
        rewrite (bind_ok _ _ w w tt) by reflexivity;
        apply bind_raise; exact Hl
       |left; repeat split; auto].
  cbv zeta in Hl.
  set (full := DataHandler.stringify_active (DataHandler.typed rows)) in *.
  set (act := DataHandler.select_active (DataHandler.today_of (clock w)) full) in *.
  assert (Hgoal :
    runs (bind (if negb (Main.skip_update args)
                then bind (Turnstile.download_backup self (Main.BACKUP_DIR cfg))
                       (fun _ => bind (if Main.skip_clear_all_cards args then ret tt
                                       else Turnstile.call0 self "clear_all_cards")
                                   (fun _ => Turnstile.update_turnstile_cards self act))
                else ret tt)
            (fun _ => if negb (Main.skip_report args)
                      then bind (Turnstile.generate_access_report self
                                   (Main.records_to_fetch args) full
                                   (Main.REPORT_DIR cfg)) (fun _ => ret tt)
                      else ret tt)) w
         (operations_post cfg args w)).
  { unfold operations_post. fold self.
    assert (HU : runs (if negb (Main.skip_update args)
                       then bind (Turnstile.download_backup self (Main.BACKUP_DIR cfg))
                              (fun _ => bind (if Main.skip_clear_all_cards args then ret tt
                                              else Turnstile.call0 self "clear_all_cards")
                                          (fun _ => Turnstile.update_turnstile_cards self act))
                       else ret tt) w
                  (fun sU dU fU rU =>
                     (Main.skip_update args = true
                      /\ sU = [] /\ dU = [] /\ fU = [] /\ rU = Ok tt)
                     \/ (Main.skip_update args = false
                         /\ update_phase self act (Main.skip_clear_all_cards args)
                              (Main.BACKUP_DIR cfg)
                              (backup_path (Main.BACKUP_DIR cfg) w) sU dU fU rU))).
    { destruct (Main.skip_update args); cbn [negb].
      - eapply runs_weaken; [apply runs_ret|].
        intros s d f r (-> & -> & -> & ->). left. auto.
      - eapply runs_weaken; [apply update_phase_runs|]. intros s d f r H. right. auto. }
    refine (runs_bind _ _ w _ _ HU _ _).
    - intros sU dU fU e HUe. right. exists full, act. split; [exact Hl|].
      split; [eauto|]. exists sU, dU, fU, (Raise e). split; [exact HUe|]. left.
      exists e. auto.
    - intros sU dU fU [] HUok.
      destruct (Main.skip_report args) eqn:Hr; cbn [negb].
      + eapply runs_weaken; [apply runs_ret|]. intros s d f r (-> & -> & -> & ->).
        rewrite !app_nil_r. right. exists full, act. split; [exact Hl|].
        split; [eauto|]. exists sU, dU, fU, (Ok tt). split; [exact HUok|]. right.
        split; [reflexivity|]. left. repeat split.
      + eapply runs_weaken; [apply report_phase_runs|]. intros sR dR fR r HR.
        right. exists full, act. split; [exact Hl|]. split; [eauto|].
        exists sU, dU, fU, (Ok tt). split; [exact HUok|]. right. split; [reflexivity|].
        right. split; [reflexivity|]. exists sR, dR, fR. split; [|auto].
        unfold report_path in *. exact HR. }
  destruct Hgoal as (s & d & f & r & E & H). exists s, d, f, r. split; [|exact H].
  rewrite (bind_ok _ _ _ _ _ Hp). cbn [negb].
  rewrite (bind_ok _ _ w w tt) by reflexivity.
  rewrite (bind_ok _ _ _ _ _ Hl). cbn [fst snd]. exact E.
Qed.

Lemma main_runs {K : Pandas.Installation} cfg args w :
  exists s d f r,
    Main.operations cfg args w = (made (grow w s f) d, r)
    /\ operations_post cfg args w s d f r
    /\ Main.main cfg args w
       = (made (grow w s f) d, match r with Ok _ => 0 | Raise e => exit_status e end).
Proof.
  destruct (operations_runs cfg args w) as (s & d & f & r & E & H).
  exists s, d, f, r. split; [exact E|]. split; [exact H|].
  unfold Main.main. rewrite E. destruct r as [[]|[]]; reflexivity.
Qed.

Lemma update_phase_result self act skip_clear folder bpath s d f r :
  update_phase self act skip_clear folder bpath s d f r ->
  r = Ok tt \/ exists e, r = Raise e /\ exit_status e = 1.
Proof.
  intros [(_ & _ & _ & [ -> | [ -> | -> ] ])
         |(body & _ & _ & [(_ & _ & ->)|(_ & n & _ & [[_ ->]|[_ ->]])])];
    auto; right; eexists; split; reflexivity.
Qed.

Lemma report_phase_result self n dir rpath s d f r :
  report_phase self n dir rpath s d f r ->
  r = Ok tt \/ exists e, r = Raise e /\ exit_status e = 1.
Proof.
  intros (_ & [(_ & _ & [ -> | [ -> | [ -> | [ -> | -> ] ] ] ])
              |[(_ & _ & ->)|(rows & _ & _ & ->)]]);
    auto; right; eexists; split; reflexivity.
Qed.

Lemma operations_post_result {K : Pandas.Installation} cfg args w s d f r :
  operations_post cfg args w s d f r ->
  r = Ok tt \/ exists e, r = Raise e /\ exit_status e = 1.
Proof.
  intros [(_ & _ & _ & [ -> | [ -> | -> ] ])
         |(full & act & _ & _ & sU & dU & fU & rU & HU & H)];
    try (right; eexists; split; reflexivity).
  assert (HrU : rU = Ok tt \/ exists e, rU = Raise e /\ exit_status e = 1).
  { destruct HU as [(_ & _ & _ & _ & ->)|[_ HU]]; [auto|].
    eapply update_phase_result. exact HU. }
  destruct H as [(e & -> & _ & _ & _ & ->)
                |(_ & [(_ & _ & _ & _ & ->)|(_ & sR & dR & fR & HR & _)])].
  - exact HrU.
  - auto.
  - eapply report_phase_result. exact HR.
Qed.


Lemma firstn_In {A} (x : A) n l : In x (firstn n l) -> In x l.
Proof.
  intros H. rewrite <- (firstn_skipn n l). apply in_or_app. left. exact H.
Qed.

(** Every request [main] sends is the backup download, the event
    download, or a [card_edit] for a row of the active view that
    [load_and_filter_cards] returns: the text of its [Active] value
    reads true, its rfid is present and its expiration is today or
    later; the parameter is ["1+1+"] and that row's rfid as Python prints
    it, an integer or a float as the column is.  A [card_edit] is sent
    only when the update is not skipped, the clearing is, and the backup
    file has been written. *)
Theorem main_sends_only_active_cards_after_backup {K : Pandas.Installation}
    (cfg : Main.Config) (args : Main.Args) (w : World) :
  let self := Turnstile.init (Main.host args) (Main.USERNAME cfg) (Main.PASSWORD cfg) in
  exists s d f code,
    Main.main cfg args w = (made (grow w s f) d, code)
    /\ forall r, In r s ->
         r = backup_request self
         \/ r = event_request self (Main.records_to_fetch args)
         \/ exists full act row k t body fs,
              DataHandler.load_and_filter_cards (Main.file args) w = (w, Ok (full, act))
              /\ In row act
              /\ r = card_edit_request self row
              /\ card_rfid row = Some k
              /\ req r = Some ("1+1+" ++ (if rfid_float row then PyStr.str_float k
                                          else PyStr.str_int k))
              /\ reads_true (active row)
              /\ expiration row = Some t /\ PyTime.date (clock w) <= t / 86400
              /\ Main.skip_update args = false
              /\ Main.skip_clear_all_cards args = true
              /\ f = (backup_path (Main.BACKUP_DIR cfg) w, Binary body) :: fs.
Proof.
  intros self.
  destruct (main_runs cfg args w) as (s & d & f & r & _ & H & E).
  exists s, d, f, (match r with Ok _ => 0 | Raise e => exit_status e end).
  split; [exact E|]. intros q Hq.
  destruct H as [(-> & _)|(full & act & Hl & _ & sU & dU & fU & rU & HU & H)];
    [contradiction|].
  fold self in HU, H.
  assert (HsU : forall q, In q sU ->
            q = backup_request self
            \/ exists row k t body,
                 In row act
                 /\ q = card_edit_request self row
                 /\ card_rfid row = Some k
                 /\ req q = Some ("1+1+" ++ (if rfid_float row then PyStr.str_float k
                                             else PyStr.str_int k))
                 /\ reads_true (active row)
                 /\ expiration row = Some t /\ PyTime.date (clock w) <= t / 86400
                 /\ Main.skip_update args = false
                 /\ Main.skip_clear_all_cards args = true
                 /\ fU = [(backup_path (Main.BACKUP_DIR cfg) w, Binary body)]).
  { intros q0 H0.
    destruct HU as [(_ & -> & _)|[Hsk HU]]; [contradiction|].
    destruct HU as [(-> & _)|(body & -> & _ & [(_ & -> & _)|(Hc & n & -> & _)])].
    - destruct H0 as [<-|[]]. auto.
    - destruct H0 as [<-|[]]. auto.
    - destruct H0 as [<-|H0]; [auto|]. right.
      apply in_map_iff in H0. destruct H0 as (row & <- & Hrow).
      apply firstn_In in Hrow.
      pose proof Hrow as Hin.
      destruct (load_and_filter_cards_ok _ _ _ _ _ Hl) as (rows & _ & _ & _ & Hact).
      rewrite Hact in Hrow. unfold DataHandler.select_active in Hrow.
      apply filter_In in Hrow. destruct Hrow as [_ Hrow].
      apply is_active_iff in Hrow.
      destruct Hrow as (Ha & Hr & (t & Ht & Hle)).
      destruct (card_rfid row) as [k|] eqn:Ek; [|contradiction].
      exists row, k, t, body. repeat split; auto.
      unfold card_edit_request, Turnstile.str_rfid. cbn [req]. rewrite Ek. reflexivity. }
  assert (Hlift : forall q0 fs, In q0 sU -> f = (fU ++ fs)%list ->
            q0 = backup_request self
            \/ q0 = event_request self (Main.records_to_fetch args)
            \/ exists full act row k t body fs,
                 DataHandler.load_and_filter_cards (Main.file args) w = (w, Ok (full, act))
                 /\ In row act
                 /\ q0 = card_edit_request self row
                 /\ card_rfid row = Some k
                 /\ req q0 = Some ("1+1+" ++ (if rfid_float row then PyStr.str_float k
                                              else PyStr.str_int k))
                 /\ reads_true (active row)
                 /\ expiration row = Some t /\ PyTime.date (clock w) <= t / 86400
                 /\ Main.skip_update args = false
                 /\ Main.skip_clear_all_cards args = true
                 /\ f = (backup_path (Main.BACKUP_DIR cfg) w, Binary body) :: fs).
  { intros q0 fs H0 Hf. destruct (HsU q0 H0) as [->|(row & k & t & body & Hrow)]; [auto|].
    right. right. exists full, act, row, k, t, body, fs.
    destruct Hrow as (? & ? & ? & ? & ? & ? & ? & ? & ? & HfU).
    rewrite Hf, HfU. repeat split; auto. }
  destruct H as [(e & _ & -> & _ & -> & _)
                |(_ & [(_ & -> & _ & -> & _)|(_ & sR & dR & fR & HR & -> & _ & ->)])].
  - apply (Hlift q []); [exact Hq|]. rewrite app_nil_r. reflexivity.
  - apply (Hlift q []); [exact Hq|]. rewrite app_nil_r. reflexivity.
  - apply in_app_or in Hq. destruct Hq as [Hq|Hq].
    + apply (Hlift q fR); [exact Hq|reflexivity].
    + destruct HR as (-> & _). destruct Hq as [<-|[]]. auto.
Qed.

(** Exit status 0 means the whole job was done: the host answered the
    ping, the roster was read, and the requests sent are, in this
    order, the backup and one [card_edit] for every row of the active
    view (unless the update is skipped) and the event download (unless
    the report is skipped).  And a run that does not skip the update can
    only end with status 0 if it skips the clearing, and it has then
    made the backup directory and written the backup. *)
Theorem main_exit_0_means_complete {K : Pandas.Installation} (cfg : Main.Config)
    (args : Main.Args) (w : World) (s : list Request) (d : list string)
    (f : list (string * file)) :
  Main.main cfg args w = (made (grow w s f) d, 0) ->
  let self := Turnstile.init (Main.host args) (Main.USERNAME cfg) (Main.PASSWORD cfg) in
  exists rows full act,
    sheets w (Main.file args) = Sheet rows
    /\ DataHandler.load_and_filter_cards (Main.file args) w = (w, Ok (full, act))
    /\ (exists ms, ping w (Main.host args) = Delay ms)
    /\ s = ((if Main.skip_update args then []
             else backup_request self :: map (card_edit_request self) act)
            ++ (if Main.skip_report args then []
                else [event_request self (Main.records_to_fetch args)]))%list
    /\ (Main.skip_update args = false ->
        Main.skip_clear_all_cards args = true
        /\ exists body ds fs,
             d = Main.BACKUP_DIR cfg :: ds
             /\ f = (backup_path (Main.BACKUP_DIR cfg) w, Binary body) :: fs).
Proof.
  intros Hmain self.
  destruct (main_runs cfg args w) as (s' & d' & f' & r & _ & H & E).
  rewrite E in Hmain.
  pose proof (f_equal fst Hmain) as Hg. pose proof (f_equal snd Hmain) as Hcode.
  cbn [fst snd] in Hg, Hcode. clear Hmain.
  apply made_inj in Hg. destruct Hg as (-> & -> & ->).
  assert (Hr : r = Ok tt).
  { destruct (operations_post_result _ _ _ _ _ _ _ H) as [->|(e & -> & He)]; [reflexivity|].
    rewrite He in Hcode. discriminate. }
  subst r.
  destruct H as [(_ & _ & _ & [C|[C|C]])|(full & act & Hl & Hp & sU & dU & fU & rU & HU & H)];
    try discriminate.
  fold self in HU, H.
  destruct (load_and_filter_cards_ok _ _ _ _ _ Hl) as (rows & Hs & _).
  exists rows, full, act. split; [exact Hs|]. split; [exact Hl|]. split; [exact Hp|].
  assert (HrU : rU = Ok tt).
  { destruct H as [(e & _ & _ & _ & _ & C)|(-> & _)]; [discriminate|reflexivity]. }
  subst rU.
  assert (HsU : sU = (if Main.skip_update args then []
                      else backup_request self :: map (card_edit_request self) act)
                /\ (Main.skip_update args = false ->
                    Main.skip_clear_all_cards args = true
                    /\ exists body,
                         dU = [Main.BACKUP_DIR cfg]
                         /\ fU = [(backup_path (Main.BACKUP_DIR cfg) w, Binary body)])).
  { destruct HU as [(-> & -> & _)|[-> HU]]; [split; [reflexivity|discriminate]|].
    destruct HU as [(_ & _ & _ & [C|[C|C]])
                   |(body & -> & -> & [(_ & _ & C)|(Hc & n & -> & Hn)])];
      try discriminate.
    destruct Hn as [[-> _]|[_ C]]; [|discriminate].
    rewrite firstn_all. split; [reflexivity|]. intros _. split; [exact Hc|].
    exists body. auto. }
  destruct HsU as [HsU Hflag].
  destruct H as [(e & C & _)
                |(_ & [(-> & -> & -> & -> & _)|(-> & sR & dR & fR & HR & -> & -> & ->)])];
    [discriminate| |].
  - rewrite app_nil_r. split; [exact HsU|].
    intros Hu. destruct (Hflag Hu) as (Hc & body & -> & ->). split; [exact Hc|].
    exists body, [], []. auto.
  - destruct HR as (-> & _). rewrite HsU. split; [reflexivity|].
    intros Hu. destruct (Hflag Hu) as (Hc & body & -> & ->). split; [exact Hc|].
    exists body, dR, fR. auto.
Qed.

Lemma main_exit_0_means_complete_witness :
  let w := world_of device_ok (Sheet roster4) in
  let row := as_read roster4 (nth 0 roster4 (card_of 0 "")) in
  let s := [backup_request manager0; card_edit_request manager0 row;
            event_request manager0 10000] in
  let f := [("backups/turnstile_backup_20240210_093005.bin", Binary "OK")] in
  Main.main cfg0 args_skip_clear w = (made (grow w s f) ["backups/"], 0)
  /\ exists rows full act,
       sheets w "cards.xlsx" = Sheet rows
       /\ DataHandler.load_and_filter_cards "cards.xlsx" w = (w, Ok (full, act))
       /\ s = (backup_request manager0 :: map (card_edit_request manager0) act
               ++ [event_request manager0 10000])%list.
Proof.
  intros w row s f.
  assert (E : Main.main cfg0 args_skip_clear w = (made (grow w s f) ["backups/"], 0))
    by (vm_compute; reflexivity).
  split; [exact E|].
  destruct (main_exit_0_means_complete cfg0 args_skip_clear w s ["backups/"] f E)
    as (rows & full & act & Hs & Hl & _ & Hseq & _).
  exists rows, full, act. split; [exact Hs|]. split; [exact Hl|exact Hseq].
Defined.

(** When the host does not answer the ping, or the roster cannot be
    read, [main] ends with status 1 and has touched nothing: no request
    was sent and no file written. *)
Theorem main_stops_before_touching_the_device {K : Pandas.Installation}
    (cfg : Main.Config) (args : Main.Args) (w : World) :
  (forall ms, ping w (Main.host args) <> Delay ms)
  \/ (forall df, sheets w (Main.file args) <> Sheet df) ->
  Main.main cfg args w = (w, 1).
Proof.
  intros Hbad.
  destruct (main_runs cfg args w) as (s & d & f & r & _ & H & E).
  rewrite E.
  destruct H as [(-> & -> & -> & Hr)|(full & act & Hl & (ms & Hp) & _)].
  - rewrite grow_nil, made_nil. destruct Hr as [ -> | [ -> | -> ] ]; reflexivity.
  - destruct Hbad as [Hbad|Hbad]; [destruct (Hbad ms Hp)|].
    destruct (load_and_filter_cards_ok _ _ _ _ _ Hl) as (rows & Hs & _).
    destruct (Hbad rows Hs).
Qed.

Lemma main_stops_before_touching_the_device_witness :
  (forall ms, ping world_unreachable (Main.host args0) <> Delay ms)
  /\ Main.main cfg0 args0 world_unreachable = (world_unreachable, 1).
Proof.
  assert (H : forall ms, ping world_unreachable (Main.host args0) <> Delay ms)
    by (intros ms; discriminate).
  split; [exact H|].
  exact (main_stops_before_touching_the_device cfg0 args0 world_unreachable (or_introl H)).
Defined.

(** When the backup download is refused, [main] stops there with
    status 1: the backup request is the only one sent, no card is
    edited, and no file is written. *)
Theorem refused_backup_blocks_the_update {K : Pandas.Installation} (cfg : Main.Config)
    (args : Main.Args) (w : World) (ms : Z) (df0 : DataFrame) :
  let self := Turnstile.init (Main.host args) (Main.USERNAME cfg) (Main.PASSWORD cfg) in
  Main.skip_update args = false ->
  ping w (Main.host args) = Delay ms ->
  sheets w (Main.file args) = Sheet df0 ->
  accepts (device w) (sent w) (backup_request self) = false ->
  Main.main cfg args w = (grow w [backup_request self] [], 1).
Proof.
  intros self Hu Hp Hs Ha.
  assert (E : Main.operations cfg args w
              = (grow w [backup_request self] [], Raise RequestException)).
  { unfold Main.operations. fold self. rewrite Hu. cbn [negb].
    assert (Hping : Turnstile.check_ping self w = (w, Ok true)).
    { unfold Turnstile.check_ping. cbn [Turnstile.host self Turnstile.init].
      rewrite Hp. reflexivity. }
    rewrite (bind_ok _ _ _ _ _ Hping). cbn [negb].
    rewrite (bind_ok _ _ w w tt) by reflexivity.
    pose proof (load_and_filter_cards_spec (Main.file args) w) as Hl.
    rewrite Hs in Hl. rewrite (bind_ok _ _ _ _ _ Hl).
    apply bind_raise. apply bind_raise.
    unfold Turnstile.download_backup. apply bind_raise.
    replace (grow w [backup_request self] [])
      with (with_sent w (sent w ++ [backup_request self]))
      by (rewrite with_sent_made; apply made_nil).
    exact (make_request_refused self w "/cgi/card_get_list" None Ha). }
  rewrite (main_exit_status _ _ _ _ _ E). reflexivity.
Qed.

Lemma refused_backup_blocks_the_update_witness :
  let dev := fun (_ : list Request) (_ : Request) => Status 503 "busy" in
  let w := world_of dev (Sheet roster4) in
  Main.skip_update args0 = false
  /\ ping w (Main.host args0) = Delay 3
  /\ sheets w (Main.file args0) = Sheet roster4
  /\ accepts (device w) (sent w) (backup_request manager0) = false
  /\ Main.main cfg0 args0 w = (grow w [backup_request manager0] [], 1).
Proof.
  intros dev w.
  split; [reflexivity|]. split; [reflexivity|]. split; [reflexivity|].
  split; [reflexivity|].
  exact (refused_backup_blocks_the_update cfg0 args0 w 3 roster4
           eq_refl eq_refl eq_refl eq_refl).
Defined.

(** With [--skip-update] and [--skip-report] nothing is sent and
    nothing is written; the status is 0 exactly when the host answers
    the ping and the roster can be read. *)
Theorem main_skipping_both_phases_is_a_dry_run {K : Pandas.Installation}
    (cfg : Main.Config) (args : Main.Args) (w : World) :
  Main.skip_update args = true ->
  Main.skip_report args = true ->
  exists code,
    Main.main cfg args w = (w, code)
    /\ (code = 0 <-> (exists ms, ping w (Main.host args) = Delay ms)
                     /\ exists df, sheets w (Main.file args) = Sheet df).
Proof.
  intros Hu Hr.
  destruct (main_runs cfg args w) as (s & d & f & r & _ & H & E). rewrite E.
  destruct H as [(-> & -> & -> & Hres)|(full & act & Hl & Hp & sU & dU & fU & rU & HU & H)].
  - (* stopped early: the ping or the roster failed *)
    rewrite grow_nil, made_nil. eexists. split; [reflexivity|].
    assert (Hex : exists e, r = Raise e /\ exit_status e = 1)
      by (destruct Hres as [ -> | [ -> | -> ] ]; eexists; split; reflexivity).
    destruct Hex as (e & -> & He). rewrite He. split; [discriminate|].
    intros [(ms & Hp) (df & Hs)]. exfalso.
    assert (Hop : Main.operations cfg args w = (w, Ok tt)).
    { unfold Main.operations. rewrite Hu, Hr. cbn [negb].
      assert (Hping : Turnstile.check_ping
                        (Turnstile.init (Main.host args) (Main.USERNAME cfg)
                           (Main.PASSWORD cfg)) w = (w, Ok true)).
      { unfold Turnstile.check_ping. cbn [Turnstile.host Turnstile.init].
        rewrite Hp. reflexivity. }
      rewrite (bind_ok _ _ _ _ _ Hping). cbn [negb].
      rewrite (bind_ok _ _ w w tt) by reflexivity.
      pose proof (load_and_filter_cards_spec (Main.file args) w) as Hl.
      rewrite Hs in Hl. rewrite (bind_ok _ _ _ _ _ Hl).
      rewrite (bind_ok _ _ w w tt) by reflexivity. reflexivity. }
    unfold Main.main in E. rewrite Hop in E.
    pose proof (f_equal snd E) as Ec. cbn [snd] in Ec. rewrite He in Ec. discriminate.
  - rewrite Hu in HU. destruct HU as [(_ & -> & -> & -> & ->)|[C _]]; [|discriminate].
    rewrite Hr in H.
    destruct H as [(e & C & _)|(_ & [(_ & -> & -> & -> & ->)|(C & _)])]; try discriminate.
    rewrite grow_nil, made_nil. exists 0. split; [reflexivity|].
    split; [|reflexivity]. intros _. split; [exact Hp|].
    destruct (load_and_filter_cards_ok _ _ _ _ _ Hl) as (rows & Hs & _). eauto.
Qed.

Lemma main_skipping_both_phases_is_a_dry_run_witness :
  let args := {| Main.host := "10.0.0.7"; Main.file := "cards.xlsx";
                 Main.records_to_fetch := 10000; Main.skip_update := true;
                 Main.skip_report := true; Main.skip_clear_all_cards := false;
                 Main.verbose := false |} in
  let w := world_of device_ok (Sheet roster4) in
  Main.skip_update args = true
  /\ Main.skip_report args = true
  /\ exists code, Main.main cfg0 args w = (w, code)
                  /\ (code = 0 <-> (exists ms, ping w (Main.host args) = Delay ms)
                                   /\ exists df, sheets w (Main.file args) = Sheet df).
Proof.
  intros args w. split; [reflexivity|]. split; [reflexivity|].
  exact (main_skipping_both_phases_is_a_dry_run cfg0 args w eq_refl eq_refl).
Defined.

(** ** The methods of the manager, whatever the device and the disk do *)

(** [download_backup] sends exactly one request, the card-list download
    without parameters.  A refused request (network failure, or a status
    400-599) raises the request error, and nothing is made or written.
    Otherwise line 64 makes the directory: the empty path and a path the
    disk has not raise [FileNotFoundError], another failure [OSError],
    and nothing is written.  With the directory made, the reply is
    written as it came to [folder/turnstile_backup_<timestamp>.bin],
    whose path is returned; when the write fails its error is raised
    again (lines 73-75) and no file is listed. *)
Theorem download_backup_stores_the_reply (self : Turnstile.TurnstileManager)
    (folder : string) (w : World) :
  exists d f res,
    Turnstile.download_backup self folder w
    = (made (grow w [backup_request self] f) d, res)
    /\ req (backup_request self) = None
    /\ match device w (sent w) (backup_request self) with
       | Status code body =>
           if (400 <=? code) && (code <? 600)
           then d = [] /\ f = [] /\ res = Raise RequestException
           else
             let path := path_join folder
                           ("turnstile_backup_" ++ PyTime.strftime (clock w) ++ ".bin") in
             if String.eqb folder "" then d = [] /\ f = [] /\ res = Raise FileNotFoundError
             else match mkdir w folder with
                  | DiskOk =>
                      d = [folder]
                      /\ match store w path (Binary body) with
                         | DiskOk => f = [(path, Binary body)] /\ res = Ok path
                         | NoSuchPath => f = [] /\ res = Raise FileNotFoundError
                         | DiskError => f = [] /\ res = Raise OSError
                         end
                  | NoSuchPath => d = [] /\ f = [] /\ res = Raise FileNotFoundError
                  | DiskError => d = [] /\ f = [] /\ res = Raise OSError
                  end
       | NetworkFailure => d = [] /\ f = [] /\ res = Raise RequestException
       end.
Proof.
  unfold Turnstile.download_backup, Turnstile._make_request, bind, now, ret,
    makedirs, write_file.
  fold (backup_request self). cbv zeta.
  destruct (device w (sent w) (backup_request self)) as [code body|].
  2:{ exists [], [], (Raise RequestException). split; [same_world|]. auto. }
  destruct ((400 <=? code) && (code <? 600)).
  { exists [], [], (Raise RequestException). split; [same_world|]. auto. }
  cbn [sent with_sent with_dirs mkdir dirs store files clock Turnstile.text].
  destruct (String.eqb folder "").
  { exists [], [], (Raise FileNotFoundError). split; [same_world|]. auto. }
  destruct (mkdir w folder).
  2:{ exists [], [], (Raise FileNotFoundError). split; [same_world|]. auto. }
  2:{ exists [], [], (Raise OSError). split; [same_world|]. auto. }
  cbn [sent with_sent with_dirs mkdir dirs store files clock].
  destruct (store w _ (Binary body)).
  - eexists [folder], [_], _. split; [same_world|]. auto.
  - exists [folder], [], (Raise FileNotFoundError). split; [same_world|]. auto.
  - exists [folder], [], (Raise OSError). split; [same_world|]. auto.
Qed.

(** [update_turnstile_cards], whatever the device answers.  It makes no
    directory and writes no file.  Either the device accepts the
    [card_edit] request of every row: then it has received exactly
    these, one per row, in roster order, and the call returns.  Or there
    is a first row whose request it refuses: then it has received the
    requests of the rows before that one and the refused request,
    nothing of the rows behind, and the call raises the request error.
    An empty roster sends nothing. *)
Theorem update_turnstile_cards_never_skips_a_row (self : Turnstile.TurnstileManager)
    (l : DataFrame) (w : World) :
  ((all_accepted (device w) (sent w) (map (card_edit_request self) l) = true
    /\ Turnstile.update_turnstile_cards self l w
       = (grow w (map (card_edit_request self) l) [], Ok tt))
   \/ exists l1 row l2,
        l = (l1 ++ row :: l2)%list
        /\ all_accepted (device w) (sent w) (map (card_edit_request self) l1) = true
        /\ accepts (device w) (sent w ++ map (card_edit_request self) l1)
                   (card_edit_request self row) = false
        /\ Turnstile.update_turnstile_cards self l w
           = (grow w (map (card_edit_request self) (l1 ++ [row])) [],
              Raise RequestException))
  /\ (l = [] -> Turnstile.update_turnstile_cards self l w = (w, Ok tt)).
Proof.
  split; [apply update_turnstile_cards_outcome|]. intros ->. reflexivity.
Qed.


(** ** The roster views as days pass *)

Lemma is_active_earlier t1 t2 r :
  t1 <= t2 -> DataHandler.is_active t2 r = true -> DataHandler.is_active t1 r = true.
Proof.
  unfold DataHandler.is_active. intros Ht. rewrite !andb_true_iff.
  intros [[Ha Hr] He]. repeat split; auto.
  destruct (expiration r) as [t|]; [|discriminate].
  apply Z.leb_le in He. apply Z.leb_le. lia.
Qed.

Lemma filter_of_filter_implied {A} (f g : A -> bool) l :
  (forall x, g x = true -> f x = true) -> filter g (filter f l) = filter g l.
Proof.
  intros H. induction l as [|a l IH]; simpl; [reflexivity|].
  destruct (f a) eqn:Ef; simpl.
  - rewrite IH. reflexivity.
  - destruct (g a) eqn:Eg; [|exact IH]. rewrite (H a Eg) in Ef. discriminate.
Qed.

(** The active view only shrinks as days pass: a card that is not
    active at the date of [n1] is active on no later day; filtering
    yesterday's active view today gives today's active view; filtering
    twice on the same day changes nothing. *)
Theorem active_view_shrinks_as_days_pass (n1 n2 : PyTime.datetime) (df : DataFrame) :
  PyTime.date n1 <= PyTime.date n2 ->
  (forall r, In r (DataHandler.select_active (DataHandler.today_of n2) df) ->
             In r (DataHandler.select_active (DataHandler.today_of n1) df))
  /\ DataHandler.select_active (DataHandler.today_of n2)
       (DataHandler.select_active (DataHandler.today_of n1) df)
     = DataHandler.select_active (DataHandler.today_of n2) df
  /\ DataHandler.select_active (DataHandler.today_of n1)
       (DataHandler.select_active (DataHandler.today_of n1) df)
     = DataHandler.select_active (DataHandler.today_of n1) df.
Proof.
  intros Hd.
  assert (Ht : DataHandler.today_of n1 <= DataHandler.today_of n2)
    by (unfold DataHandler.today_of; lia).
  unfold DataHandler.select_active. split; [|split].
  - intros r Hr. apply filter_In in Hr. destruct Hr as [Hin Ha].
    apply filter_In. split; [exact Hin|]. exact (is_active_earlier _ _ r Ht Ha).
  - apply filter_of_filter_implied. intros r. apply is_active_earlier. exact Ht.
  - apply filter_of_filter_implied. auto.
Qed.

Lemma active_view_shrinks_as_days_pass_witness :
  let n2 := {| PyTime.year := 2024; PyTime.month := 2; PyTime.day := 11;
               PyTime.hour := 0; PyTime.minute := 0; PyTime.second := 0 |} in
  let full := DataHandler.stringify_active (DataHandler.typed roster4) in
  PyTime.date clock0 <= PyTime.date n2
  /\ List.length (DataHandler.select_active (DataHandler.today_of clock0) full) = 1%nat
  /\ DataHandler.select_active (DataHandler.today_of n2) full = []
  /\ DataHandler.select_active (DataHandler.today_of n2)
       (DataHandler.select_active (DataHandler.today_of clock0) full)
     = DataHandler.select_active (DataHandler.today_of n2) full.
Proof.
  intros n2 full.
  assert (H : PyTime.date clock0 <= PyTime.date n2) by (vm_compute; discriminate).
  split; [exact H|]. split; [reflexivity|]. split; [reflexivity|].
  exact (proj1 (proj2 (active_view_shrinks_as_days_pass clock0 n2 full H))).
Defined.

(** ** From log lines to access events *)

Lemma extract_classify_survivors df :
  Turnstile.extract (Turnstile.classify df)
  = flat_map (fun line => match PyStr.extract_digits (Turnstile.descr line) with
                          | Some d => [(Turnstile.datetime line, PyStr.to_numeric d)]
                          | None => []
                          end) (filter survives df).
Proof.
  unfold Turnstile.extract, Turnstile.classify.
  induction df as [|line df IH]; [reflexivity|].
  cbn [filter]. unfold survives at 1.
  destruct (PyStr.contains "Card is not registered" (Turnstile.descr line)); cbn [negb andb].
  - exact IH.
  - cbn [filter]. destruct (PyStr.contains "by card" (Turnstile.descr line)); cbn [andb].
    + cbn [flat_map]. destruct (PyStr.extract_digits (Turnstile.descr line)) eqn:Ed.
      * cbn [flat_map]. rewrite Ed, IH. reflexivity.
      * cbn [app]. exact IH.
    + exact IH.
Qed.

Lemma normalize_survivors lines : forall evs,
  Forall (fun line => survives line = true) lines ->
  Turnstile.normalize
    (flat_map (fun line => match PyStr.extract_digits (Turnstile.descr line) with
                           | Some d => [(Turnstile.datetime line, PyStr.to_numeric d)]
                           | None => []
                           end) lines) = Ok evs ->
  Forall2 event_of_line lines evs.
Proof.
  induction lines as [|line lines IH]; intros evs Hs H.
  - simpl in H. injection H as <-. constructor.
  - inversion Hs as [|? ? Hline Hrest]; subst.
    unfold survives in Hline. rewrite !andb_true_iff in Hline.
    destruct Hline as [_ Hd].
    destruct (PyStr.extract_digits (Turnstile.descr line)) as [d|] eqn:Ed; [|discriminate].
    cbn [flat_map app] in H. rewrite Ed in H. cbn [app Turnstile.normalize] in H.
    destruct (PyTime.to_datetime (Turnstile.datetime line)) as [t|] eqn:Et; [|discriminate].
    destruct (Turnstile.normalize _) as [evs'|] eqn:En; [|discriminate].
    injection H as <-. constructor.
    + exists d, t. auto.
    + apply IH; [exact Hrest|reflexivity].
Qed.

Lemma filter_all_true {A} (f : A -> bool) l : Forall (fun x => f x = true) (filter f l).
Proof. apply Forall_forall. intros x Hx. apply filter_In in Hx. apply Hx. Qed.

(** When the events can be built, there is exactly one per line that
    passes the filters, in the order of the log: its rfid is the number
    of the first run of digits of the description and its date the day
    of the datetime cell.  Lines that do not pass give nothing. *)
Theorem access_events_one_per_surviving_line (df : list Turnstile.EventLine)
    (evs : list Turnstile.AccessEvent) :
  Turnstile.access_events df = Ok evs ->
  Forall2 event_of_line (filter survives df) evs
  /\ List.length evs = List.length (filter survives df)
  /\ (List.length evs <= List.length df)%nat.
Proof.
  unfold Turnstile.access_events. rewrite extract_classify_survivors. intros H.
  assert (F : Forall2 event_of_line (filter survives df) evs)
    by (eapply normalize_survivors; [apply filter_all_true|exact H]).
  split; [exact F|].
  assert (L : List.length evs = List.length (filter survives df))
    by (symmetry; eapply Forall2_length; exact F).
  split; [exact L|]. rewrite L. apply filter_length_le.
Qed.

Lemma access_events_one_per_surviving_line_witness :
  let line := fun d s => {| Turnstile.request_number := "1"; Turnstile.hash := "h";
                            Turnstile.datetime := d; Turnstile.descr := s |} in
  let df := [line "01/02/24 10:00:00" "Entered by card 00123";
             line "garbage" "Door forced 7";
             line "02/02/24 10:00:00" "Exit by card 45 (gate 2)"] in
  let ev := fun k n => {| Turnstile.ev_rfid := k;
                          Turnstile.ev_date := Some (PyTime.days_from_civil 2024 2 1 + n) |} in
  Turnstile.access_events df = Ok [ev 123 0; ev 45 1]
  /\ Forall2 event_of_line (filter survives df) [ev 123 0; ev 45 1].
Proof.
  intros line df ev.
  assert (H : Turnstile.access_events df = Ok [ev 123 0; ev 45 1])
    by (vm_compute; reflexivity).
  split; [exact H|].
  exact (proj1 (access_events_one_per_surviving_line df _ H)).
Defined.

Lemma normalize_raise_inv df : forall e,
  Turnstile.normalize df = Raise e ->
  exists dt rfid, In (dt, rfid) df /\ PyTime.to_datetime dt = None.
Proof.
  induction df as [|[dt rfid] df IH]; simpl; intros e; [discriminate|].
  destruct (PyTime.to_datetime dt) eqn:Et.
  - destruct (Turnstile.normalize df) as [evs|e']; [discriminate|].
    intros _. destruct (IH e' eq_refl) as (dt' & rfid' & Hin & Hn).
    exists dt', rfid'. auto.
  - intros _. exists dt, rfid. auto.
Qed.

(** The events cannot be built exactly when some line that passes the
    filters has a datetime cell that [to_datetime] rejects, and the
    error is then [ValueError].  A bad datetime on a line that the
    filters remove never matters. *)
Theorem access_events_fail_exactly_on_a_surviving_bad_datetime
    (df : list Turnstile.EventLine) :
  (Turnstile.access_events df = Raise ValueError
   <-> exists line, In line df /\ survives line = true
                    /\ PyTime.to_datetime (Turnstile.datetime line) = None)
  /\ (forall e, Turnstile.access_events df = Raise e -> e = ValueError).
Proof.
  split; [split|].
  - unfold Turnstile.access_events. rewrite extract_classify_survivors. intros H.
    destruct (normalize_raise_inv _ _ H) as (dt & rfid & Hin & Hn).
    apply in_flat_map in Hin. destruct Hin as (line & Hl & Hin).
    apply filter_In in Hl. destruct Hl as [Hl Hs].
    destruct (PyStr.extract_digits (Turnstile.descr line)); [|contradiction].
    destruct Hin as [E|[]]. injection E as <- _.
    exists line. auto.
  - intros (line & Hin & Hs & Hn).
    unfold Turnstile.access_events. rewrite extract_classify_survivors.
    unfold survives in Hs. rewrite !andb_true_iff in Hs.
    destruct (PyStr.extract_digits (Turnstile.descr line)) as [d|] eqn:Ed;
      [|destruct Hs; discriminate].
    apply (normalize_raises _ (Turnstile.datetime line) (PyStr.to_numeric d)); [|exact Hn].
    apply in_flat_map. exists line. split.
    + apply filter_In. split; [exact Hin|].
      unfold survives. rewrite Ed. rewrite !andb_true_iff. exact Hs.
    + rewrite Ed. left. reflexivity.
  - intros e. apply normalize_only_value_error.
Qed.

Lemma access_events_fail_exactly_on_a_surviving_bad_datetime_witness :
  let line := fun d s => {| Turnstile.request_number := "1"; Turnstile.hash := "h";
                            Turnstile.datetime := d; Turnstile.descr := s |} in
  let bad := line "2024-02-01" "Entered by card 00123" in
  let df := [line "garbage" "Door forced 7"; bad] in
  In bad df /\ survives bad = true
  /\ PyTime.to_datetime (Turnstile.datetime bad) = None
  /\ Turnstile.access_events df = Raise ValueError
  /\ Turnstile.access_events [line "garbage" "Door forced 7"] = Ok [].
Proof.
  intros line bad df.
  assert (Hin : In bad df) by (right; left; reflexivity).
  split; [exact Hin|]. split; [reflexivity|]. split; [reflexivity|].
  split; [|reflexivity].
  apply (proj2 (proj1 (access_events_fail_exactly_on_a_surviving_bad_datetime df))).
  exists bad. split; [exact Hin|]. split; reflexivity.
Defined.

(** ** What the report can hold *)

Lemma merge_left_In_none {A B} (lkey : A -> Z) (rkey : B -> option Z) a left right :
  In (a, None) (Pandas.merge_left lkey rkey left right) ->
  forall b, In b right -> rkey b <> Some (lkey a).
Proof.
  unfold Pandas.merge_left. rewrite in_flat_map. intros (a' & _ & H) b Hb Hk.
  destruct (filter _ right) as [|b0 ms] eqn:Ef.
  - destruct H as [E|[]]. injection E as ->.
    assert (Hin : In b (filter (fun b0 => match rkey b0 with
                                          | Some k => k =? lkey a
                                          | None => false
                                          end) right)).
    { apply filter_In. split; [exact Hb|]. rewrite Hk. apply Z.eqb_refl. }
    rewrite Ef in Hin. contradiction.
  - apply in_map_iff in H. destruct H as (b' & E & _). discriminate.
Qed.

Lemma dates_of_length k evs : (List.length (dates_of k evs) <= List.length evs)%nat.
Proof.
  unfold dates_of. induction evs as [|e evs IH]; simpl; [lia|].
  rewrite length_app.
  destruct (Turnstile.ev_rfid e =? k); [destruct (Turnstile.ev_date e)|]; simpl; lia.
Qed.

Lemma nodup_length_le (l : list Z) : (List.length (nodup Z.eq_dec l) <= List.length l)%nat.
Proof.
  induction l as [|a l IH]; simpl; [lia|].
  destruct (in_dec Z.eq_dec a l); simpl; lia.
Qed.

(** A report row never comes from nothing: its rfid was seen in an
    event and the roster has a row of that rfid with a user name; the
    roster columns it carries are those of a roster row of its rfid;
    and its count is between 0 and the number of events. *)
Theorem report_rows_only_for_seen_and_named_cards {K : Pandas.Installation}
    (cards : DataFrame)
    (evs : list Turnstile.AccessEvent) (row : ReportRow) :
  In row (Turnstile.report_rows cards evs) ->
  (exists e, In e evs /\ Turnstile.ev_rfid e = rr_rfid row)
  /\ usable_card cards (rr_rfid row) = true
  /\ (exists c, rr_card row = Some c /\ In c cards /\ card_rfid c = Some (rr_rfid row))
  /\ 0 <= rr_days row <= Z.of_nat (List.length evs).
Proof.
  intros Hrow.
  pose proof (report_rows_days cards evs row Hrow) as Hdays.
  unfold Turnstile.report_rows in Hrow. rewrite sort_values_desc_In in Hrow.
  unfold Turnstile.enrich in Hrow. apply in_map_iff in Hrow.
  destruct Hrow as ([[k n] o] & <- & Hp). cbn [rr_rfid rr_days rr_card fst snd] in *.
  pose proof (merge_left_In_left _ _ _ _ _ _ Hp) as Hkn.
  unfold Turnstile.count_days in Hkn. apply in_map_iff in Hkn.
  destruct Hkn as (k' & E & Hk). injection E as -> _.
  rewrite group_keys_In in Hk. apply in_map_iff in Hk.
  destruct Hk as ([e oc] & Hr & HJ). cbn [fst] in Hr.
  apply join_roster_In in HJ. destruct HJ as (c0 & _ & He & Hc0 & Hk0 & Hu0).
  rewrite Hr in Hk0.
  split; [|split; [|split]].
  - exists e. split; [|exact Hr]. eapply drop_duplicates_In. exact He.
  - unfold usable_card. apply existsb_exists. exists c0. split; [exact Hc0|].
    rewrite Hk0. destruct (username c0); [apply Z.eqb_refl|contradiction].
  - destruct o as [c|].
    + apply merge_left_In_some in Hp. destruct Hp as (_ & Hc & Hkc).
      exists c. auto.
    + exfalso. exact (merge_left_In_none _ _ _ _ _ Hp c0 Hc0 Hk0).
  - rewrite Hdays. unfold distinct_days.
    pose proof (nodup_length_le (dates_of k evs)).
    pose proof (dates_of_length k evs). lia.
Qed.

Lemma report_rows_only_for_seen_and_named_cards_witness :
  let d := PyTime.days_from_civil 2024 2 1 in
  let ev := fun k n => {| Turnstile.ev_rfid := k; Turnstile.ev_date := Some (d + n) |} in
  let evs := [ev 5 0; ev 77 0; ev 5 1] in
  let row := {| rr_rfid := 5; rr_days := 2; rr_card := Some (card_of 5 "eve") |} in
  Turnstile.report_rows roster53 evs = [row]
  /\ usable_card roster53 (rr_rfid row) = true
  /\ 0 <= rr_days row <= 3.
Proof.
  intros d ev evs row.
  assert (E : Turnstile.report_rows roster53 evs = [row]) by (vm_compute; reflexivity).
  assert (Hin : In row (Turnstile.report_rows roster53 evs))
    by (rewrite E; left; reflexivity).
  split; [exact E|].
  destruct (report_rows_only_for_seen_and_named_cards roster53 evs row Hin)
    as (_ & Hu & _ & Hd).
  split; [exact Hu|exact Hd].
Defined.

(** ** The report does not depend on the order of the log *)

Lemma insert_asc_NoDup x l : NoDup l -> ~ In x l -> NoDup (Pandas.insert_asc x l).
Proof.
  induction 1 as [|y l Hy Hl IH]; simpl; intros Hx.
  - constructor; [tauto|constructor].
  - destruct (x <=? y).
    + constructor; [exact Hx|constructor; assumption].
    + constructor.
      * rewrite insert_asc_In. intros [->|H]; [apply Hx; left; reflexivity|contradiction].
      * apply IH. intros H. apply Hx. right. exact H.
Qed.

Lemma sort_asc_NoDup l : NoDup l -> NoDup (Pandas.sort_asc l).
Proof.
  induction 1 as [|x l Hx Hl IH]; simpl; [constructor|].
  apply insert_asc_NoDup; [exact IH|]. rewrite sort_asc_In. exact Hx.
Qed.

Lemma sorted_NoDup_strict l :
  StronglySorted Z.le l -> NoDup l -> StronglySorted Z.lt l.
Proof.
  induction 1 as [|a l Hl IH Ha]; intros Hn; [constructor|].
  inversion Hn as [|? ? Hnot Hn']; subst. constructor; [apply IH; exact Hn'|].
  rewrite Forall_forall in *. intros x Hx. specialize (Ha x Hx).
  assert (x <> a) by (intros ->; contradiction). lia.
Qed.

Lemma strict_sorted_unique l1 : forall l2,
  StronglySorted Z.lt l1 -> StronglySorted Z.lt l2 ->
  (forall x, In x l1 <-> In x l2) -> l1 = l2.
Proof.
  induction l1 as [|a l1 IH]; intros [|b l2] H1 H2 H.
  - reflexivity.
  - exfalso. apply (proj2 (H b)). left. reflexivity.
  - exfalso. apply (proj1 (H a)). left. reflexivity.
  - apply StronglySorted_inv in H1, H2. destruct H1 as [S1 F1], H2 as [S2 F2].
    rewrite Forall_forall in F1, F2.
    assert (a = b).
    { destruct (proj1 (H a) (or_introl eq_refl)) as [E|Ha]; [symmetry; exact E|].
      destruct (proj2 (H b) (or_introl eq_refl)) as [E|Hb]; [exact E|].
      specialize (F2 a Ha). specialize (F1 b Hb). lia. }
    subst b. f_equal. apply IH; [exact S1|exact S2|].
    intros x. split; intros Hx.
    + destruct (proj1 (H x) (or_intror Hx)) as [E|Hx2]; [|exact Hx2].
      specialize (F1 x Hx). lia.
    + destruct (proj2 (H x) (or_intror Hx)) as [E|Hx1]; [|exact Hx1].
      specialize (F2 x Hx). lia.
Qed.

Lemma group_keys_strict keys : StronglySorted Z.lt (Pandas.group_keys keys).
Proof.
  unfold Pandas.group_keys. apply sorted_NoDup_strict.
  - apply sort_asc_sorted.
  - apply sort_asc_NoDup. apply NoDup_nodup.
Qed.

Lemma group_keys_ext l l' :
  (forall k, In k l <-> In k l') -> Pandas.group_keys l = Pandas.group_keys l'.
Proof.
  intros H. apply strict_sorted_unique; try apply group_keys_strict.
  intros k. rewrite !group_keys_In. apply H.
Qed.

Lemma nunique_ext l l' :
  (forall d, In (Some d) l <-> In (Some d) l') -> Pandas.nunique l = Pandas.nunique l'.
Proof.
  intros H. unfold Pandas.nunique. f_equal. apply same_elements_nodup_length.
  intros d. rewrite !in_flat_map. split; intros (o & Ho & Hd);
    (destruct o as [d'|]; [|contradiction]); destruct Hd as [->|[]];
    exists (Some d); (split; [apply H; exact Ho|left; reflexivity]).
Qed.

Lemma count_days_ext (J J' : list (Turnstile.AccessEvent * option Card)) :
  (forall p, In p J <-> In p J') -> Turnstile.count_days J = Turnstile.count_days J'.
Proof.
  intros H. unfold Turnstile.count_days.
  rewrite (group_keys_ext (map (fun p => Turnstile.ev_rfid (fst p)) J)
                          (map (fun p => Turnstile.ev_rfid (fst p)) J')).
  - apply map_ext. intros k. f_equal. apply nunique_ext. intros d.
    rewrite !in_map_iff. split; intros (p & Hp & Hin); exists p;
      (split; [exact Hp|]); rewrite filter_In in *; destruct Hin as [Hin Hk];
      (split; [apply H; exact Hin|exact Hk]).
  - intros k. rewrite !in_map_iff. split; intros (p & Hp & Hin); exists p;
      (split; [exact Hp|apply H; exact Hin]).
Qed.

(** The report depends on the events as a set only: two logs with the
    same events, in whatever order and however often repeated, give the
    same report, row for row. *)
Theorem report_depends_only_on_the_set_of_events {K : Pandas.Installation}
    (cards : DataFrame)
    (evs evs' : list Turnstile.AccessEvent) :
  (forall e, In e evs <-> In e evs') ->
  Turnstile.report_rows cards evs = Turnstile.report_rows cards evs'.
Proof.
  intros H. unfold Turnstile.report_rows.
  rewrite (count_days_ext
             (Turnstile.join_roster cards (Pandas.drop_duplicates Turnstile.event_eqb evs))
             (Turnstile.join_roster cards (Pandas.drop_duplicates Turnstile.event_eqb evs')));
    [reflexivity|].
  intros [e o]. rewrite !join_roster_In.
  split; intros (c & Ho & He & Hrest); exists c; (split; [exact Ho|]);
    (split; [|exact Hrest]);
    apply (proj2 (drop_duplicates_In_iff _ event_eqb_eq _ _));
    apply (proj1 (drop_duplicates_In_iff _ event_eqb_eq _ _)) in He;
    apply H; exact He.
Qed.

Lemma report_depends_only_on_the_set_of_events_witness :
  let d := PyTime.days_from_civil 2024 2 1 in
  let ev := fun k n => {| Turnstile.ev_rfid := k; Turnstile.ev_date := Some (d + n) |} in
  let evs := [ev 5 0; ev 3 0; ev 5 1] in
  let evs' := [ev 5 1; ev 5 1; ev 3 0; ev 5 0; ev 3 0] in
  (forall e, In e evs <-> In e evs')
  /\ Turnstile.report_rows roster53 evs = Turnstile.report_rows roster53 evs'.
Proof.
  intros d ev evs evs'.
  assert (H : forall e, In e evs <-> In e evs').
  { intros e. unfold evs, evs'. simpl. tauto. }
  split; [exact H|].
  exact (report_depends_only_on_the_set_of_events roster53 evs evs' H).
Defined.

(** ** One row per rfid *)

(** When no rfid occurs twice in the roster, the report has one row per
    rfid at most, each rfid being one the roster lists; so the report is
    never longer than the roster. *)
Theorem report_has_one_row_per_rfid {K : Pandas.Installation} (cards : DataFrame)
    (evs : list Turnstile.AccessEvent) :
  NoDup (roster_rfids cards) ->
  NoDup (map rr_rfid (Turnstile.report_rows cards evs))
  /\ (forall row, In row (Turnstile.report_rows cards evs) ->
                  In (rr_rfid row) (roster_rfids cards))
  /\ (List.length (Turnstile.report_rows cards evs) <= List.length cards)%nat.
Proof.
  intros Hn.
  set (J := Turnstile.join_roster cards (Pandas.drop_duplicates Turnstile.event_eqb evs)).
  assert (Hkeys : map rr_rfid (Turnstile.enrich cards (Turnstile.count_days J))
                  = Pandas.group_keys (map (fun p => Turnstile.ev_rfid (fst p)) J)).
  { unfold Turnstile.enrich. rewrite map_map. cbn [rr_rfid].
    rewrite <- (map_map fst fst).
    rewrite (merge_left_one_match fst card_rfid).
    - unfold Turnstile.count_days. rewrite map_map. cbn [fst]. apply map_id.
    - intros a. apply unique_rfid_one_match. exact Hn. }
  assert (Hnd : NoDup (map rr_rfid (Turnstile.report_rows cards evs))).
  { unfold Turnstile.report_rows. fold J.
    eapply Permutation_NoDup.
    - apply Permutation_map. symmetry. apply sort_values_desc_Permutation.
    - rewrite Hkeys. unfold Pandas.group_keys. apply sort_asc_NoDup, NoDup_nodup. }
  assert (Hin : forall row, In row (Turnstile.report_rows cards evs) ->
                            In (rr_rfid row) (roster_rfids cards)).
  { intros row Hrow. unfold Turnstile.report_rows in Hrow. fold J in Hrow.
    rewrite sort_values_desc_In in Hrow.
    apply (in_map rr_rfid) in Hrow. rewrite Hkeys, group_keys_In in Hrow.
    apply in_map_iff in Hrow. destruct Hrow as ([e o] & Hr & HJ). cbn [fst] in Hr.
    apply join_roster_In in HJ. destruct HJ as (c & _ & _ & Hc & Hk & _).
    apply roster_rfids_In. exists c. rewrite <- Hr. auto. }
  split; [exact Hnd|]. split; [exact Hin|].
  rewrite <- (length_map rr_rfid).
  transitivity (List.length (roster_rfids cards)).
  - apply NoDup_incl_length; [exact Hnd|]. intros k Hk.
    apply in_map_iff in Hk. destruct Hk as (row & <- & Hrow). apply Hin. exact Hrow.
  - unfold roster_rfids. clear. induction cards as [|c cards IH]; simpl; [lia|].
    rewrite length_app. destruct (card_rfid c); simpl; lia.
Qed.

Lemma report_has_one_row_per_rfid_witness :
  let d := PyTime.days_from_civil 2024 2 1 in
  let ev := fun k n => {| Turnstile.ev_rfid := k; Turnstile.ev_date := Some (d + n) |} in
  let evs := [ev 5 0; ev 3 0; ev 5 1; ev 3 0] in
  NoDup (roster_rfids roster53)
  /\ NoDup (map rr_rfid (Turnstile.report_rows roster53 evs))
  /\ map rr_rfid (Turnstile.report_rows roster53 evs) = [5; 3].
Proof.
  intros d ev evs.
  assert (H : NoDup (roster_rfids roster53)).
  { vm_compute. repeat constructor; simpl; intuition discriminate. }
  split; [exact H|]. split; [|reflexivity].
  exact (proj1 (report_has_one_row_per_rfid roster53 evs H)).
Defined.

(** ** Splitting and joining text *)

Lemma split_not_nil sep s : PyStr.split sep s <> [].
Proof.
  destruct s as [|c s]; simpl; [discriminate|].
  destruct (Ascii.eqb c sep); [discriminate|].
  destruct (PyStr.split sep s); discriminate.
Qed.

(** Joining what [split] gave restores the text. *)
Lemma concat_split sep s :
  String.concat (String sep EmptyString) (PyStr.split sep s) = s.
Proof.
  induction s as [|c s IH]; [reflexivity|]. simpl.
  destruct (PyStr.split sep s) as [|f fs] eqn:E.
  - destruct (split_not_nil sep s E).
  - destruct (Ascii.eqb c sep) eqn:Ec.
    + apply Ascii.eqb_eq in Ec. subst c.
      change (String.concat (String sep EmptyString) (EmptyString :: f :: fs))
        with (String sep (String.concat (String sep EmptyString) (f :: fs))).
      rewrite IH. reflexivity.
    + destruct fs as [|g gs].
      * simpl in *. rewrite IH. reflexivity.
      * change (String.concat (String sep EmptyString) (String c f :: g :: gs))
          with (String c (String.concat (String sep EmptyString) (f :: g :: gs))).
        rewrite IH. reflexivity.
Qed.

Lemma split_clean sep f : has_char sep f = false -> PyStr.split sep f = [f].
Proof.
  induction f as [|c f IH]; simpl; [reflexivity|].
  intros H. apply orb_false_iff in H. destruct H as [Hc Hf].
  rewrite Hc, (IH Hf). reflexivity.
Qed.

Lemma split_clean_then sep f rest :
  has_char sep f = false ->
  PyStr.split sep (f ++ String sep rest) = f :: PyStr.split sep rest.
Proof.
  induction f as [|c f IH]; simpl.
  - intros _. rewrite Ascii.eqb_refl. reflexivity.
  - intros H. apply orb_false_iff in H. destruct H as [Hc Hf].
    rewrite Hc, (IH Hf). reflexivity.
Qed.

(** Splitting what was joined restores the pieces, when no piece holds
    the separator. *)
Lemma split_concat sep l :
  l <> [] -> Forall (fun f => has_char sep f = false) l ->
  PyStr.split sep (String.concat (String sep EmptyString) l) = l.
Proof.
  induction l as [|x l IH]; intros Hne Hl; [contradiction|].
  inversion Hl as [|? ? Hx Hl']; subst.
  destruct l as [|y l].
  - simpl. apply split_clean. exact Hx.
  - change (String.concat (String sep EmptyString) (x :: y :: l))
      with (x ++ String sep (String.concat (String sep EmptyString) (y :: l))).
    rewrite (split_clean_then sep x _ Hx), IH; [reflexivity|discriminate|exact Hl'].
Qed.

Lemma split_fields_without sep c s :
  (has_char c s = false \/ c = sep) ->
  Forall (fun f => has_char c f = false) (PyStr.split sep s).
Proof.
  induction s as [|a s IH]; intros H.
  - constructor; [reflexivity|constructor].
  - assert (Hs : has_char c s = false \/ c = sep).
    { destruct H as [H|H]; [left|right; exact H].
      simpl in H. apply orb_false_iff in H. apply H. }
    specialize (IH Hs). simpl.
    destruct (Ascii.eqb a sep) eqn:Ea.
    + constructor; [reflexivity|exact IH].
    + destruct (PyStr.split sep s) as [|f fs]; [constructor; [|constructor]|].
      * simpl. rewrite orb_false_r. destruct H as [H|H].
        -- simpl in H. apply orb_false_iff in H. apply H.
        -- subst c. exact Ea.
      * inversion IH as [|? ? Hf Hfs]; subst. constructor; [|exact Hfs].
        simpl. rewrite Hf, orb_false_r. destruct H as [H|H].
        -- simpl in H. apply orb_false_iff in H. apply H.
        -- subst c. exact Ea.
Qed.

Lemma has_char_append c a b : has_char c (a ++ b) = has_char c a || has_char c b.
Proof.
  induction a as [|x a IH]; simpl; [reflexivity|]. rewrite IH, orb_assoc. reflexivity.
Qed.

Lemma has_char_concat c sep l :
  c <> sep -> Forall (fun f => has_char c f = false) l ->
  has_char c (String.concat (String sep EmptyString) l) = false.
Proof.
  intros Hc. induction 1 as [|x l Hx Hl IH]; [reflexivity|].
  destruct l as [|y l]; [exact Hx|].
  change (String.concat (String sep EmptyString) (x :: y :: l))
    with (x ++ String sep (String.concat (String sep EmptyString) (y :: l))).
  rewrite has_char_append, Hx. cbn [has_char orb]. rewrite IH, orb_false_r.
  apply Ascii.eqb_neq. intros E. apply Hc. symmetry. exact E.
Qed.

(** ** The tokenizer *)

Lemma tab_is_not_newline : PyStr.newline <> PyStr.tab.
Proof. discriminate. Qed.

Lemma frame_of_fields data :
  Forall (fun row => List.length row = 4%nat) data ->
  map fields_of (Turnstile.frame_of data) = data.
Proof.
  induction 1 as [|row data Hrow _ IH]; [reflexivity|].
  destruct row as [|a [|b [|c [|d [|e row]]]]]; try discriminate.
  cbn [Turnstile.frame_of flat_map app map]. fold (Turnstile.frame_of data).
  rewrite IH. reflexivity.
Qed.

Lemma tokenize_In raw row :
  In row (Turnstile.tokenize raw) <->
  exists line, In line (PyStr.split PyStr.newline (PyStr.strip raw))
               /\ row = PyStr.split PyStr.tab line
               /\ List.length row = 4%nat.
Proof.
  unfold Turnstile.tokenize. rewrite in_map_iff. split.
  - intros (line & <- & Hl). apply filter_In in Hl. destruct Hl as [Hin Hlen].
    exists line. split; [exact Hin|]. split; [reflexivity|].
    apply Nat.eqb_eq. exact Hlen.
  - intros (line & Hin & -> & Hlen). exists line. split; [reflexivity|].
    apply filter_In. split; [exact Hin|]. apply Nat.eqb_eq. exact Hlen.
Qed.

(** Every row the tokenizer keeps has exactly four fields, none of which
    holds a tab or a line feed; joined by tabs they are, character for
    character, a line of the stripped text; and the frame built from the
    rows has the same rows, cell for cell, in the same order. *)
Theorem tokenize_keeps_whole_four_field_lines (raw : string) :
  (forall row, In row (Turnstile.tokenize raw) ->
     List.length row = 4%nat
     /\ Forall clean_field row
     /\ In (tsv row) (PyStr.split PyStr.newline (PyStr.strip raw)))
  /\ map fields_of (Turnstile.frame_of (Turnstile.tokenize raw)) = Turnstile.tokenize raw.
Proof.
  assert (H : forall row, In row (Turnstile.tokenize raw) ->
     List.length row = 4%nat
     /\ Forall clean_field row
     /\ In (tsv row) (PyStr.split PyStr.newline (PyStr.strip raw))).
  { intros row Hrow. apply tokenize_In in Hrow. destruct Hrow as (line & Hin & -> & Hlen).
    split; [exact Hlen|]. split.
    - assert (Hnl : has_char PyStr.newline line = false).
      { pose proof (split_fields_without PyStr.newline PyStr.newline (PyStr.strip raw)
                      (or_intror eq_refl)) as F.
        rewrite Forall_forall in F. apply F. exact Hin. }
      pose proof (split_fields_without PyStr.tab PyStr.tab line (or_intror eq_refl)) as Ft.
      pose proof (split_fields_without PyStr.tab PyStr.newline line (or_introl Hnl)) as Fn.
      rewrite Forall_forall in *. intros f Hf. split; [apply Ft|apply Fn]; exact Hf.
    - unfold tsv. rewrite concat_split. exact Hin. }
  split; [exact H|]. apply frame_of_fields.
  apply Forall_forall. intros row Hrow. apply (H row Hrow).
Qed.

Lemma map_split_tsv rows :
  Forall (Forall clean_field) rows ->
  filter (fun r => Nat.eqb (List.length r) 4)
         (map (PyStr.split PyStr.tab) (map tsv rows))
  = filter (fun r => Nat.eqb (List.length r) 4) rows.
Proof.
  induction 1 as [|row rows Hrow _ IH]; [reflexivity|].
  cbn [map filter]. rewrite IH.
  destruct row as [|f row].
  - reflexivity.
  - unfold tsv. rewrite split_concat; [reflexivity|discriminate|].
    eapply Forall_impl; [|exact Hrow]. intros x [Hx _]. exact Hx.
Qed.

Lemma filter_map_swap {A B} (f : A -> B) (p : B -> bool) l :
  map f (filter (fun a => p (f a)) l) = filter p (map f l).
Proof.
  induction l as [|a l IH]; simpl; [reflexivity|].
  destruct (p (f a)); simpl; rewrite IH; reflexivity.
Qed.

(** The tokenizer undoes the line format: for rows of fields free of
    tabs and line feeds, written one row per line with tabs between the
    fields, it gives back exactly the rows of four fields, in order,
    provided the whole text neither starts nor ends with white space
    (which [strip] would eat). *)
Theorem tokenize_inverts_the_line_format (rows : list (list string)) :
  Forall (Forall clean_field) rows ->
  PyStr.strip (text_of (map tsv rows)) = text_of (map tsv rows) ->
  Turnstile.tokenize (text_of (map tsv rows))
  = filter (fun r => Nat.eqb (List.length r) 4) rows.
Proof.
  intros Hrows Hstrip. unfold Turnstile.tokenize. rewrite Hstrip.
  rewrite (filter_map_swap (PyStr.split PyStr.tab) (fun r => Nat.eqb (List.length r) 4)).
  destruct rows as [|row rows]; [reflexivity|].
  unfold text_of. rewrite split_concat.
  - apply map_split_tsv. exact Hrows.
  - discriminate.
  - apply Forall_forall. intros line Hline. apply in_map_iff in Hline.
    destruct Hline as (r & <- & Hr). rewrite Forall_forall in Hrows.
    unfold tsv. apply has_char_concat; [exact tab_is_not_newline|].
    eapply Forall_impl; [|exact (Hrows r Hr)]. intros x [_ Hx]. exact Hx.
Qed.

Lemma tokenize_inverts_the_line_format_witness :
  let rows := [["1"; "h1"; "01/02/24 10:00:00"; "Entered by card 00123"];
               ["-- page 1 --"];
               ["2"; ""; "01/02/24 10:05:00"; "Exit by card 7"];
               ["a"; "b"; "c"; "d"; "e"]] in
  Forall (Forall clean_field) rows
  /\ PyStr.strip (text_of (map tsv rows)) = text_of (map tsv rows)
  /\ Turnstile.tokenize (text_of (map tsv rows))
     = [["1"; "h1"; "01/02/24 10:00:00"; "Entered by card 00123"];
        ["2"; ""; "01/02/24 10:05:00"; "Exit by card 7"]].
Proof.
  intros rows.
  assert (H1 : Forall (Forall clean_field) rows)
    by (repeat constructor).
  assert (H2 : PyStr.strip (text_of (map tsv rows)) = text_of (map tsv rows))
    by (vm_compute; reflexivity).
  split; [exact H1|]. split; [exact H2|].
  exact (tokenize_inverts_the_line_format rows H1 H2).
Defined.

(** ** Reading an rfid back from a description *)

Lemma digits_value_of_uint_acc d : forall acc,
  PyStr.digits_value (Z.pos acc) (NilEmpty.string_of_uint d)
  = Z.pos (Pos.of_uint_acc d acc).
Proof.
  induction d as [|d IH|d IH|d IH|d IH|d IH|d IH|d IH|d IH|d IH|d IH]; intros acc;
    [reflexivity| | | | | | | | | |];
    cbn [NilEmpty.string_of_uint PyStr.digits_value Pos.of_uint_acc];
    rewrite <- IH; f_equal; unfold PyStr.digit_val;
    match goal with
    | |- context [Z.of_nat (nat_of_ascii ?c)] =>
        let v := eval vm_compute in (Z.of_nat (nat_of_ascii c)) in
        change (Z.of_nat (nat_of_ascii c)) with v
    end; lia.
Qed.

Lemma digits_value_of_uint d :
  PyStr.digits_value 0 (NilEmpty.string_of_uint d) = Z.of_N (Pos.of_uint d).
Proof.
  induction d as [|d IH|d IH|d IH|d IH|d IH|d IH|d IH|d IH|d IH|d IH];
    [reflexivity|exact IH| | | | | | | | |];
    cbn [NilEmpty.string_of_uint PyStr.digits_value Pos.of_uint];
    unfold PyStr.digit_val;
    match goal with
    | |- context [Z.of_nat (nat_of_ascii ?c)] =>
        let v := eval vm_compute in (10 * 0 + (Z.of_nat (nat_of_ascii c) - 48)) in
        change (10 * 0 + (Z.of_nat (nat_of_ascii c) - 48)) with v
    end;
    rewrite digits_value_of_uint_acc; reflexivity.
Qed.

Lemma str_int_pos p :
  PyStr.str_int (Z.pos p) = NilEmpty.string_of_uint (Pos.to_uint p).
Proof.
  unfold PyStr.str_int. cbn [Z.to_int NilZero.string_of_int].
  unfold NilZero.string_of_uint.
  destruct (Pos.to_uint p) eqn:E; try reflexivity.
  destruct (Unsigned.to_uint_nonnil p E).
Qed.

(** [pd.to_numeric] undoes [str] on the integers from 0 on. *)
Lemma to_numeric_str_int k : 0 <= k -> PyStr.to_numeric (PyStr.str_int k) = k.
Proof.
  intros Hk. destruct k as [|p|p]; [reflexivity| |lia].
  unfold PyStr.to_numeric. rewrite str_int_pos, digits_value_of_uint, Unsigned.of_to.
  reflexivity.
Qed.

Lemma string_of_uint_all_digits d : all_digits (NilEmpty.string_of_uint d) = true.
Proof. induction d; simpl; auto. Qed.

Lemma str_int_all_digits k :
  0 <= k -> all_digits (PyStr.str_int k) = true /\ PyStr.str_int k <> EmptyString.
Proof.
  intros Hk. destruct k as [|p|p]; [split; [reflexivity|discriminate]| |lia].
  rewrite str_int_pos. split; [apply string_of_uint_all_digits|].
  pose proof (Unsigned.to_uint_nonnil p) as Hn.
  destruct (Pos.to_uint p); try discriminate. contradiction.
Qed.

Lemma extract_digits_skip p s :
  digitless p = true -> PyStr.extract_digits (p ++ s) = PyStr.extract_digits s.
Proof.
  induction p as [|c p IH]; simpl; [reflexivity|].
  intros H. apply andb_true_iff in H. destruct H as [Hc Hp].
  apply negb_true_iff in Hc. rewrite Hc. apply IH. exact Hp.
Qed.

Lemma take_digits_run d s :
  all_digits d = true -> digit_start s = false -> PyStr.take_digits (d ++ s) = d.
Proof.
  induction d as [|c d IH]; simpl; intros Hd Hs.
  - destruct s as [|c s]; [reflexivity|]. simpl in *. rewrite Hs. reflexivity.
  - apply andb_true_iff in Hd. destruct Hd as [Hc Hd]. rewrite Hc, (IH Hd Hs). reflexivity.
Qed.

Lemma extract_digits_run d s :
  all_digits d = true -> d <> EmptyString -> digit_start s = false ->
  PyStr.extract_digits (d ++ s) = Some d.
Proof.
  destruct d as [|c d]; [contradiction|]. simpl. intros Hd _ Hs.
  apply andb_true_iff in Hd. destruct Hd as [Hc Hd].
  rewrite Hc, (take_digits_run d s Hd Hs). reflexivity.
Qed.

Lemma all_digits_append a b :
  all_digits a = true -> all_digits b = true -> all_digits (a ++ b) = true.
Proof.
  induction a as [|c a IH]; simpl; [auto|]. intros Ha Hb.
  apply andb_true_iff in Ha. destruct Ha as [Hc Ha]. rewrite Hc, (IH Ha Hb). reflexivity.
Qed.

Lemma zeros_all_digits n : all_digits (zeros n) = true.
Proof. induction n; simpl; auto. Qed.

Lemma to_numeric_zeros n s : PyStr.to_numeric (zeros n ++ s) = PyStr.to_numeric s.
Proof. unfold PyStr.to_numeric. induction n; simpl; auto. Qed.

Lemma append_assoc (a b c : string) : ((a ++ b) ++ c = a ++ b ++ c)%string.
Proof. induction a as [|x a IH]; simpl; [reflexivity|]. rewrite IH. reflexivity. Qed.

Lemma append_empty_left (a b : string) : (a ++ b)%string = EmptyString -> b = EmptyString.
Proof. destruct a; simpl; [auto|discriminate]. Qed.

(** The rfid a card of an integer [Card RFID] column is provisioned
    with is the rfid read back from the log: when a description that
    passes the filters shows the card's rfid (from 0 on) in decimal,
    with any number of leading zeros, as its first run of digits, the
    event extracted from the line has exactly the rfid the [card_edit]
    request carried. *)
Theorem provisioned_rfid_is_read_back (row : Card) (k : Z)
    (line : Turnstile.EventLine) (before after : string) (z : nat) :
  card_rfid row = Some k ->
  rfid_float row = false ->
  0 <= k ->
  Turnstile.descr line = before ++ zeros z ++ PyStr.str_int k ++ after ->
  digitless before = true ->
  digit_start after = false ->
  PyStr.contains "Card is not registered" (Turnstile.descr line) = false ->
  PyStr.contains "by card" (Turnstile.descr line) = true ->
  Turnstile.card_edit_req row = "1+1+" ++ PyStr.str_int k
  /\ Turnstile.extract (Turnstile.classify [line]) = [(Turnstile.datetime line, k)].
Proof.
  intros Hrow Hint Hk Hd Hb Ha Hn Hc. split.
  - unfold Turnstile.card_edit_req, Turnstile.str_rfid. rewrite Hrow, Hint. reflexivity.
  - unfold Turnstile.classify, Turnstile.extract. cbn [filter]. rewrite Hn.
    cbn [negb filter]. rewrite Hc. cbn [flat_map app].
    destruct (str_int_all_digits k Hk) as [Hall Hne].
    assert (E : PyStr.extract_digits (Turnstile.descr line)
                = Some (zeros z ++ PyStr.str_int k)).
    { rewrite Hd, (extract_digits_skip _ _ Hb), <- append_assoc.
      apply extract_digits_run.
      - apply all_digits_append; [apply zeros_all_digits|exact Hall].
      - intros E. apply append_empty_left in E. contradiction.
      - exact Ha. }
    rewrite E, to_numeric_zeros, (to_numeric_str_int k Hk). reflexivity.
Qed.

Lemma provisioned_rfid_is_read_back_witness :
  let row := card_of 123 "ann" in
  let line := {| Turnstile.request_number := "1"; Turnstile.hash := "h1";
                 Turnstile.datetime := "01/02/24 10:00:00";
                 Turnstile.descr := "Entered by card 00123 (door 2)" |} in
  card_rfid row = Some 123
  /\ rfid_float row = false
  /\ Turnstile.descr line = "Entered by card " ++ zeros 2 ++ PyStr.str_int 123 ++ " (door 2)"
  /\ Turnstile.card_edit_req row = "1+1+123"
  /\ Turnstile.extract (Turnstile.classify [line]) = [("01/02/24 10:00:00", 123)].
Proof.
  intros row line. split; [reflexivity|]. split; [reflexivity|]. split; [reflexivity|].
  exact (provisioned_rfid_is_read_back row 123 line "Entered by card " " (door 2)" 2
           eq_refl eq_refl ltac:(lia) eq_refl eq_refl eq_refl eq_refl eq_refl).
Defined.

(** ** An empty log *)

Lemma lstrip_all_space s : all_space s = true -> PyStr.lstrip s = EmptyString.
Proof.
  induction s as [|c s IH]; simpl; [reflexivity|].
  intros H. apply andb_true_iff in H. destruct H as [Hc Hs]. rewrite Hc. exact (IH Hs).
Qed.

Lemma tokenize_blank raw : all_space raw = true -> Turnstile.tokenize raw = [].
Proof.
  intros H. unfold Turnstile.tokenize, PyStr.strip. rewrite (lstrip_all_space raw H).
  reflexivity.
Qed.

(** When the device answers the event request with nothing, or with
    white space only, the call returns [None] having sent its one
    request and written no file, whatever the roster is. *)
Theorem blank_log_gives_no_report {K : Pandas.Installation}
    (self : Turnstile.TurnstileManager) (n : Z)
    (cards : DataFrame) (dir : string) (w : World) (body : string) :
  event_reply self n w body ->
  all_space body = true ->
  Turnstile.generate_access_report self n cards dir w
  = (grow w [event_request self n] [], Ok None).
Proof.
  intros Hev Hb. rewrite (generate_access_report_spec _ _ _ _ _ _ Hev). cbv zeta.
  rewrite (tokenize_blank body Hb). cbn iota. f_equal. destruct w. same_world.
Qed.

Lemma blank_log_gives_no_report_witness :
  let body := String PyStr.newline (String " " (String PyStr.tab EmptyString)) in
  let w := world_of (device_saying body) (Sheet roster123) in
  event_reply manager0 100 w body
  /\ all_space body = true
  /\ Turnstile.generate_access_report manager0 100 roster123 "reports/" w
     = (grow w [event_request manager0 100] [], Ok None).
Proof.
  intros body w.
  assert (Hev : event_reply manager0 100 w body) by (exists 200; split; reflexivity).
  split; [exact Hev|]. split; [reflexivity|].
  exact (blank_log_gives_no_report manager0 100 roster123 "reports/" w body Hev eq_refl).
Defined.

(** ** Parsing the timestamps of the device *)

Ltac enumerate_field :=
  let v := fresh "v" in let Hv := fresh "Hv" in let H := fresh "H" in
  let n := fresh "n" in let Hn := fresh "Hn" in
  intros v Hv; intros;
  match type of Hv with
  | ?lo <= _ <= _ =>
      assert (Hn : exists n, v = lo + Z.of_nat n) by (exists (Z.to_nat (v - lo)); lia);
      destruct Hn as (n & ->)
  end;
  repeat (destruct n as [|n];
          [match goal with
           | H0 : _ = Some _ |- _ => vm_compute in H0 |- *; rewrite H0; reflexivity
           | |- _ => vm_compute; reflexivity
           end|]);
  lia.

Lemma re_d_selects : field_selects
  [PyTime.two 3 3 0 1; PyTime.two 1 2 0 9; PyTime.two 0 0 1 9; PyTime.one 1 9;
   PyTime.space_one] 1 31.
Proof. unfold field_selects. enumerate_field. Qed.

Lemma re_m_selects : field_selects
  [PyTime.two 1 1 0 2; PyTime.two 0 0 1 9; PyTime.one 1 9] 1 12.
Proof. unfold field_selects. enumerate_field. Qed.

Lemma re_y_selects : field_selects [PyTime.two 0 9 0 9] 0 99.
Proof. unfold field_selects. enumerate_field. Qed.

Lemma re_H_selects : field_selects
  [PyTime.two 2 2 0 3; PyTime.two 0 1 0 9; PyTime.one 0 9] 0 23.
Proof. unfold field_selects. enumerate_field. Qed.

Lemma re_M_selects : field_selects [PyTime.two 0 5 0 9; PyTime.one 0 9] 0 59.
Proof. unfold field_selects. enumerate_field. Qed.

Lemma re_S_selects : field_selects
  [PyTime.two 6 6 0 1; PyTime.two 0 5 0 9; PyTime.one 0 9] 0 59.
Proof. unfold field_selects. enumerate_field. Qed.

Ltac from_lower_bound :=
  let v := fresh "v" in let Hv := fresh "Hv" in let Hn := fresh "Hn" in
  intros v Hv; intros;
  match type of Hv with
  | ?lo <= _ <= _ =>
      assert (Hn : exists n, v = lo + Z.of_nat n) by (exists (Z.to_nat (v - lo)); lia);
      destruct Hn as (?n & ->)
  end.

Tactic Notation "enumerate_first" integer(N) :=
  from_lower_bound;
  do N (match goal with
        | n : nat |- _ => destruct n; [vm_compute; reflexivity|]
        end);
  lia.

Lemma pad2_starts_no_space : forall v, 0 <= v <= 23 ->
  forall s, PyTime.space_tails (PyStr.pad2 v ++ s) = [].
Proof. enumerate_first 24. Qed.

Lemma pad2_is_no_nat_string : forall v, 1 <= v <= 31 ->
  forall s, PyTime.is_nat_string (PyStr.pad2 v ++ s) = false.
Proof. enumerate_first 31. Qed.

Lemma re_match_field alts lo hi rest v s vs s'' :
  field_selects alts lo hi -> lo <= v <= hi ->
  PyTime.re_match rest s = Some (vs, s'') ->
  PyTime.re_match (PyTime.Field alts :: rest) (PyStr.pad2 v ++ s) = Some (v :: vs, s'').
Proof.
  intros Hsel Hv Hrest. cbn [PyTime.re_match].
  apply (Hsel v Hv _
           (fun v s' => match PyTime.re_match rest s' with
                        | Some (vs, s'') => Some (v :: vs, s'')
                        | None => None
                        end)).
  rewrite Hrest. reflexivity.
Qed.

Lemma re_match_lit c rest s r :
  PyTime.re_match rest s = r ->
  PyTime.re_match (PyTime.Lit c :: rest) (String c s) = r.
Proof. intros H. cbn [PyTime.re_match]. rewrite Ascii.eqb_refl. exact H. Qed.

Lemma re_match_spaces rest v s r :
  0 <= v <= 23 ->
  PyTime.re_match rest (PyStr.pad2 v ++ s) = Some r ->
  PyTime.re_match (PyTime.Spaces :: rest) (String " " (PyStr.pad2 v ++ s)) = Some r.
Proof.
  intros Hv H. cbn [PyTime.re_match PyTime.space_tails].
  change (PyStr.is_space " ") with true. cbn iota.
  rewrite (pad2_starts_no_space v Hv s). cbn [app PyTime.first_some].
  rewrite H. reflexivity.
Qed.

Lemma append_nil_right (s : string) : (s ++ "")%string = s.
Proof. induction s as [|c s IH]; simpl; [reflexivity|]. rewrite IH. reflexivity. Qed.

Lemma re_match_timestamp d m y hh mm ss :
  1 <= d <= 31 -> 1 <= m <= 12 -> 0 <= y <= 99 ->
  0 <= hh <= 23 -> 0 <= mm <= 59 -> 0 <= ss <= 59 ->
  PyTime.re_match PyTime.report_format (timestamp_text d m y hh mm ss)
  = Some ([d; m; y; hh; mm; ss], EmptyString).
Proof.
  intros Hd Hm Hy Hh Hmi Hs.
  unfold PyTime.report_format, timestamp_text,
    PyTime.re_d, PyTime.re_m, PyTime.re_y, PyTime.re_H, PyTime.re_M, PyTime.re_S.
  rewrite <- (append_nil_right (PyStr.pad2 ss)).
  apply (re_match_field _ 1 31 _ d _ _ _ re_d_selects Hd). apply re_match_lit.
  apply (re_match_field _ 1 12 _ m _ _ _ re_m_selects Hm). apply re_match_lit.
  apply (re_match_field _ 0 99 _ y _ _ _ re_y_selects Hy).
  apply (re_match_spaces _ hh _ _ Hh).
  apply (re_match_field _ 0 23 _ hh _ _ _ re_H_selects Hh). apply re_match_lit.
  apply (re_match_field _ 0 59 _ mm _ _ _ re_M_selects Hmi). apply re_match_lit.
  apply (re_match_field _ 0 59 _ ss _ _ _ re_S_selects Hs).
  reflexivity.
Qed.

Lemma days_in_month_le_31 y m : PyTime.days_in_month y m <= 31.
Proof.
  unfold PyTime.days_in_month.
  destruct (m =? 2); [destruct (PyTime.is_leap y); lia|].
  destruct ((m =? 4) || (m =? 6) || (m =? 9) || (m =? 11)); lia.
Qed.

Lemma timestamp_text_parses (d m y hh mm ss : Z) :
  valid_timestamp d m y hh mm ss ->
  PyTime.to_datetime (timestamp_text d m y hh mm ss)
  = Some (Some (PyTime.days_from_civil (full_year y) m d * 86400
                + hh * 3600 + mm * 60 + ss))
  /\ option_map PyTime.dt_date (PyTime.to_datetime (timestamp_text d m y hh mm ss))
     = Some (Some (PyTime.days_from_civil (full_year y) m d)).
Proof.
  intros (Hm & Hd & Hy & Hh & Hmi & Hs).
  assert (Hd31 : 1 <= d <= 31)
    by (pose proof (days_in_month_le_31 (full_year y) m); lia).
  assert (E : PyTime.to_datetime (timestamp_text d m y hh mm ss)
              = Some (Some (PyTime.days_from_civil (full_year y) m d * 86400
                            + hh * 3600 + mm * 60 + ss))).
  { unfold PyTime.to_datetime.
    assert (Hnat : PyTime.is_nat_string (timestamp_text d m y hh mm ss) = false)
      by (unfold timestamp_text; apply pad2_is_no_nat_string; exact Hd31).
    rewrite Hnat. unfold PyTime.strptime.
    rewrite (re_match_timestamp d m y hh mm ss Hd31 Hm Hy Hh Hmi Hs).
    fold (full_year y).
    destruct (d <=? PyTime.days_in_month (full_year y) m) eqn:Ed; [reflexivity|].
    apply Z.leb_gt in Ed. lia. }
  split; [exact E|]. rewrite E. cbn [option_map PyTime.dt_date]. do 2 f_equal.
  symmetry. apply (Z.div_unique _ _ _ (hh * 3600 + mm * 60 + ss)); lia.
Qed.

(** Every timestamp of a date and time of day that exist, written with
    two digits per field, is accepted by line 137, and the date line 138
    takes from it is the day it shows, in the year 2000 + yy up to 68
    and 1900 + yy from 69 on. *)
Theorem well_formed_timestamps_parse (d m y hh mm ss : Z) :
  valid_timestamp d m y hh mm ss ->
  PyTime.to_datetime (timestamp_text d m y hh mm ss)
  = Some (Some (PyTime.days_from_civil (full_year y) m d * 86400
                + hh * 3600 + mm * 60 + ss))
  /\ option_map PyTime.dt_date (PyTime.to_datetime (timestamp_text d m y hh mm ss))
     = Some (Some (PyTime.days_from_civil (full_year y) m d)).
Proof. exact (timestamp_text_parses d m y hh mm ss). Qed.

Lemma well_formed_timestamps_parse_witness :
  valid_timestamp 29 2 24 23 59 59
  /\ timestamp_text 29 2 24 23 59 59 = "29/02/24 23:59:59"
  /\ PyTime.to_datetime "29/02/24 23:59:59"
     = Some (Some (PyTime.days_from_civil 2024 2 29 * 86400 + 23 * 3600 + 59 * 60 + 59)).
Proof.
  assert (H : valid_timestamp 29 2 24 23 59 59) by (vm_compute; intuition discriminate).
  split; [exact H|]. split; [reflexivity|].
  exact (proj1 (well_formed_timestamps_parse 29 2 24 23 59 59 H)).
Defined.

(** ** Day numbers and calendar days *)

Lemma month_step_checked :
  forallb (fun n => month_start (Z.of_nat n + 1)
                    =? month_start (Z.of_nat n) + month_days (Z.of_nat n))
          (seq 0 1200) = true.
Proof. vm_compute. reflexivity. Qed.

(** Each month starts where the month before it ends. *)
Lemma month_step i :
  0 <= i < 1200 -> month_start (i + 1) = month_start i + month_days i.
Proof.
  intros Hi. pose proof month_step_checked as H. rewrite forallb_forall in H.
  specialize (H (Z.to_nat i)). rewrite Z2Nat.id in H by lia.
  apply Z.eqb_eq. apply H. apply in_seq. lia.
Qed.

Lemma month_days_at_least_28 i : 28 <= month_days i.
Proof.
  unfold month_days, PyTime.days_in_month.
  destruct (_ =? 2); [destruct (PyTime.is_leap _); lia|].
  destruct (_ || _); lia.
Qed.

Lemma month_start_later i (k : nat) :
  0 <= i -> i + 1 + Z.of_nat k <= 1200 ->
  month_start i + month_days i <= month_start (i + 1 + Z.of_nat k).
Proof.
  intros Hi. induction k as [|k IH]; intros Hk.
  - rewrite Z.add_0_r, month_step by lia. lia.
  - replace (i + 1 + Z.of_nat (S k)) with ((i + 1 + Z.of_nat k) + 1) by lia.
    rewrite month_step by lia.
    pose proof (month_days_at_least_28 (i + 1 + Z.of_nat k)).
    assert (month_start i + month_days i <= month_start (i + 1 + Z.of_nat k))
      by (apply IH; lia).
    lia.
Qed.

Lemma days_from_civil_day y m d :
  PyTime.days_from_civil y m d = PyTime.days_from_civil y m 1 + (d - 1).
Proof. unfold PyTime.days_from_civil. lia. Qed.

Lemma month_index_year year m :
  1 <= m <= 12 ->
  1969 + month_index year m / 12 = year /\ month_index year m mod 12 + 1 = m.
Proof.
  intros Hm. unfold month_index.
  assert (Hq : ((year - 1969) * 12 + (m - 1)) / 12 = year - 1969).
  { symmetry. apply (Z.div_unique _ _ _ (m - 1)); lia. }
  assert (Hr : ((year - 1969) * 12 + (m - 1)) mod 12 = m - 1).
  { symmetry. apply (Z.mod_unique _ _ (year - 1969)); lia. }
  rewrite Hq, Hr. lia.
Qed.

Lemma day_number_in_month year m d :
  1 <= m <= 12 ->
  PyTime.days_from_civil year m d = month_start (month_index year m) + (d - 1)
  /\ PyTime.days_in_month year m = month_days (month_index year m).
Proof.
  intros Hm. destruct (month_index_year year m Hm) as [Hy Hmm].
  unfold month_start, month_days. rewrite Hy, Hmm. split; [|reflexivity].
  apply days_from_civil_day.
Qed.

(** From 1969 to 2068, two days of the calendar with the same day
    number are the same day. *)
Lemma day_number_injective year m d year' m' d' :
  1969 <= year <= 2068 -> 1 <= m <= 12 -> 1 <= d <= PyTime.days_in_month year m ->
  1969 <= year' <= 2068 -> 1 <= m' <= 12 -> 1 <= d' <= PyTime.days_in_month year' m' ->
  PyTime.days_from_civil year m d = PyTime.days_from_civil year' m' d' ->
  year = year' /\ m = m' /\ d = d'.
Proof.
  intros Hy Hm Hd Hy' Hm' Hd' E.
  destruct (day_number_in_month year m d Hm) as [E1 D1].
  destruct (day_number_in_month year' m' d' Hm') as [E2 D2].
  rewrite E1, E2 in E. rewrite D1 in Hd. rewrite D2 in Hd'.
  set (i := month_index year m) in *. set (j := month_index year' m') in *.
  assert (Hi : 0 <= i < 1200) by (unfold i, month_index; lia).
  assert (Hj : 0 <= j < 1200) by (unfold j, month_index; lia).
  assert (Hij : i = j).
  { destruct (Z.lt_trichotomy i j) as [Hlt|[Heq|Hgt]]; [|exact Heq|].
    - pose proof (month_start_later i (Z.to_nat (j - i - 1)) ltac:(lia)) as H.
      rewrite Z2Nat.id in H by lia.
      replace (i + 1 + (j - i - 1)) with j in H by lia.
      specialize (H ltac:(lia)). lia.
    - pose proof (month_start_later j (Z.to_nat (i - j - 1)) ltac:(lia)) as H.
      rewrite Z2Nat.id in H by lia.
      replace (j + 1 + (i - j - 1)) with i in H by lia.
      specialize (H ltac:(lia)). lia. }
  rewrite Hij in E. unfold i, j, month_index in Hij.
  assert (year = year') by lia. assert (m = m') by lia. lia.
Qed.

Lemma full_year_window y : 0 <= y <= 99 -> 1969 <= full_year y <= 2068.
Proof. unfold full_year. destruct (y <=? 68) eqn:E; [apply Z.leb_le in E|apply Z.leb_gt in E]; lia. Qed.

Lemma full_year_injective y y' :
  0 <= y <= 99 -> 0 <= y' <= 99 -> full_year y = full_year y' -> y = y'.
Proof.
  unfold full_year.
  destruct (y <=? 68) eqn:E; destruct (y' <=? 68) eqn:E';
    try apply Z.leb_le in E; try apply Z.leb_gt in E;
    try apply Z.leb_le in E'; try apply Z.leb_gt in E'; lia.
Qed.

(** Two well-formed timestamps get the same date exactly when they show
    the same day, month and year, whatever their times of day: events
    of one calendar day count once, events of different days count
    separately. *)
Theorem same_date_exactly_when_same_calendar_day
    (d m y hh mm ss d' m' y' hh' mm' ss' : Z) :
  valid_timestamp d m y hh mm ss ->
  valid_timestamp d' m' y' hh' mm' ss' ->
  (option_map PyTime.dt_date (PyTime.to_datetime (timestamp_text d m y hh mm ss))
   = option_map PyTime.dt_date (PyTime.to_datetime (timestamp_text d' m' y' hh' mm' ss'))
   <-> d = d' /\ m = m' /\ y = y').
Proof.
  intros V V'.
  rewrite (proj2 (timestamp_text_parses d m y hh mm ss V)).
  rewrite (proj2 (timestamp_text_parses d' m' y' hh' mm' ss' V')).
  destruct V as (Hm & Hd & Hy & _). destruct V' as (Hm' & Hd' & Hy' & _).
  split.
  - intros E. injection E as E.
    destruct (day_number_injective _ _ _ _ _ _
                (full_year_window y Hy) Hm Hd (full_year_window y' Hy') Hm' Hd' E)
      as (Ey & Em & Ed).
    split; [exact Ed|]. split; [exact Em|].
    apply full_year_injective; assumption.
  - intros (-> & -> & ->). reflexivity.
Qed.

Lemma same_date_exactly_when_same_calendar_day_witness :
  valid_timestamp 29 2 24 8 0 0
  /\ valid_timestamp 29 2 24 23 59 59
  /\ option_map PyTime.dt_date (PyTime.to_datetime (timestamp_text 29 2 24 8 0 0))
     = option_map PyTime.dt_date (PyTime.to_datetime (timestamp_text 29 2 24 23 59 59)).
Proof.
  assert (H1 : valid_timestamp 29 2 24 8 0 0) by (vm_compute; intuition discriminate).
  assert (H2 : valid_timestamp 29 2 24 23 59 59) by (vm_compute; intuition discriminate).
  split; [exact H1|]. split; [exact H2|].
  exact (proj2 (same_date_exactly_when_same_calendar_day
                  29 2 24 8 0 0 29 2 24 23 59 59 H1 H2)
               (conj eq_refl (conj eq_refl eq_refl))).
Defined.
